(** * IPL 2025 Statistics Analyzer: a shallow embedding of [ipl_analyzer.py]

    The development follows the Python source function by function.

    - [Py] holds the Python built-ins the source calls: [str.lower],
      [str.upper], [str.capitalize], string repetition, [str(int)] and the
      format specifications [Nd], [<N], [.Nf] and [+.Nf].
    - [Pandas] holds the few DataFrame operations the source calls:
      [nlargest], [idxmax] followed by [loc], [head], and boolean selection
      followed by [iloc[0]].  They are modelled after the documented
      contract of pandas ([keep='first'] for [nlargest]; first occurrence
      of the maximum for [idxmax]).
    - The class [IPLAnalyzer] is a record of its four table attributes,
      each unset until [load_data] assigns it, and its methods are
      computations in a small state, trace and exception monad: printing,
      file writing and plotting are recorded as a trace of events, and a
      raised exception ends the run.

    - The three figure methods return the figure they hand to
      [plt.show()], as the data of its plotting calls; [main] and the
      example script are runs over the lines typed on the standard input,
      ended by a return, an uncaught exception or the end of the input.

    The tables carry the columns of the data model with their types: integer columns
    are [Z], float columns are IEEE-754 values ([spec_float]).

    A Python string is held as its UTF-8 bytes.  Python converts case by
    the Unicode tables; of these [Py] holds the ASCII letters, the two
    entries for the sharp s (U+00DF and U+1E9E) and the Kelvin sign
    (U+212A), so the conversions are exact on the strings made of ASCII
    characters and of these three.  A
    table read from a file without data rows has columns of dtype object,
    on which [nlargest] raises; the optional Strike_Rate column of the
    bowling table may be absent. *)

From Stdlib Require Import List String Ascii ZArith Lia Bool Arith.
From Stdlib Require Import Permutation Sorted.
From Stdlib Require Import DecimalString.
From Stdlib Require Import SpecFloat.
Import ListNotations.

Local Open Scope string_scope.

(* ================================================================== *)
(** * Python built-ins *)
(* ================================================================== *)

Module Py.

(** The line feed character, written [\n] in the source. *)
Definition nl : string := String (ascii_of_nat 10) EmptyString.

Definition is_upper (c : ascii) : bool :=
  let n := nat_of_ascii c in (65 <=? n)%nat && (n <=? 90)%nat.

Definition is_lower (c : ascii) : bool :=
  let n := nat_of_ascii c in (97 <=? n)%nat && (n <=? 122)%nat.

Definition lower_char (c : ascii) : ascii :=
  if is_upper c then ascii_of_nat (nat_of_ascii c + 32) else c.

Definition upper_char (c : ascii) : ascii :=
  if is_lower c then ascii_of_nat (nat_of_ascii c - 32) else c.

(** The bytes [C3 9F] are the small sharp s, U+00DF. *)
Definition is_sharp_s (c c1 : ascii) : bool :=
  (nat_of_ascii c =? 195)%nat && (nat_of_ascii c1 =? 159)%nat.

(** The bytes [E1 BA 9E] are the capital sharp s, U+1E9E. *)
Definition is_capital_sharp_s (c c1 c2 : ascii) : bool :=
  (nat_of_ascii c =? 225)%nat && (nat_of_ascii c1 =? 186)%nat
  && (nat_of_ascii c2 =? 158)%nat.

(** The bytes [E2 84 AA] are the Kelvin sign, U+212A. *)
Definition is_kelvin_sign (c c1 c2 : ascii) : bool :=
  (nat_of_ascii c =? 226)%nat && (nat_of_ascii c1 =? 132)%nat
  && (nat_of_ascii c2 =? 170)%nat.

(** [str.lower()]: the capital sharp s becomes the small one, the Kelvin
    sign the letter [k]. *)
Fixpoint lower (s : string) : string :=
  match s with
  | EmptyString => EmptyString
  | String c s' =>
      match s' with
      | String c1 (String c2 s'') =>
          if is_capital_sharp_s c c1 c2
          then String (ascii_of_nat 195) (String (ascii_of_nat 159) (lower s''))
          else if is_kelvin_sign c c1 c2
          then String "k" (lower s'')
          else String (lower_char c) (lower s')
      | _ => String (lower_char c) (lower s')
      end
  end.

(** [str.upper()]: the small sharp s becomes [SS]; the capital one and
    the Kelvin sign are upper case already. *)
Fixpoint upper (s : string) : string :=
  match s with
  | EmptyString => EmptyString
  | String c s' =>
      match s' with
      | String c1 s'' =>
          if is_sharp_s c c1
          then String "S" (String "S" (upper s''))
          else String (upper_char c) (upper s')
      | EmptyString => String (upper_char c) (upper s')
      end
  end.

(** [str.capitalize()]: first character in title case, the rest in lower
    case; the title case of the small sharp s is [Ss]. *)
Definition capitalize (s : string) : string :=
  match s with
  | EmptyString => EmptyString
  | String c s' =>
      match s' with
      | String c1 s'' =>
          if is_sharp_s c c1
          then String "S" (String "s" (lower s''))
          else String (upper_char c) (lower s')
      | EmptyString => String (upper_char c) (lower s')
      end
  end.

(** The string holds ASCII characters only. *)
Fixpoint ascii_only (s : string) : bool :=
  match s with
  | EmptyString => true
  | String c s' => (nat_of_ascii c <? 128)%nat && ascii_only s'
  end.

(** An ASCII character other than the letter [k]. *)
Definition plain_char (c : ascii) : bool :=
  (nat_of_ascii c <? 128)%nat && negb (nat_of_ascii c =? 107)%nat.

(** The string holds ASCII characters only and no letter [k]: no
    character outside ASCII has a lower-case form in such a string. *)
Fixpoint plain (s : string) : bool :=
  match s with
  | EmptyString => true
  | String c s' => plain_char c && plain s'
  end.

(** [s * n] *)
Fixpoint str_mul (s : string) (n : nat) : string :=
  match n with
  | O => EmptyString
  | S n' => s ++ str_mul s n'
  end.

(** [str(i)] for an integer, also what [{i}] renders in an f-string. *)
Definition str_int (i : Z) : string := NilZero.string_of_int (Z.to_int i).

(** [str.rjust(width)] and [str.ljust(width)] with spaces. *)
Definition rjust (width : nat) (s : string) : string :=
  str_mul " " (width - String.length s) ++ s.

Definition ljust (width : nat) (s : string) : string :=
  s ++ str_mul " " (width - String.length s).

(** [{i:Nd}]: an integer is right-aligned in a field of [width]. *)
Definition format_d (width : nat) (i : Z) : string := rjust width (str_int i).

(** [{s:<N}]: a string is left-aligned in a field of [width]. *)
Definition format_left (width : nat) (s : string) : string := ljust width s.

(** Correct rounding of [num / den] to an integer, ties to even, as the
    float formatting of CPython does on the exact binary value. *)
Definition round_half_even (num den : Z) : Z :=
  let q := (num / den)%Z in
  let r := (num mod den)%Z in
  if (den <? 2 * r)%Z then (q + 1)%Z
  else if ((2 * r =? den)%Z && Z.odd q) then (q + 1)%Z
  else q.

(** [|x| * 10^prec] rounded to an integer, for [|x| = m * 2^e]. *)
Definition scaled (prec : nat) (m : positive) (e : Z) : Z :=
  let num := (Z.pos m * 10 ^ Z.of_nat prec)%Z in
  if (0 <=? e)%Z then (num * 2 ^ e)%Z else round_half_even num (2 ^ (- e))%Z.

Definition digit_char (d : Z) : ascii := ascii_of_nat (48 + Z.to_nat d).

(** The [p] low decimal digits of [n], most significant first. *)
Fixpoint digits_fixed (p : nat) (n : Z) : string :=
  match p with
  | O => EmptyString
  | S p' => digits_fixed p' (n / 10) ++ String (digit_char (n mod 10)) EmptyString
  end.

Definition fixed_point (prec : nat) (scaled_value : Z) : string :=
  let unit := (10 ^ Z.of_nat prec)%Z in
  str_int (scaled_value / unit) ++
  match prec with
  | O => EmptyString
  | _ => "." ++ digits_fixed prec (scaled_value mod unit)
  end.

Definition sign_prefix (plus negative : bool) : string :=
  if negative then "-" else if plus then "+" else EmptyString.

(** [{x:.Nf}] ([plus = false]) and [{x:+.Nf}] ([plus = true]). *)
Definition format_f (plus : bool) (prec : nat) (x : spec_float) : string :=
  match x with
  | S754_nan => sign_prefix plus false ++ "nan"
  | S754_infinity s => sign_prefix plus s ++ "inf"
  | S754_zero s => sign_prefix plus s ++ fixed_point prec 0
  | S754_finite s m e => sign_prefix plus s ++ fixed_point prec (scaled prec m e)
  end.

End Py.

(* ================================================================== *)
(** * The DataFrame operations the source calls *)
(* ================================================================== *)

Module Pandas.

Section Frame.
Context {A : Type}.

  (** The integer column an operation ranks by. *)
Variable key : A -> Z.

  (** Rows are kept in descending order of [key]; a row goes in front of
      the rows it ties with, so that sorting from the last row to the
      first keeps tied rows in their original order. *)
Fixpoint insert_desc (x : A) (l : list A) : list A :=
    match l with
    | [] => [x]
    | y :: l' =>
        if (key y <=? key x)%Z then x :: y :: l' else y :: insert_desc x l'
    end.

Fixpoint sort_desc (l : list A) : list A :=
    match l with
    | [] => []
    | x :: l' => insert_desc x (sort_desc l')
    end.

  (** The first [n] rows in descending order of the column, tied rows in
      their original order; no row when [n <= 0]. *)
Definition top_rows (n : Z) (df : list A) : list A :=
    firstn (Z.to_nat n) (sort_desc df).

  (** [df.nlargest(n, column)] with the default [keep='first'].  A frame
      read from a file without data rows has columns of dtype object, for
      which [nlargest] raises [TypeError]: [None] stands for it. *)
Definition nlargest (n : Z) (df : list A) : option (list A) :=
    match df with
    | [] => None
    | _ :: _ => Some (top_rows n df)
    end.

Fixpoint argmax_from (best_i : nat) (best : Z) (i : nat) (l : list A) : nat :=
    match l with
    | [] => best_i
    | x :: l' =>
        if (best <? key x)%Z then argmax_from i (key x) (S i) l'
        else argmax_from best_i best (S i) l'
    end.

  (** [df[column].idxmax()]: the label of the first occurrence of the
      maximum; [None] stands for the [ValueError] on an empty column.
      The frames come from [read_csv], so labels are row positions. *)
Definition idxmax (df : list A) : option nat :=
    match df with
    | [] => None
    | x :: l => Some (argmax_from 0 (key x) 1 l)
    end.
End Frame.

(** [df.loc[label]]; [None] stands for the [KeyError]. *)
Definition loc {A : Type} (df : list A) (label : nat) : option A :=
  nth_error df label.

(** [df.head(n)] *)
Definition head {A : Type} (n : nat) (df : list A) : list A := firstn n df.

(** [df[df[column] == value]] for a string column. *)
Definition select_eq {A : Type} (column : A -> string) (value : string)
    (df : list A) : list A :=
  filter (fun r => String.eqb (column r) value) df.

(** [df.iloc[0]]; [None] stands for the [IndexError]. *)
Definition iloc0 {A : Type} (df : list A) : option A :=
  match df with
  | [] => None
  | r :: _ => Some r
  end.

End Pandas.

(* ================================================================== *)
(** * The four tables *)
(* ================================================================== *)

Module Batting.
Record row := mk {
    Player : string; Team : string; Runs : Z;
    Average : spec_float; Strike_Rate : spec_float;
    Fours : Z; Sixes : Z }.
End Batting.

Module Bowling.
Record row := mk {
    Player : string; Team : string; Wickets : Z;
    Economy : spec_float; Average : spec_float;
    (* The column is optional: [None] in the rows of a table read from a
       file without it.  In a table that has the column an empty cell is
       the float NaN, as in the other float columns. *)
    Strike_Rate : option spec_float }.
End Bowling.

Module Fielding.
Record row := mk {
    Player : string; Team : string; Catches : Z; Matches : Z }.
End Fielding.

Module Teams.
Record row := mk {
    Position : Z; Team : string; Points : Z; NRR : spec_float;
    Total_Runs : Z; Won : Z; Lost : Z; Highest_Total : Z }.
End Teams.

(** A value of a frame handed to printing or plotting. *)
Inductive Cell :=
| CInt (i : Z)
| CFloat (x : spec_float)
| CStr (s : string).

(** One group of bars of the comparison chart. *)
Record Bars := mkBars { label : string; heights : list Cell }.

(** What [compare_players] hands to the plotting library. *)
Record Chart := mkChart {
  title : string;
  xticklabels : list string;
  bars1 : Bars;
  bars2 : Bars }.

(** The observable actions of the analyzer. *)
Inductive Event :=
| Print (line : string)
| PrintFrame (columns : list string) (rows : list (list Cell))
| Open (filename : string)
| Write (filename : string) (text : string)
| ShowChart (c : Chart).

(** The exceptions of the runs.  [KeyError] is the one of a row label,
    [MissingColumn] the [KeyError] of a column the table does not have. *)
Inductive Exn :=
| FileNotFoundError (filename : string)
| ParserError (filename : string)
| EmptyDataError (filename : string)
| PermissionError (filename : string)
| UnicodeDecodeError (filename : string)
| AttributeError (attribute : string)
| ValueError (message : string)
| TypeError (message : string)
| KeyError (label : nat)
| MissingColumn (column : string)
| IndexError.

(** What [read_csv] finds at a path: no file, a file on which it raises
    [e] (a parser error, an empty file, a file it may not open or cannot
    decode), or the rows of a table. *)
Inductive Source (A : Type) :=
| NoSuchFile
| Unreadable (e : Exn)
| Csv (rows : list A).
Arguments NoSuchFile {A}.
Arguments Unreadable {A} e.
Arguments Csv {A} rows.

Record Directory := mkDirectory {
  ipl_2025_batting_stats : Source Batting.row;
  ipl_2025_bowling_stats : Source Bowling.row;
  ipl_2025_fielding_stats : Source Fielding.row;
  ipl_2025_team_stats : Source Teams.row }.

(** [datetime.now()] *)
Record datetime := mkDatetime {
  year : Z; month : Z; day : Z; hour : Z; minute : Z; second : Z }.

(** The object: an attribute is [None] until [load_data] assigns it. *)
Record IPLAnalyzer := mkAnalyzer {
  batting_df : option (list Batting.row);
  bowling_df : option (list Bowling.row);
  fielding_df : option (list Fielding.row);
  team_df : option (list Teams.row) }.

(* ================================================================== *)
(** * Traces, exceptions and the object's state *)
(* ================================================================== *)

Inductive Outcome (A : Type) :=
| Returned (a : A)
| Raised (e : Exn).
Arguments Returned {A} a.
Arguments Raised {A} e.

Record Result (A : Type) := mkResult {
  trace : list Event;
  final : IPLAnalyzer;
  outcome : Outcome A }.
Arguments mkResult {A}.
Arguments trace {A}.
Arguments final {A}.
Arguments outcome {A}.

Definition M (A : Type) : Type := IPLAnalyzer -> Result A.

Definition ret {A : Type} (a : A) : M A :=
  fun self => mkResult [] self (Returned a).

Definition raise {A : Type} (e : Exn) : M A :=
  fun self => mkResult [] self (Raised e).

Definition bind {A B : Type} (m : M A) (k : A -> M B) : M B :=
  fun self =>
    let r := m self in
    match outcome r with
    | Returned a =>
        let r' := k a (final r) in
        mkResult (trace r ++ trace r') (final r') (outcome r')
    | Raised e => mkResult (trace r) (final r) (Raised e)
    end.

(** [try: body except: handler] *)
Definition try_except {A : Type} (body : M A) (handler : Exn -> M A) : M A :=
  fun self =>
    let r := body self in
    match outcome r with
    | Returned a => r
    | Raised e =>
        let r' := handler e (final r) in
        mkResult (trace r ++ trace r') (final r') (outcome r')
    end.

Declare Scope py_scope.
Delimit Scope py_scope with py.
Notation "x <- m ;; k" := (bind m (fun x => k))
  (at level 61, m at next level, right associativity) : py_scope.
Notation "m ;; k" := (bind m (fun _ => k))
  (at level 61, right associativity) : py_scope.
Local Open Scope py_scope.

Definition emit (ev : Event) : M unit :=
  fun self => mkResult [ev] self (Returned tt).

Definition print (line : string) : M unit := emit (Print line).

(** [self.name], an [AttributeError] while the attribute is unset. *)
Definition getattr {A : Type} (name : string) (field : IPLAnalyzer -> option A)
    : M A :=
  fun self =>
    match field self with
    | Some v => ret v self
    | None => raise (AttributeError name) self
    end.

Definition modify (f : IPLAnalyzer -> IPLAnalyzer) : M unit :=
  fun self => mkResult [] (f self) (Returned tt).

Definition or_raise {A : Type} (e : Exn) (o : option A) : M A :=
  match o with
  | Some v => ret v
  | None => raise e
  end.

(** [for x in xs: body x] *)
Fixpoint for_each {A : Type} (xs : list A) (body : A -> M unit) : M unit :=
  match xs with
  | [] => ret tt
  | x :: xs' => body x ;; for_each xs' body
  end.

(* ================================================================== *)
(** * class IPLAnalyzer *)
(* ================================================================== *)

Import Py.

(** [pd.read_csv(filename)] *)
Definition read_csv {A : Type} (filename : string) (src : Source A) : M (list A) :=
  match src with
  | NoSuchFile => raise (FileNotFoundError filename)
  | Unreadable e => raise e
  | Csv rows => ret rows
  end.

(** [str(e)] for the exception [load_data] catches. *)
Definition str_exn (e : Exn) : string :=
  match e with
  | FileNotFoundError filename =>
      "[Errno 2] No such file or directory: '" ++ filename ++ "'"
  | _ => EmptyString
  end.

Definition set_batting_df (v : list Batting.row) (self : IPLAnalyzer) :=
  mkAnalyzer (Some v) (bowling_df self) (fielding_df self) (team_df self).
Definition set_bowling_df (v : list Bowling.row) (self : IPLAnalyzer) :=
  mkAnalyzer (batting_df self) (Some v) (fielding_df self) (team_df self).
Definition set_fielding_df (v : list Fielding.row) (self : IPLAnalyzer) :=
  mkAnalyzer (batting_df self) (bowling_df self) (Some v) (team_df self).
Definition set_team_df (v : list Teams.row) (self : IPLAnalyzer) :=
  mkAnalyzer (batting_df self) (bowling_df self) (fielding_df self) (Some v).

(** [load_data]: only [FileNotFoundError] is caught. *)
Definition load_data (dir : Directory) : M unit :=
  try_except
    (b <- read_csv "ipl_2025_batting_stats.csv" (ipl_2025_batting_stats dir) ;;
     modify (set_batting_df b) ;;
     w <- read_csv "ipl_2025_bowling_stats.csv" (ipl_2025_bowling_stats dir) ;;
     modify (set_bowling_df w) ;;
     f <- read_csv "ipl_2025_fielding_stats.csv" (ipl_2025_fielding_stats dir) ;;
     modify (set_fielding_df f) ;;
     t <- read_csv "ipl_2025_team_stats.csv" (ipl_2025_team_stats dir) ;;
     modify (set_team_df t) ;;
     print "✅ All datasets loaded successfully!")
    (fun e =>
       match e with
       | FileNotFoundError _ =>
           print ("❌ Error loading data: " ++ str_exn e) ;;
           print "Please ensure all CSV files are in the current directory"
       | _ => raise e
       end).

Definition str_len {A : Type} (l : list A) : string :=
  str_int (Z.of_nat (List.length l)).

(** [__init__] *)
Definition init (dir : Directory) : M unit :=
  load_data dir ;;
  print "🏏 IPL 2025 Statistics Analyzer Initialized!" ;;
  b <- getattr "batting_df" batting_df ;;
  w <- getattr "bowling_df" bowling_df ;;
  print ("📊 Loaded data for " ++ str_len b ++ " batsmen, " ++ str_len w
         ++ " bowlers") ;;
  f <- getattr "fielding_df" fielding_df ;;
  t <- getattr "team_df" team_df ;;
  print ("🥅 " ++ str_len f ++ " fielders, and " ++ str_len t ++ " teams").

(** The object before [__init__] has run. *)
Definition unloaded : IPLAnalyzer := mkAnalyzer None None None None.

(** [IPLAnalyzer()] *)
Definition new (dir : Directory) : Result unit := init dir unloaded.

(** [df.loc[df[column].idxmax()]] *)
Definition row_of_max {A : Type} (key : A -> Z) (df : list A) : M A :=
  i <- or_raise (ValueError "attempt to get argmax of an empty sequence")
         (Pandas.idxmax key df) ;;
  or_raise (KeyError i) (Pandas.loc df i).

Definition award_line (cap player team : string) (value : Z) (unit : string)
    : string :=
  cap ++ ": " ++ player ++ " (" ++ team ++ ") - " ++ str_int value ++ " " ++ unit.

Definition standing_line (team : Teams.row) : string :=
  str_int (Teams.Position team) ++ ". " ++ Teams.Team team ++ " - "
  ++ str_int (Teams.Points team) ++ " pts (NRR: "
  ++ format_f true 3 (Teams.NRR team) ++ ")".

(** [display_summary] *)
Definition display_summary : M unit :=
  print (nl ++ str_mul "=" 60) ;;
  print "🏆 IPL 2025 TOURNAMENT SUMMARY" ;;
  print (str_mul "=" 60) ;;
  print "🥇 Champion: Royal Challengers Bengaluru" ;;
  print "🥈 Runner-up: Punjab Kings" ;;
  print "🏃 Final Margin: 6 runs" ;;
  b <- getattr "batting_df" batting_df ;;
  orange_cap <- row_of_max Batting.Runs b ;;
  w <- getattr "bowling_df" bowling_df ;;
  purple_cap <- row_of_max Bowling.Wickets w ;;
  f <- getattr "fielding_df" fielding_df ;;
  best_fielder <- row_of_max Fielding.Catches f ;;
  print (nl ++ award_line "🟠 Orange Cap" (Batting.Player orange_cap)
           (Batting.Team orange_cap) (Batting.Runs orange_cap) "runs") ;;
  print (award_line "🟣 Purple Cap" (Bowling.Player purple_cap)
           (Bowling.Team purple_cap) (Bowling.Wickets purple_cap) "wickets") ;;
  print (award_line "🥅 Best Fielder" (Fielding.Player best_fielder)
           (Fielding.Team best_fielder) (Fielding.Catches best_fielder) "catches") ;;
  print (nl ++ "📊 POINTS TABLE (Top 4):") ;;
  t <- getattr "team_df" team_df ;;
  let top_4 := Pandas.head 4 t in
  for_each top_4 (fun team => print (standing_line team)).

Definition batting_columns : list string :=
  ["Player"; "Team"; "Runs"; "Average"; "Strike_Rate"].
Definition bowling_columns : list string :=
  ["Player"; "Team"; "Wickets"; "Economy"; "Average"].
Definition fielding_columns : list string :=
  ["Player"; "Team"; "Catches"; "Matches"].

Definition batting_cells (r : Batting.row) : list Cell :=
  [CStr (Batting.Player r); CStr (Batting.Team r); CInt (Batting.Runs r);
   CFloat (Batting.Average r); CFloat (Batting.Strike_Rate r)].
Definition bowling_cells (r : Bowling.row) : list Cell :=
  [CStr (Bowling.Player r); CStr (Bowling.Team r); CInt (Bowling.Wickets r);
   CFloat (Bowling.Economy r); CFloat (Bowling.Average r)].
Definition fielding_cells (r : Fielding.row) : list Cell :=
  [CStr (Fielding.Player r); CStr (Fielding.Team r); CInt (Fielding.Catches r);
   CInt (Fielding.Matches r)].

(** [df.nlargest(n, column)] in a method. *)
Definition nlargest {A : Type} (column : string) (key : A -> Z) (n : Z)
    (df : list A) : M (list A) :=
  or_raise
    (TypeError ("Column '" ++ column ++ "' has dtype object, cannot use method "
                ++ "'nlargest' with this dtype"))
    (Pandas.nlargest key n df).

(** [print(top.to_string(index=False))] *)
Definition print_frame (columns : list string) (rows : list (list Cell)) : M unit :=
  emit (PrintFrame columns rows).

(** [top_performers] *)
Definition top_performers (category : string) (n : Z) : M unit :=
  print (nl ++ "🌟 TOP " ++ str_int n ++ " " ++ upper category ++ " PERFORMERS") ;;
  print (str_mul "-" 50) ;;
  if lower category =? "batting" then
    df <- getattr "batting_df" batting_df ;;
    rows <- nlargest "Runs" Batting.Runs n df ;;
    let top := map batting_cells rows in
    print_frame batting_columns top
  else if lower category =? "bowling" then
    df <- getattr "bowling_df" bowling_df ;;
    rows <- nlargest "Wickets" Bowling.Wickets n df ;;
    let top := map bowling_cells rows in
    print_frame bowling_columns top
  else if lower category =? "fielding" then
    df <- getattr "fielding_df" fielding_df ;;
    rows <- nlargest "Catches" Fielding.Catches n df ;;
    let top := map fielding_cells rows in
    print_frame fielding_columns top
  else ret tt.

Definition batting_metrics : list string :=
  ["Runs"; "Average"; "Strike_Rate"; "Fours"; "Sixes"].
Definition bowling_metrics : list string :=
  ["Wickets"; "Economy"; "Average"; "Strike_Rate"].

(** [[p_data[metric] for metric in metrics]]; a metric the table has no
    column for raises its [KeyError]. *)
Definition batting_values (r : Batting.row) : M (list Cell) :=
  ret [CInt (Batting.Runs r); CFloat (Batting.Average r);
       CFloat (Batting.Strike_Rate r); CInt (Batting.Fours r);
       CInt (Batting.Sixes r)].
Definition bowling_values (r : Bowling.row) : M (list Cell) :=
  strike_rate <- or_raise (MissingColumn "Strike_Rate") (Bowling.Strike_Rate r) ;;
  ret [CInt (Bowling.Wickets r); CFloat (Bowling.Economy r);
       CFloat (Bowling.Average r); CFloat strike_rate].

(** [df[df['Player'] == player].iloc[0]] *)
Definition first_match {A : Type} (player_of : A -> string) (player : string)
    (df : list A) : M A :=
  or_raise IndexError (Pandas.iloc0 (Pandas.select_eq player_of player df)).

(** The grouped bar chart [compare_players] draws: the bars of [player1]
    to the left of each tick, those of [player2] to the right. *)
Definition comparison_chart (category : string) (metrics : list string)
    (player1 team1 : string) (p1_values : list Cell)
    (player2 team2 : string) (p2_values : list Cell) : Chart :=
  mkChart
    (capitalize category ++ " Comparison: " ++ player1 ++ " vs " ++ player2)
    metrics
    (mkBars (player1 ++ " (" ++ team1 ++ ")") p1_values)
    (mkBars (player2 ++ " (" ++ team2 ++ ")") p2_values).

(** The body of [compare_players] after the table is chosen: the two
    lookups under [try], then the metric values and the chart. *)
Definition compare_in {A : Type} (player_of team_of : A -> string)
    (values : A -> M (list Cell)) (metrics : list string) (df : list A)
    (player1 player2 category : string) : M unit :=
  found <- try_except
    (p1_data <- first_match player_of player1 df ;;
     p2_data <- first_match player_of player2 df ;;
     ret (Some (p1_data, p2_data)))
    (fun e =>
       match e with
       | IndexError =>
           print "One or both players not found in the dataset" ;; ret None
       | _ => raise e
       end) ;;
  match found with
  | None => ret tt
  | Some (p1_data, p2_data) =>
      p1_values <- values p1_data ;;
      p2_values <- values p2_data ;;
      emit (ShowChart
        (comparison_chart category metrics
           player1 (team_of p1_data) p1_values
           player2 (team_of p2_data) p2_values))
  end.

(** [compare_players] *)
Definition compare_players (player1 player2 category : string) : M unit :=
  if lower category =? "batting" then
    df <- getattr "batting_df" batting_df ;;
    compare_in Batting.Player Batting.Team batting_values batting_metrics df
      player1 player2 category
  else if lower category =? "bowling" then
    df <- getattr "bowling_df" bowling_df ;;
    compare_in Bowling.Player Bowling.Team bowling_values bowling_metrics df
      player1 player2 category
  else
    print "Category must be 'batting' or 'bowling'".

(** [strftime('%Y-%m-%d %H:%M:%S')] *)
Definition strftime (t : datetime) : string :=
  digits_fixed 4 (year t) ++ "-" ++ digits_fixed 2 (month t) ++ "-"
  ++ digits_fixed 2 (day t) ++ " " ++ digits_fixed 2 (hour t) ++ ":"
  ++ digits_fixed 2 (minute t) ++ ":" ++ digits_fixed 2 (second t).

Definition timestamp_line (now : datetime) : string :=
  "Generated on: " ++ strftime now ++ nl ++ nl.

Definition team_line (team : Teams.row) : string :=
  format_d 2 (Teams.Position team) ++ ". " ++ format_left 4 (Teams.Team team)
  ++ " - " ++ format_d 2 (Teams.Points team) ++ " pts | "
  ++ "W: " ++ format_d 2 (Teams.Won team) ++ " L: "
  ++ format_d 2 (Teams.Lost team) ++ " | NRR: "
  ++ format_f true 3 (Teams.NRR team) ++ nl.

Definition batsman_line (player : Batting.row) : string :=
  format_left 20 (Batting.Player player) ++ " (" ++ Batting.Team player ++ ") - "
  ++ format_d 3 (Batting.Runs player) ++ " runs @ "
  ++ format_f false 2 (Batting.Average player) ++ " avg, SR: "
  ++ format_f false 2 (Batting.Strike_Rate player) ++ nl.

Definition bowler_line (player : Bowling.row) : string :=
  format_left 20 (Bowling.Player player) ++ " (" ++ Bowling.Team player ++ ") - "
  ++ format_d 2 (Bowling.Wickets player) ++ " wickets @ "
  ++ format_f false 2 (Bowling.Average player) ++ " avg, Econ: "
  ++ format_f false 2 (Bowling.Economy player) ++ nl.

(** [generate_report]; [now] is the value [datetime.now()] returns. *)
Definition generate_report (filename : string) (now : datetime) : M unit :=
  let write := fun text => emit (Write filename text) in
  emit (Open filename) ;;
  write ("IPL 2025 COMPREHENSIVE ANALYSIS REPORT" ++ nl) ;;
  write (str_mul "=" 50 ++ nl ++ nl) ;;
  write (timestamp_line now) ;;
  write ("TOURNAMENT SUMMARY" ++ nl) ;;
  write (str_mul "-" 20 ++ nl) ;;
  write ("Champion: Royal Challengers Bengaluru" ++ nl) ;;
  write ("Runner-up: Punjab Kings" ++ nl) ;;
  write ("Total Teams: 10" ++ nl) ;;
  write ("Total Matches: 74" ++ nl ++ nl) ;;
  b <- getattr "batting_df" batting_df ;;
  orange_cap <- row_of_max Batting.Runs b ;;
  w <- getattr "bowling_df" bowling_df ;;
  purple_cap <- row_of_max Bowling.Wickets w ;;
  f <- getattr "fielding_df" fielding_df ;;
  best_fielder <- row_of_max Fielding.Catches f ;;
  write ("INDIVIDUAL AWARDS" ++ nl) ;;
  write (str_mul "-" 20 ++ nl) ;;
  write (award_line "Orange Cap" (Batting.Player orange_cap)
           (Batting.Team orange_cap) (Batting.Runs orange_cap) "runs" ++ nl) ;;
  write (award_line "Purple Cap" (Bowling.Player purple_cap)
           (Bowling.Team purple_cap) (Bowling.Wickets purple_cap) "wickets" ++ nl) ;;
  write (award_line "Best Fielder" (Fielding.Player best_fielder)
           (Fielding.Team best_fielder) (Fielding.Catches best_fielder) "catches"
         ++ nl ++ nl) ;;
  write ("FINAL POINTS TABLE" ++ nl) ;;
  write (str_mul "-" 20 ++ nl) ;;
  t <- getattr "team_df" team_df ;;
  for_each t (fun team => write (team_line team)) ;;
  write (nl ++ "TOP 5 BATSMEN" ++ nl) ;;
  write (str_mul "-" 20 ++ nl) ;;
  b' <- getattr "batting_df" batting_df ;;
  top_batsmen <- nlargest "Runs" Batting.Runs 5 b' ;;
  for_each top_batsmen (fun player => write (batsman_line player)) ;;
  write (nl ++ "TOP 5 BOWLERS" ++ nl) ;;
  write (str_mul "-" 20 ++ nl) ;;
  w' <- getattr "bowling_df" bowling_df ;;
  top_bowlers <- nlargest "Wickets" Bowling.Wickets 5 w' ;;
  for_each top_bowlers (fun player => write (bowler_line player)) ;;
  print ("📄 Report generated: " ++ filename).

(* ================================================================== *)
(** * Vocabulary of the properties *)
(* ================================================================== *)

Section Ranking.
Context {A : Type}.
Variable key : A -> Z.

  (** Row [i] ranks before row [j] of [df]: it has the larger value, or
      the same value and the earlier position. *)
Definition ranks_before (df : list A) (i j : nat) : Prop :=
    exists a b,
      nth_error df i = Some a /\ nth_error df j = Some b /\
      (key b < key a \/ (key a = key b /\ (i < j)%nat))%Z.

  (** [sel] lists, best first, rows of [df] that all rank before every
      row of [df] left out. *)
Definition top_ranked (df sel : list A) : Prop :=
    exists idxs : list nat,
      map (nth_error df) idxs = map Some sel /\
      StronglySorted (ranks_before df) idxs /\
      forall i j, In i idxs -> (j < List.length df)%nat -> ~ In j idxs ->
                  ranks_before df i j.

  (** [r] holds the maximum of [key] over [df] and is the first row of
      [df] to do so. *)
Definition first_maximum (df : list A) (r : A) : Prop :=
    exists i,
      nth_error df i = Some r /\
      (forall r', In r' df -> key r' <= key r)%Z /\
      (forall j r', (j < i)%nat -> nth_error df j = Some r' -> key r' < key r)%Z.
End Ranking.

(** Rows paired with their positions, from position [s] on. *)
Fixpoint number_from {A : Type} (s : nat) (l : list A) : list (nat * A) :=
  match l with
  | [] => []
  | x :: l' => (s, x) :: number_from (S s) l'
  end.

(** The ranking order on numbered rows. *)
Definition before {A : Type} (key : A -> Z) (p q : nat * A) : Prop :=
  (key (snd q) < key (snd p) \/ (key (snd p) = key (snd q) /\ (fst p < fst q)%nat))%Z.

Section Lookup.
Context {A : Type}.
Variable player_of : A -> string.

Definition present (name : string) (df : list A) : Prop :=
    exists r, In r df /\ player_of r = name.

  (** [r] is the first row of [df] whose player is exactly [name]. *)
Definition first_row_of (name : string) (df : list A) (r : A) : Prop :=
    exists i,
      nth_error df i = Some r /\ player_of r = name /\
      forall j r', (j < i)%nat -> nth_error df j = Some r' -> player_of r' <> name.
End Lookup.

(** The team table in ascending order of [Position], as the specification
    words it; tied rows keep their order. *)
Fixpoint insert_by_Position (x : Teams.row) (l : list Teams.row) : list Teams.row :=
  match l with
  | [] => [x]
  | y :: l' =>
      if (Teams.Position x <=? Teams.Position y)%Z then x :: y :: l'
      else y :: insert_by_Position x l'
  end.

Fixpoint ordered_by_Position (l : list Teams.row) : list Teams.row :=
  match l with
  | [] => []
  | x :: l' => insert_by_Position x (ordered_by_Position l')
  end.

(** The table is stored in ascending order of [Position]. *)
Definition stored_by_Position (l : list Teams.row) : Prop :=
  StronglySorted (fun x y => (Teams.Position x <= Teams.Position y)%Z) l.

Definition is_finite (x : spec_float) : Prop :=
  match x with
  | S754_zero _ | S754_finite _ _ _ => True
  | _ => False
  end.

(** The fixed part of what [display_summary] prints before the awards. *)
Definition summary_banner : list Event :=
  [Print (nl ++ str_mul "=" 60);
   Print "🏆 IPL 2025 TOURNAMENT SUMMARY";
   Print (str_mul "=" 60);
   Print "🥇 Champion: Royal Challengers Bengaluru";
   Print "🥈 Runner-up: Punjab Kings";
   Print "🏃 Final Margin: 6 runs"].

Definition summary_awards (o : Batting.row) (p : Bowling.row) (c : Fielding.row)
    : list Event :=
  [Print (nl ++ award_line "🟠 Orange Cap" (Batting.Player o) (Batting.Team o)
            (Batting.Runs o) "runs");
   Print (award_line "🟣 Purple Cap" (Bowling.Player p) (Bowling.Team p)
            (Bowling.Wickets p) "wickets");
   Print (award_line "🥅 Best Fielder" (Fielding.Player c) (Fielding.Team c)
            (Fielding.Catches c) "catches")].

(** What [generate_report] writes before the awards, but for the
    timestamp line. *)
Definition report_title (filename : string) : list Event :=
  [Open filename;
   Write filename ("IPL 2025 COMPREHENSIVE ANALYSIS REPORT" ++ nl);
   Write filename (str_mul "=" 50 ++ nl ++ nl)].

Definition report_summary (filename : string) : list Event :=
  [Write filename ("TOURNAMENT SUMMARY" ++ nl);
   Write filename (str_mul "-" 20 ++ nl);
   Write filename ("Champion: Royal Challengers Bengaluru" ++ nl);
   Write filename ("Runner-up: Punjab Kings" ++ nl);
   Write filename ("Total Teams: 10" ++ nl);
   Write filename ("Total Matches: 74" ++ nl ++ nl)].

Definition report_awards (filename : string) (o : Batting.row) (p : Bowling.row)
    (c : Fielding.row) : list Event :=
  [Write filename ("INDIVIDUAL AWARDS" ++ nl);
   Write filename (str_mul "-" 20 ++ nl);
   Write filename (award_line "Orange Cap" (Batting.Player o) (Batting.Team o)
                     (Batting.Runs o) "runs" ++ nl);
   Write filename (award_line "Purple Cap" (Bowling.Player p) (Bowling.Team p)
                     (Bowling.Wickets p) "wickets" ++ nl);
   Write filename (award_line "Best Fielder" (Fielding.Player c) (Fielding.Team c)
                     (Fielding.Catches c) "catches" ++ nl ++ nl)].

Definition report_top5 (filename : string) (b : list Batting.row)
    (w : list Bowling.row) : list Event :=
  [Write filename (nl ++ "TOP 5 BATSMEN" ++ nl);
   Write filename (str_mul "-" 20 ++ nl)]
  ++ map (fun player => Write filename (batsman_line player))
       (Pandas.top_rows Batting.Runs 5 b)
  ++ [Write filename (nl ++ "TOP 5 BOWLERS" ++ nl);
      Write filename (str_mul "-" 20 ++ nl)]
  ++ map (fun player => Write filename (bowler_line player))
       (Pandas.top_rows Bowling.Wickets 5 w)
  ++ [Print ("📄 Report generated: " ++ filename)].

(** The header [top_performers] prints for every category. *)
Definition top_header (category : string) (n : Z) : list Event :=
  [Print (nl ++ "🌟 TOP " ++ str_int n ++ " " ++ upper category ++ " PERFORMERS");
   Print (str_mul "-" 50)].

(** The scenario tables of the specification. *)
Definition scenario_batting : list Batting.row :=
  [Batting.mk "A" "TeamX" 50 (S754_finite false 25 0) (S754_finite false 120 0) 4 1;
   Batting.mk "B" "TeamY" 80 (S754_finite false 81 (-1)) (S754_finite false 150 0) 9 3;
   Batting.mk "C" "TeamX" 80 (S754_finite false 20 0) (S754_finite false 555 (-2)) 7 5].

Definition scenario_bowling : list Bowling.row :=
  [Bowling.mk "P" "TeamX" 12 (S754_finite false 33 (-2)) (S754_finite false 21 0)
     (Some (S754_finite false 18 0));
   Bowling.mk "Q" "TeamY" 25 (S754_finite false 15 (-1)) (S754_finite false 19 0)
     (Some (S754_finite false 14 0))].

(** The same bowlers in a table that has no Strike_Rate column. *)
Definition bowling_without_strike_rate : list Bowling.row :=
  [Bowling.mk "P" "TeamX" 12 (S754_finite false 33 (-2)) (S754_finite false 21 0)
     None;
   Bowling.mk "Q" "TeamY" 25 (S754_finite false 15 (-1)) (S754_finite false 19 0)
     None].

(** The bowling table has the Strike_Rate column. *)
Definition has_strike_rate (df : list Bowling.row) : Prop :=
  forall r, In r df -> Bowling.Strike_Rate r <> None.

(** The bowling table has no Strike_Rate column. *)
Definition lacks_strike_rate (df : list Bowling.row) : Prop :=
  forall r, In r df -> Bowling.Strike_Rate r = None.

Definition scenario_fielding : list Fielding.row :=
  [Fielding.mk "A" "TeamX" 6 14; Fielding.mk "Q" "TeamY" 11 15;
   Fielding.mk "C" "TeamX" 11 16].

(** A team table stored out of [Position] order. *)
Definition scenario_teams : list Teams.row :=
  [Teams.mk 2 "PBKS" 19 (S754_finite false 93 (-8)) 2800 9 4 245;
   Teams.mk 1 "RCB" 19 (S754_finite true 1 (-2)) 2900 9 4 240].

Definition scenario_analyzer : IPLAnalyzer :=
  mkAnalyzer (Some scenario_batting) (Some scenario_bowling)
    (Some scenario_fielding) (Some scenario_teams).

(** The scenario over the bowling table without Strike_Rate column. *)
Definition scenario_without_strike_rate : IPLAnalyzer :=
  mkAnalyzer (Some scenario_batting) (Some bowling_without_strike_rate)
    (Some scenario_fielding) (Some scenario_teams).

(** The scenario after a batting file that held its header line only. *)
Definition scenario_empty_batting : IPLAnalyzer :=
  mkAnalyzer (Some []) (Some scenario_bowling) (Some scenario_fielding)
    (Some scenario_teams).

(** The bars of one batsman in a comparison, as the specification words
    them: the label is the name typed and the team of the row, the heights
    are the five batting metrics of the row. *)
Definition batsman_bars (name : string) (r : Batting.row) : Bars :=
  mkBars (name ++ " (" ++ Batting.Team r ++ ")")
    [CInt (Batting.Runs r); CFloat (Batting.Average r);
     CFloat (Batting.Strike_Rate r); CInt (Batting.Fours r);
     CInt (Batting.Sixes r)].

(** The bars of one bowler, [strike_rate] being the value the row has in
    the Strike_Rate column. *)
Definition bowler_bars (name : string) (r : Bowling.row) (strike_rate : spec_float)
    : Bars :=
  mkBars (name ++ " (" ++ Bowling.Team r ++ ")")
    [CInt (Bowling.Wickets r); CFloat (Bowling.Economy r);
     CFloat (Bowling.Average r); CFloat strike_rate].

(** The directory of the scenario whose fielding file is missing. *)
Definition scenario_directory : Directory :=
  mkDirectory (Csv scenario_batting) (Csv scenario_bowling) NoSuchFile
    (Csv scenario_teams).

(** The same teams stored in [Position] order. *)
Definition stored_teams : list Teams.row :=
  [Teams.mk 1 "RCB" 19 (S754_finite true 1 (-2)) 2900 9 4 240;
   Teams.mk 2 "PBKS" 19 (S754_finite false 93 (-8)) 2800 9 4 245].

Definition scenario_now : datetime := mkDatetime 2025 8 17 9 5 0.

(* ================================================================== *)
(** * Vocabulary of the further properties *)
(* ================================================================== *)

(** All four tables are set and the three player tables have a row. *)
Definition ready (self : IPLAnalyzer) : Prop :=
  exists b w f t,
    self = mkAnalyzer (Some b) (Some w) (Some f) (Some t) /\
    b <> [] /\ w <> [] /\ f <> [].

(** What [load_data] prints when [filename] is missing. *)
Definition missing_report (filename : string) : list Event :=
  [Print ("❌ Error loading data: [Errno 2] No such file or directory: '"
          ++ filename ++ "'");
   Print "Please ensure all CSV files are in the current directory"].

(** An event on the console only. *)
Definition on_console (ev : Event) : Prop :=
  match ev with
  | Print _ | PrintFrame _ _ => True
  | _ => False
  end.

(** An event on the console or the plotting window. *)
Definition on_console_or_plot (ev : Event) : Prop :=
  match ev with
  | Print _ | PrintFrame _ _ | ShowChart _ => True
  | _ => False
  end.

(** An event on the console or on the file [filename]. *)
Definition on_console_or_file (filename : string) (ev : Event) : Prop :=
  match ev with
  | Print _ => True
  | Open f | Write f _ => f = filename
  | _ => False
  end.

(** A computation that leaves the object as it found it and whose events
    all satisfy [P], whether it returns or raises. *)
Definition keeps {A : Type} (P : Event -> Prop) (m : M A) : Prop :=
  forall self, final (m self) = self /\ Forall P (trace (m self)).

(** A directory with all four files. *)
Definition complete_directory : Directory :=
  mkDirectory (Csv scenario_batting) (Csv scenario_bowling)
    (Csv scenario_fielding) (Csv stored_teams).

(* ================================================================== *)
(** * The plotting methods *)
(* ================================================================== *)

(** Python floats are IEEE-754 binary64 values. *)
Module Float.

Definition prec : Z := 53.
Definition emax : Z := 1024.

(** [float(i)] *)
Definition of_int (i : Z) : spec_float := binary_normalize prec emax i 0 false.

(** [x / y] and [x + y] *)
Definition div (x y : spec_float) : spec_float := SFdiv prec emax x y.
Definition add (x y : spec_float) : spec_float := SFadd prec emax x y.

(** [x > y] *)
Definition gt (x y : spec_float) : bool := SFltb y x.

(** The literals [0.4], [0.2] and [0]. *)
Definition lit_0_4 : spec_float := S754_finite false 7205759403792794 (-54).
Definition lit_0_2 : spec_float := S754_finite false 7205759403792794 (-55).
Definition zero : spec_float := S754_zero false.

End Float.

Module Series.

(** The distinct values of a column, in order of first occurrence. *)
Fixpoint unique (l : list string) : list string :=
  match l with
  | [] => []
  | x :: l' => x :: filter (fun y => negb (String.eqb y x)) (unique l')
  end.

Definition count (x : string) (l : list string) : nat :=
  List.length (filter (String.eqb x) l).

(** [series.value_counts()]: every distinct value with the number of its
    occurrences, the most frequent first. *)
Definition value_counts (l : list string) : list (string * nat) :=
  Pandas.sort_desc (fun p : string * nat => Z.of_nat (snd p))
    (map (fun x => (x, count x l)) (unique l)).

End Series.

(** [range(n)] *)
Definition range (n : nat) : list Z := map Z.of_nat (seq 0 n).

(** The marker sizes of a scatter plot: one per point or one for all. *)
Inductive Sizes :=
| size_each (s : list Cell)
| size_all (s : Cell).

(** A plotting call on an axes, with the data it is given; colours,
    widths, transparency and legends are styling and are left out unless
    they are computed from the data. *)
Inductive Artist :=
| bar (x : list Cell) (height : list Cell)
| bar_colored (x : list Cell) (height : list Cell) (color : list string)
| barh (y : list Cell) (width : list Cell)
| scatter (x y : list Cell) (s : Sizes)
| pie (x : list Cell) (labels : list string)
| axhline (y : Cell).

Record Axes := mkAxes {
  axes_title : string;
  xlabel : string;
  ylabel : string;
  artists : list Artist;
  xticks : option (list Cell);
  xtick_labels : option (list string);
  yticks : option (list Cell);
  ytick_labels : option (list string) }.

(** A figure handed to [plt.show()]: its title and its axes, each with
    its row and column in the grid, in the order the method fills them. *)
Record Figure := mkFigure {
  suptitle : string;
  subplots : list (nat * nat * Axes) }.

(** [[x + d for x in range(n)]] *)
Definition shifted_range (n : nat) (d : spec_float) : list Cell :=
  map (fun x => CFloat (Float.add (Float.of_int x) d)) (range n).

Definition team_pie (teams : list string) : Artist :=
  let team_counts := Series.value_counts teams in
  pie (map (fun p => CInt (Z.of_nat (snd p))) team_counts) (map fst team_counts).

(** [visualize_top_batsmen]; the result is the figure it shows. *)
Definition visualize_top_batsmen (n : Z) : M Figure :=
  df <- getattr "batting_df" batting_df ;;
  top_batsmen <- nlargest "Runs" Batting.Runs n df ;;
  let positions := map CInt (range (List.length top_batsmen)) in
  let players := map Batting.Player top_batsmen in
  ret (mkFigure "IPL 2025 - Top Batsmen Analysis"
    [(0%nat, 0%nat,
      mkAxes "Total Runs" "Players" "Runs"
        [bar positions (map (fun r => CInt (Batting.Runs r)) top_batsmen)]
        (Some positions) (Some players) None None);
     (0%nat, 1%nat,
      mkAxes "Strike Rate vs Average" "Average" "Strike Rate"
        [scatter (map (fun r => CFloat (Batting.Average r)) top_batsmen)
           (map (fun r => CFloat (Batting.Strike_Rate r)) top_batsmen)
           (size_each
              (map (fun r => CFloat (Float.div (Float.of_int (Batting.Runs r))
                                       (Float.of_int 10)))
                 top_batsmen))]
        None None None None);
     (1%nat, 0%nat,
      mkAxes "Boundaries Hit" "Players" "Count"
        [bar positions (map (fun r => CInt (Batting.Fours r)) top_batsmen);
         bar (shifted_range (List.length top_batsmen) Float.lit_0_4)
           (map (fun r => CInt (Batting.Sixes r)) top_batsmen)]
        (Some (shifted_range (List.length top_batsmen) Float.lit_0_2))
        (Some players) None None);
     (1%nat, 1%nat,
      mkAxes "Team Distribution (Top Batsmen)" EmptyString EmptyString
        [team_pie (map Batting.Team top_batsmen)]
        None None None None)]).

(** [visualize_bowling_analysis]; the result is the figure it shows. *)
Definition visualize_bowling_analysis (n : Z) : M Figure :=
  df <- getattr "bowling_df" bowling_df ;;
  top_bowlers <- nlargest "Wickets" Bowling.Wickets n df ;;
  let positions := map CInt (range (List.length top_bowlers)) in
  let players := map Bowling.Player top_bowlers in
  ret (mkFigure "IPL 2025 - Bowling Analysis"
    [(0%nat, 0%nat,
      mkAxes "Total Wickets" "Bowlers" "Wickets"
        [bar positions (map (fun r => CInt (Bowling.Wickets r)) top_bowlers)]
        (Some positions) (Some players) None None);
     (0%nat, 1%nat,
      mkAxes "Economy Rate vs Wickets" "Economy Rate" "Wickets"
        [scatter (map (fun r => CFloat (Bowling.Economy r)) top_bowlers)
           (map (fun r => CInt (Bowling.Wickets r)) top_bowlers)
           (size_all (CInt 100))]
        None None None None);
     (1%nat, 0%nat,
      mkAxes "Bowling Average" "Average" "Bowlers"
        [barh positions (map (fun r => CFloat (Bowling.Average r)) top_bowlers)]
        None None (Some positions) (Some players));
     (1%nat, 1%nat,
      mkAxes "Team Distribution (Top Bowlers)" EmptyString EmptyString
        [team_pie (map Bowling.Team top_bowlers)]
        None None None None)]).

(** [team_analysis]; the result is the figure it shows. *)
Definition team_analysis : M Figure :=
  t <- getattr "team_df" team_df ;;
  let teams := map (fun r => CStr (Teams.Team r)) t in
  let colors :=
    map (fun r => if Float.gt (Teams.NRR r) Float.zero then "green" else "red") t in
  let playoff_teams :=
    map Teams.Team (filter (fun r => (Teams.Position r <=? 4)%Z) t) in
  let non_playoff :=
    map Teams.Team (filter (fun r => (Teams.Position r >? 4)%Z) t) in
  let sizes :=
    [CInt (Z.of_nat (List.length playoff_teams));
     CInt (Z.of_nat (List.length non_playoff))] in
  ret (mkFigure "IPL 2025 - Team Performance Analysis"
    [(0%nat, 0%nat,
      mkAxes "Points Table" "Teams" "Points"
        [bar teams (map (fun r => CInt (Teams.Points r)) t)]
        None None None None);
     (0%nat, 1%nat,
      mkAxes "Net Run Rate" "Teams" "NRR"
        [bar_colored teams (map (fun r => CFloat (Teams.NRR r)) t) colors;
         axhline (CInt 0)]
        None None None None);
     (0%nat, 2%nat,
      mkAxes "Total Runs Scored" "Teams" "Runs"
        [bar teams (map (fun r => CInt (Teams.Total_Runs r)) t)]
        None None None None);
     (1%nat, 0%nat,
      mkAxes "Wins vs Losses" "Teams" "Matches"
        [bar teams (map (fun r => CInt (Teams.Won r)) t);
         bar (shifted_range (List.length t) Float.lit_0_4)
           (map (fun r => CInt (Teams.Lost r)) t)]
        (Some (shifted_range (List.length t) Float.lit_0_2))
        (Some (map Teams.Team t)) None None);
     (1%nat, 1%nat,
      mkAxes "Highest Team Total" "Teams" "Runs"
        [bar teams (map (fun r => CInt (Teams.Highest_Total r)) t)]
        None None None None);
     (1%nat, 2%nat,
      mkAxes "Playoff Qualification" EmptyString EmptyString
        [pie sizes ["Playoff Teams"; "Non-Playoff Teams"]]
        None None None None)]).

(* ================================================================== *)
(** * The menu of [main] and the example script *)
(* ================================================================== *)

(** The ASCII characters [str.isspace()] accepts. *)
Definition is_space (c : ascii) : bool :=
  let n := nat_of_ascii c in
  ((9 <=? n)%nat && (n <=? 13)%nat) || ((28 <=? n)%nat && (n <=? 32)%nat).

Fixpoint lstrip (s : string) : string :=
  match s with
  | EmptyString => EmptyString
  | String c s' => if is_space c then lstrip s' else s
  end.

Fixpoint rstrip (s : string) : string :=
  match s with
  | EmptyString => EmptyString
  | String c s' =>
      match rstrip s' with
      | EmptyString => if is_space c then EmptyString else String c EmptyString
      | r => String c r
      end
  end.

(** [str.strip()] *)
Definition strip (s : string) : string := rstrip (lstrip s).

(** What a run of a program shows: an event of the analyzer, a figure
    handed to [plt.show()], or a prompt of [input]. *)
Inductive Step :=
| Console (ev : Event)
| Shown (fig : Figure)
| Asked (prompt : string).

(** How a run ends: it returns, an exception escapes, or [input] finds the
    standard input at its end and raises [EOFError]. *)
Inductive Ending :=
| Finished
| Uncaught (e : Exn)
| EndOfInput.

Record Session := mkSession { steps : list Step; ending : Ending }.

Definition say (line : string) : Step := Console (Print line).

Definition after (pre : list Step) (s : Session) : Session :=
  mkSession (pre ++ steps s) (ending s).

(** A method call as a statement: the program goes on with the object the
    call left, or ends with the exception the call raised. *)
Definition call (r : Result unit) (next : IPLAnalyzer -> Session) : Session :=
  match outcome r with
  | Returned _ => after (map Console (trace r)) (next (final r))
  | Raised e => mkSession (map Console (trace r)) (Uncaught e)
  end.

(** The same for a plotting method, whose figure is shown. *)
Definition call_plot (r : Result Figure) (next : IPLAnalyzer -> Session)
    : Session :=
  match outcome r with
  | Returned fig =>
      after (map Console (trace r) ++ [Shown fig]) (next (final r))
  | Raised e => mkSession (map Console (trace r)) (Uncaught e)
  end.

Definition menu_options : list Step :=
  [say (nl ++ "📋 MENU OPTIONS:");
   say "1. Tournament Summary";
   say "2. Top Batting Performers";
   say "3. Top Bowling Performers";
   say "4. Top Fielding Performers";
   say "5. Visualize Top Batsmen";
   say "6. Visualize Bowling Analysis";
   say "7. Team Analysis";
   say "8. Compare Players";
   say "9. Generate Report";
   say "0. Exit"].

Definition choice_prompt : string := nl ++ "Enter your choice (0-9): ".

(** The default destination of [generate_report]. *)
Definition default_report : string := "ipl_2025_analysis_report.txt".

(** The [while True] loop of [main].  [stdin] holds the lines still to be
    typed, [clock] the successive values of [datetime.now()] and [tick]
    the number of them already read. *)
Fixpoint menu_loop (clock : nat -> datetime) (stdin : list string) (tick : nat)
    (analyzer : IPLAnalyzer) : Session :=
  after menu_options
    match stdin with
    | [] => mkSession [Asked choice_prompt] EndOfInput
    | line :: rest =>
        after [Asked choice_prompt]
          (let choice := strip line in
           if choice =? "1" then
             call (display_summary analyzer) (menu_loop clock rest tick)
           else if choice =? "2" then
             call (top_performers "batting" 10 analyzer) (menu_loop clock rest tick)
           else if choice =? "3" then
             call (top_performers "bowling" 10 analyzer) (menu_loop clock rest tick)
           else if choice =? "4" then
             call (top_performers "fielding" 10 analyzer) (menu_loop clock rest tick)
           else if choice =? "5" then
             call_plot (visualize_top_batsmen 10 analyzer)
               (menu_loop clock rest tick)
           else if choice =? "6" then
             call_plot (visualize_bowling_analysis 10 analyzer)
               (menu_loop clock rest tick)
           else if choice =? "7" then
             call_plot (team_analysis analyzer) (menu_loop clock rest tick)
           else if choice =? "8" then
             after [say "Available categories: batting, bowling"]
               match rest with
               | [] => mkSession [Asked "Enter category: "] EndOfInput
               | category :: rest1 =>
                   after [Asked "Enter category: "]
                     match rest1 with
                     | [] =>
                         mkSession [Asked "Enter first player name: "] EndOfInput
                     | player1 :: rest2 =>
                         after [Asked "Enter first player name: "]
                           match rest2 with
                           | [] =>
                               mkSession [Asked "Enter second player name: "]
                                 EndOfInput
                           | player2 :: rest3 =>
                               after [Asked "Enter second player name: "]
                                 (call
                                    (compare_players (strip player1)
                                       (strip player2) (strip category) analyzer)
                                    (menu_loop clock rest3 tick))
                           end
                     end
               end
           else if choice =? "9" then
             call (generate_report default_report (clock tick) analyzer)
               (menu_loop clock rest (S tick))
           else if choice =? "0" then
             mkSession [say "🙏 Thank you for using IPL 2025 Statistics Analyzer!"]
               Finished
           else
             after [say "❌ Invalid choice. Please try again."]
               (menu_loop clock rest tick analyzer))
    end.

(** [main] *)
Definition main (dir : Directory) (clock : nat -> datetime)
    (stdin : list string) : Session :=
  after [say "🏏 Welcome to IPL 2025 Statistics Analyzer!"; say (str_mul "=" 50)]
    (call (new dir) (menu_loop clock stdin 0)).

(** The script [example_usage.py]. *)
Definition example_usage (dir : Directory) (now : datetime) : Session :=
  call (new dir) (fun analyzer =>
  call (display_summary analyzer) (fun analyzer =>
  call (top_performers "batting" 5 analyzer) (fun analyzer =>
  call (top_performers "bowling" 5 analyzer) (fun analyzer =>
  call_plot (visualize_top_batsmen 10 analyzer) (fun analyzer =>
  call_plot (visualize_bowling_analysis 10 analyzer) (fun analyzer =>
  call_plot (team_analysis analyzer) (fun analyzer =>
  call (compare_players "Sai Sudharsan" "Virat Kohli" "batting" analyzer)
    (fun analyzer =>
  call (compare_players "Prasidh Krishna" "Josh Hazlewood" "bowling" analyzer)
    (fun analyzer =>
  call (generate_report default_report now analyzer) (fun analyzer =>
  mkSession [say "Analysis complete!"] Finished)))))))))).

(** A clock for the examples. *)
Definition scenario_clock (tick : nat) : datetime :=
  mkDatetime 2025 8 17 9 5 (Z.of_nat tick).

(** [counts] tallies the column [teams]: each distinct team once, with the
    positive number of its occurrences, the numbers adding up to the length
    of the column, the largest first. *)
Definition team_tally (teams : list string) (counts : list (string * nat)) : Prop :=
  NoDup (map fst counts) /\
  (forall x, In x (map fst counts) <-> In x teams) /\
  (forall x k, In (x, k) counts -> k = Series.count x teams /\ (1 <= k)%nat) /\
  list_sum (map snd counts) = List.length teams /\
  StronglySorted (fun p q : string * nat => (snd q <= snd p)%nat) counts.

(** The pie of a tally, as [team_pie] draws it. *)
Definition tally_pie (counts : list (string * nat)) : Artist :=
  pie (map (fun p => CInt (Z.of_nat (snd p))) counts) (map fst counts).

(* ================================================================== *)
(** * Facts about the built-ins *)
(* ================================================================== *)

Lemma lower_char_idem (c : ascii) : lower_char (lower_char c) = lower_char c.
Proof. destruct c as [[] [] [] [] [] [] [] []]; reflexivity. Qed.

Lemma upper_lower_char (c : ascii) : upper_char (lower_char c) = upper_char c.
Proof. destruct c as [[] [] [] [] [] [] [] []]; reflexivity. Qed.

Lemma lower_char_ascii (c : ascii) :
  (nat_of_ascii (lower_char c) <? 128)%nat = (nat_of_ascii c <? 128)%nat.
Proof. destruct c as [[] [] [] [] [] [] [] []]; reflexivity. Qed.

Lemma lower_cons_ascii (c : ascii) (s : string) :
  (nat_of_ascii c <? 128)%nat = true ->
  lower (String c s) = String (lower_char c) (lower s).
Proof.
  intros Hc. apply Nat.ltb_lt in Hc.
  destruct s as [|c1 [|c2 s]]; try reflexivity.
  cbn [lower]. unfold is_capital_sharp_s, is_kelvin_sign.
  destruct (Nat.eqb_spec (nat_of_ascii c) 225); [lia|].
  destruct (Nat.eqb_spec (nat_of_ascii c) 226); [lia | reflexivity].
Qed.

Lemma upper_cons_ascii (c : ascii) (s : string) :
  (nat_of_ascii c <? 128)%nat = true ->
  upper (String c s) = String (upper_char c) (upper s).
Proof.
  intros Hc. apply Nat.ltb_lt in Hc.
  destruct s as [|c1 s]; try reflexivity.
  cbn [upper]. unfold is_sharp_s.
  destruct (Nat.eqb_spec (nat_of_ascii c) 195); [lia | reflexivity].
Qed.

Lemma capitalize_cons_ascii (c : ascii) (s : string) :
  (nat_of_ascii c <? 128)%nat = true ->
  capitalize (String c s) = String (upper_char c) (lower s).
Proof.
  intros Hc. apply Nat.ltb_lt in Hc.
  destruct s as [|c1 s]; try reflexivity.
  cbn [capitalize]. unfold is_sharp_s.
  destruct (Nat.eqb_spec (nat_of_ascii c) 195); [lia | reflexivity].
Qed.

Lemma lower_ascii_only (s : string) :
  ascii_only s = true -> ascii_only (lower s) = true.
Proof.
  induction s as [|c s IH]; [reflexivity|].
  cbn [ascii_only]. intros H. apply andb_true_iff in H. destruct H as [Hc Hs].
  rewrite (lower_cons_ascii c s Hc). cbn [ascii_only].
  now rewrite lower_char_ascii, Hc, IH.
Qed.

Lemma plain_char_lower (c : ascii) :
  plain_char (lower_char c) = true -> plain_char c = true.
Proof. destruct c as [[] [] [] [] [] [] [] []]; intros H; solve [reflexivity | discriminate H]. Qed.

Lemma plain_char_ascii (c : ascii) :
  plain_char c = true -> (nat_of_ascii c <? 128)%nat = true.
Proof. unfold plain_char. intros H. now apply andb_true_iff in H. Qed.

Lemma plain_ascii_only (s : string) : plain s = true -> ascii_only s = true.
Proof.
  induction s as [|c s IH]; [reflexivity|].
  cbn [plain ascii_only]. intros H. apply andb_true_iff in H. destruct H as [Hc Hs].
  now rewrite (plain_char_ascii c Hc), IH.
Qed.

(** A string whose lower-case form is ASCII without [k] is ASCII itself. *)
Lemma lower_plain_inv (s : string) :
  plain (lower s) = true -> plain s = true.
Proof.
  induction s as [|c s IH]; [reflexivity|].
  assert (Hcases :
            lower (String c s) = String (lower_char c) (lower s) \/
            (exists t, lower (String c s)
                       = String (ascii_of_nat 195) (String (ascii_of_nat 159) t)) \/
            (exists t, lower (String c s) = String "k" t)).
  { destruct s as [|c1 [|c2 s]]; try (left; reflexivity).
    cbn [lower]. destruct (is_capital_sharp_s c c1 c2);
      [right; left; eexists; reflexivity|].
    destruct (is_kelvin_sign c c1 c2);
      [right; right; eexists; reflexivity | left; reflexivity]. }
  destruct Hcases as [E | [[t E] | [t E]]]; rewrite E; cbn [plain].
  - intros H. apply andb_true_iff in H. destruct H as [Hc Hs].
    now rewrite (plain_char_lower c Hc), IH.
  - discriminate.
  - discriminate.
Qed.

Lemma lower_lower (s : string) : ascii_only s = true -> lower (lower s) = lower s.
Proof.
  induction s as [|c s IH]; [reflexivity|].
  cbn [ascii_only]. intros H. apply andb_true_iff in H. destruct H as [Hc Hs].
  rewrite (lower_cons_ascii c s Hc).
  rewrite lower_cons_ascii by now rewrite lower_char_ascii.
  now rewrite lower_char_idem, IH.
Qed.

Lemma upper_lower (s : string) : ascii_only s = true -> upper (lower s) = upper s.
Proof.
  induction s as [|c s IH]; [reflexivity|].
  cbn [ascii_only]. intros H. apply andb_true_iff in H. destruct H as [Hc Hs].
  rewrite (lower_cons_ascii c s Hc), (upper_cons_ascii c s Hc).
  rewrite upper_cons_ascii by now rewrite lower_char_ascii.
  now rewrite upper_lower_char, IH.
Qed.

Lemma capitalize_lower (s : string) :
  ascii_only s = true -> capitalize (lower s) = capitalize s.
Proof.
  destruct s as [|c s]; [reflexivity|].
  cbn [ascii_only]. intros H. apply andb_true_iff in H. destruct H as [Hc Hs].
  rewrite (lower_cons_ascii c s Hc), (capitalize_cons_ascii c s Hc).
  rewrite capitalize_cons_ascii by now rewrite lower_char_ascii.
  now rewrite upper_lower_char, lower_lower.
Qed.

(** The branch test of a category is the test of its lower-case form,
    for every string. *)
Lemma lower_eqb_lower (s literal : string) :
  plain literal = true ->
  (lower (lower s) =? literal) = (lower s =? literal).
Proof.
  intros Hlit.
  destruct (String.eqb_spec (lower s) literal) as [E | Hne].
  - assert (Hs : plain s = true)
      by (apply lower_plain_inv; now rewrite E).
    rewrite lower_lower by now apply plain_ascii_only.
    rewrite E. apply String.eqb_refl.
  - apply String.eqb_neq. intros E. apply Hne.
    assert (Hl : plain (lower s) = true)
      by (apply lower_plain_inv; now rewrite E).
    apply lower_plain_inv, plain_ascii_only in Hl.
    now rewrite <- (lower_lower s Hl).
Qed.

(** A category that passes a branch test is ASCII, and its title in the
    chart is the capitalized literal. *)
Lemma capitalize_of_lower (s literal : string) :
  plain literal = true -> lower s = literal -> capitalize s = capitalize literal.
Proof.
  intros Hlit E.
  assert (Hs : ascii_only s = true)
    by (apply plain_ascii_only, lower_plain_inv; now rewrite E).
  now rewrite <- (capitalize_lower s Hs), E.
Qed.

Lemma length_append (s t : string) :
  String.length (s ++ t) = (String.length s + String.length t)%nat.
Proof. induction s; simpl; auto. Qed.

Lemma length_spaces (n : nat) : String.length (str_mul " " n) = n.
Proof. induction n; simpl; auto. Qed.

Lemma length_rjust (w : nat) (s : string) :
  String.length (rjust w s) = Nat.max w (String.length s).
Proof. unfold rjust. rewrite length_append, length_spaces. lia. Qed.

Lemma length_ljust (w : nat) (s : string) :
  String.length (ljust w s) = Nat.max w (String.length s).
Proof. unfold ljust. rewrite length_append, length_spaces. lia. Qed.

Lemma length_digits_fixed (p : nat) (n : Z) : String.length (digits_fixed p n) = p.
Proof.
  revert n; induction p as [|p IH]; intros n; simpl; [reflexivity|].
  rewrite length_append, IH. simpl. lia.
Qed.

Example format_d_7 : format_d 2 7 = " 7".
Proof. reflexivity. Qed.

Example format_d_123 : format_d 2 123 = "123".
Proof. reflexivity. Qed.

Example format_d_negative : format_d 3 (-5) = " -5".
Proof. reflexivity. Qed.

Example format_left_rcb : format_left 4 "RCB" = "RCB ".
Proof. reflexivity. Qed.

Example format_f_half : format_f true 3 (S754_finite false 1 (-1)) = "+0.500".
Proof. reflexivity. Qed.

Example format_f_tie_even : format_f false 2 (S754_finite true 1 (-3)) = "-0.12".
Proof. reflexivity. Qed.

Example format_f_tie_odd : format_f false 2 (S754_finite false 3 (-3)) = "0.38".
Proof. reflexivity. Qed.

Example format_f_nan : format_f true 3 S754_nan = "+nan".
Proof. reflexivity. Qed.

Example upper_mixed : upper "BaTting-1" = "BATTING-1".
Proof. reflexivity. Qed.

Example capitalize_mixed : capitalize "bATTING" = "Batting".
Proof. reflexivity. Qed.

(** The entries outside ASCII: ['ẞ'.lower()] is ['ß'],
    ['ß'.upper()] is ['SS'], ['ß'.capitalize()] is ['Ss'], and
    the lower-case form of the Kelvin sign is the letter [k]. *)
Example lower_capital_sharp_s : lower "ẞ" = "ß".
Proof. reflexivity. Qed.

Example upper_sharp_s : upper "straße" = "STRASSE".
Proof. reflexivity. Qed.

Example upper_capital_sharp_s : upper "ẞ" = "ẞ".
Proof. reflexivity. Qed.

Example capitalize_sharp_s : capitalize "ßA" = "Ssa".
Proof. reflexivity. Qed.

Example lower_kelvin_sign : lower "2 K" = "2 k".
Proof. reflexivity. Qed.

Example strftime_scenario : strftime scenario_now = "2025-08-17 09:05:00".
Proof. reflexivity. Qed.

(* ================================================================== *)
(** * Facts about the DataFrame operations *)
(* ================================================================== *)

Section SortFacts.
Context {A : Type}.
Variable key : A -> Z.

Lemma insert_desc_perm (x : A) (l : list A) :
    Permutation (Pandas.insert_desc key x l) (x :: l).
  Proof.
    induction l as [|y l IH]; simpl; [reflexivity|].
    destruct (key y <=? key x)%Z; [reflexivity|].
    rewrite IH. apply perm_swap.
  Qed.

Lemma sort_desc_perm (l : list A) : Permutation (Pandas.sort_desc key l) l.
  Proof.
    induction l as [|x l IH]; simpl; [reflexivity|].
    rewrite insert_desc_perm. now constructor.
  Qed.

Lemma sort_desc_length (l : list A) :
    List.length (Pandas.sort_desc key l) = List.length l.
  Proof. apply Permutation_length, sort_desc_perm. Qed.

Lemma nlargest_length (n : Z) (df : list A) :
    (0 <= n)%Z ->
    Z.of_nat (List.length (Pandas.top_rows key n df))
    = Z.min n (Z.of_nat (List.length df)).
  Proof.
    intros Hn. unfold Pandas.top_rows.
    rewrite length_firstn, sort_desc_length. lia.
  Qed.

Lemma insert_desc_map {B : Type} (f : B -> A) (x : B) (l : list B) :
    Pandas.insert_desc key (f x) (map f l)
    = map f (Pandas.insert_desc (fun b => key (f b)) x l).
  Proof.
    induction l as [|y l IH]; simpl; [reflexivity|].
    destruct (key (f y) <=? key (f x))%Z; simpl; [reflexivity|].
    now rewrite IH.
  Qed.

Lemma sort_desc_map {B : Type} (f : B -> A) (l : list B) :
    Pandas.sort_desc key (map f l)
    = map f (Pandas.sort_desc (fun b => key (f b)) l).
  Proof.
    induction l as [|x l IH]; simpl; [reflexivity|].
    now rewrite IH, insert_desc_map.
  Qed.
End SortFacts.

Section Numbering.
Context {A : Type}.

Lemma number_from_snd (s : nat) (l : list A) : map snd (number_from s l) = l.
  Proof.
    revert s; induction l as [|x l IH]; intros s; simpl; [reflexivity|].
    now rewrite IH.
  Qed.

Lemma number_from_In (s : nat) (l : list A) (i : nat) (a : A) :
    In (i, a) (number_from s l) <-> (s <= i)%nat /\ nth_error l (i - s) = Some a.
  Proof.
    revert s; induction l as [|x l IH]; intros s; simpl.
    - split; [tauto|]. intros [_ H]. now destruct (i - s)%nat.
    - rewrite IH. split.
      + intros [H | [H1 H2]].
        * inversion H; subst. rewrite Nat.sub_diag. split; [lia | reflexivity].
        * split; [lia|]. replace (i - s)%nat with (S (i - S s)) by lia. exact H2.
      + intros [H1 H2]. destruct (Nat.eq_dec s i) as [-> | Hne].
        * rewrite Nat.sub_diag in H2. simpl in H2. left. congruence.
        * right. split; [lia|].
          replace (i - s)%nat with (S (i - S s)) in H2 by lia. exact H2.
  Qed.

Lemma number_from_sorted (s : nat) (l : list A) :
    StronglySorted (fun p q : nat * A => (fst p < fst q)%nat) (number_from s l).
  Proof.
    revert s; induction l as [|x l IH]; intros s; simpl; constructor.
    - apply IH.
    - apply Forall_forall. intros [i a] Hin.
      apply number_from_In in Hin. simpl. lia.
  Qed.
End Numbering.

Section SortedFacts.
Context {A : Type}.
Variable R : A -> A -> Prop.

Lemma StronglySorted_firstn (n : nat) (l : list A) :
    StronglySorted R l -> StronglySorted R (firstn n l).
  Proof.
    revert n; induction l as [|x l IH]; intros n H.
    - rewrite firstn_nil. constructor.
    - destruct n; simpl; [constructor|].
      inversion H; subst. constructor; [now apply IH|].
      apply Forall_forall. intros y Hy.
      rewrite Forall_forall in H3. apply H3.
      rewrite <- (firstn_skipn n l). apply in_or_app. now left.
  Qed.

Lemma StronglySorted_app_cross (l1 l2 : list A) :
    StronglySorted R (l1 ++ l2) ->
    forall p q, In p l1 -> In q l2 -> R p q.
  Proof.
    induction l1 as [|x l1 IH]; simpl; intros H p q Hp Hq; [tauto|].
    inversion H; subst. destruct Hp as [-> | Hp].
    - rewrite Forall_forall in H3. apply H3, in_or_app. now right.
    - now apply IH.
  Qed.

Lemma StronglySorted_map_in {B : Type} (R' : B -> B -> Prop) (f : A -> B)
      (l : list A) :
    StronglySorted R l ->
    (forall p q, In p l -> In q l -> R p q -> R' (f p) (f q)) ->
    StronglySorted R' (map f l).
  Proof.
    induction l as [|x l IH]; simpl; intros H HR; [constructor|].
    inversion H; subst. constructor.
    - apply IH; [assumption|]. intros p q Hp Hq. apply HR; now right.
    - apply Forall_forall. intros y Hy.
      apply in_map_iff in Hy. destruct Hy as [q [<- Hq]].
      rewrite Forall_forall in H3. apply HR; [now left | now right | now apply H3].
  Qed.
End SortedFacts.

Section Stability.
Context {A : Type}.
Variable key : A -> Z.

Local Notation "'ikey'" := (fun p : nat * A => key (snd p)).

Lemma insert_desc_before (x : nat * A) (s : list (nat * A)) :
    StronglySorted (before key) s ->
    Forall (fun q => (fst x < fst q)%nat) s ->
    StronglySorted (before key) (Pandas.insert_desc ikey x s).
  Proof.
    induction s as [|y s IH]; simpl; intros Hs Hx.
    - constructor; constructor.
    - inversion Hs as [|? ? Hs' Hy]; subst.
      inversion Hx as [|? ? Hxy Hx']; subst.
      cbv beta.
      destruct (Z.leb_spec (key (snd y)) (key (snd x))) as [Hle | Hgt].
      + constructor; [assumption|].
        constructor.
        * unfold before. lia.
        * rewrite Forall_forall in *. intros q Hq.
          specialize (Hy q Hq). specialize (Hx' q Hq).
          unfold before in *. lia.
      + constructor; [now apply IH|].
        apply Forall_forall. intros q Hq.
        apply (Permutation_in _ (insert_desc_perm ikey x s)) in Hq.
        destruct Hq as [<- | Hq].
        * unfold before. lia.
        * rewrite Forall_forall in Hy. now apply Hy.
  Qed.

Lemma sort_desc_before (l : list (nat * A)) :
    StronglySorted (fun p q : nat * A => (fst p < fst q)%nat) l ->
    StronglySorted (before key) (Pandas.sort_desc ikey l).
  Proof.
    induction l as [|x l IH]; simpl; intros H; [constructor|].
    inversion H as [|? ? Hl Hx]; subst.
    apply insert_desc_before; [now apply IH|].
    apply Forall_forall. intros q Hq.
    apply (Permutation_in _ (sort_desc_perm ikey l)) in Hq.
    rewrite Forall_forall in Hx. now apply Hx.
  Qed.

  (** [nlargest] picks, best first, rows that rank before all the others;
      tied rows come in their original order. *)
Lemma nlargest_top_ranked (n : Z) (df : list A) :
    top_ranked key df (Pandas.top_rows key n df).
  Proof.
    set (t := Pandas.sort_desc ikey (number_from 0 df)).
    assert (Ht : StronglySorted (before key) t)
      by (apply sort_desc_before, number_from_sorted).
    assert (Hin : forall p, In p t -> nth_error df (fst p) = Some (snd p)).
    { intros [i a] Hp.
      apply (Permutation_in _ (sort_desc_perm ikey _)) in Hp.
      apply number_from_In in Hp. simpl.
      now rewrite Nat.sub_0_r in Hp. }
    assert (Hsel : Pandas.top_rows key n df = map snd (firstn (Z.to_nat n) t)).
    { unfold Pandas.top_rows, t.
      rewrite <- firstn_map.
      rewrite <- (sort_desc_map key snd), number_from_snd. reflexivity. }
    assert (Hsub : forall p, In p (firstn (Z.to_nat n) t) -> In p t).
    { intros p Hp. rewrite <- (firstn_skipn (Z.to_nat n) t).
      apply in_or_app. now left. }
    assert (Hrank : forall p q, In p t -> In q t -> before key p q ->
                                ranks_before key df (fst p) (fst q)).
    { intros p q Hp Hq Hpq. exists (snd p), (snd q).
      repeat split; auto. }
    exists (map fst (firstn (Z.to_nat n) t)). split; [|split].
    - rewrite Hsel, !map_map. apply map_ext_in. intros p Hp. auto.
    - apply StronglySorted_map_in with (R := before key).
      + now apply StronglySorted_firstn.
      + intros p q Hp Hq. apply Hrank; auto.
    - intros i j Hi Hj Hnot.
      apply in_map_iff in Hi. destruct Hi as [p [<- Hp]].
      destruct (nth_error df j) as [b|] eqn:Hb.
      2:{ apply nth_error_None in Hb. lia. }
      assert (Hq : In (j, b) t).
      { apply (Permutation_in _ (Permutation_sym (sort_desc_perm ikey _))).
        apply number_from_In. rewrite Nat.sub_0_r. split; [lia | assumption]. }
      change j with (fst (j, b)). apply Hrank; auto.
      rewrite <- (firstn_skipn (Z.to_nat n) t) in Hq, Ht.
      apply in_app_or in Hq. destruct Hq as [Hq | Hq].
      + exfalso. apply Hnot. apply in_map_iff. now exists (j, b).
      + eapply StronglySorted_app_cross; eauto.
  Qed.
End Stability.

Section ArgmaxFacts.
Context {A : Type}.
Variable key : A -> Z.

Lemma argmax_from_first_maximum (l pre : list A) (bi : nat) (r : A) :
    nth_error pre bi = Some r ->
    (forall r', In r' pre -> key r' <= key r)%Z ->
    (forall j r', (j < bi)%nat -> nth_error pre j = Some r' -> key r' < key r)%Z ->
    exists r0,
      nth_error (pre ++ l)
        (Pandas.argmax_from key bi (key r) (List.length pre) l) = Some r0 /\
      (forall r', In r' (pre ++ l) -> key r' <= key r0)%Z /\
      (forall j r',
          (j < Pandas.argmax_from key bi (key r) (List.length pre) l)%nat ->
          nth_error (pre ++ l) j = Some r' -> key r' < key r0)%Z.
  Proof.
    revert pre bi r; induction l as [|x l IH]; intros pre bi r Hbi Hmax Hfirst.
    - simpl. rewrite app_nil_r. exists r. auto.
    - assert (Hlt : (bi < List.length pre)%nat)
        by (apply nth_error_Some; congruence).
      assert (E1 : (pre ++ x :: l = (pre ++ [x]) ++ l)%list)
        by (rewrite <- app_assoc; reflexivity).
      assert (E2 : S (List.length pre) = List.length (pre ++ [x]))
        by (rewrite length_app; simpl; lia).
      simpl. rewrite E1.
      destruct (Z.ltb_spec (key r) (key x)) as [Hnew | Hold]; rewrite E2.
      + apply (IH (pre ++ [x])%list (List.length pre) x).
        * rewrite nth_error_app2 by lia. now rewrite Nat.sub_diag.
        * intros r' Hr'. apply in_app_or in Hr'. destruct Hr' as [Hr' | [<- | []]].
          -- specialize (Hmax r' Hr'). lia.
          -- lia.
        * intros j r' Hj Hr'. rewrite nth_error_app1 in Hr' by lia.
          apply nth_error_In in Hr'. specialize (Hmax r' Hr'). lia.
      + apply IH.
        * rewrite nth_error_app1 by lia. assumption.
        * intros r' Hr'. apply in_app_or in Hr'. destruct Hr' as [Hr' | [<- | []]].
          -- now apply Hmax.
          -- lia.
        * intros j r' Hj Hr'. rewrite nth_error_app1 in Hr' by lia.
          now apply (Hfirst j).
  Qed.

  (** On a non-empty table [idxmax] followed by [loc] finds a row, the
      first one that holds the maximum. *)
Lemma idxmax_first_maximum (df : list A) :
    df <> [] ->
    exists i r,
      Pandas.idxmax key df = Some i /\ Pandas.loc df i = Some r /\
      first_maximum key df r.
  Proof.
    destruct df as [|x l]; [congruence|]. intros _.
    destruct (argmax_from_first_maximum l [x] 0 x) as [r0 [H1 [H2 H3]]].
    - reflexivity.
    - intros r' [<- | []]. lia.
    - intros j r' Hj. lia.
    - simpl in *. eexists _, r0. split; [reflexivity|]. split; [exact H1|].
      eexists. split; [exact H1|]. split; [exact H2 | exact H3].
  Qed.
End ArgmaxFacts.

(* ================================================================== *)
(** * Running the methods *)
(* ================================================================== *)

Lemma run_bind {A B : Type} (m : M A) (k : A -> M B) (self s1 s2 : IPLAnalyzer)
    (tr1 tr2 : list Event) (a : A) (o : Outcome B) :
  m self = mkResult tr1 s1 (Returned a) ->
  k a s1 = mkResult tr2 s2 o ->
  bind m k self = mkResult (tr1 ++ tr2) s2 o.
Proof. intros Hm Hk. unfold bind. rewrite Hm. simpl. now rewrite Hk. Qed.

Lemma bind_getattr {A B : Type} (name : string) (field : IPLAnalyzer -> option A)
    (k : A -> M B) (self : IPLAnalyzer) (v : A) :
  field self = Some v ->
  bind (getattr name field) k self = k v self.
Proof.
  intros H. unfold bind, getattr. rewrite H. simpl.
  now destruct (k v self).
Qed.

Lemma bind_emit {B : Type} (ev : Event) (k : unit -> M B) (self : IPLAnalyzer) :
  bind (emit ev) k self
  = mkResult (ev :: trace (k tt self)) (final (k tt self)) (outcome (k tt self)).
Proof. reflexivity. Qed.

Lemma for_each_emit {A : Type} (f : A -> Event) (xs : list A) (self : IPLAnalyzer) :
  for_each xs (fun x => emit (f x)) self = mkResult (map f xs) self (Returned tt).
Proof.
  induction xs as [|x xs IH]; simpl; [reflexivity|].
  unfold bind. simpl. now rewrite IH.
Qed.

Lemma row_of_max_run {A : Type} (key : A -> Z) (df : list A) :
  df <> [] ->
  exists r, first_maximum key df r /\
            forall self, row_of_max key df self = mkResult [] self (Returned r).
Proof.
  intros Hne.
  destruct (idxmax_first_maximum key df Hne) as [i [r [Hi [Hr Hmax]]]].
  exists r. split; [assumption|]. intros self.
  unfold row_of_max. rewrite Hi. simpl.
  unfold bind. simpl. rewrite Hr. reflexivity.
Qed.

(** One step of a run: the first action returns, the rest is run next. *)
Ltac run_leaf :=
  first [ eassumption
        | match goal with H : forall self, _ = _ |- _ => apply H end
        | apply for_each_emit
        | reflexivity ].

Ltac run :=
  repeat (cbv beta zeta; eapply run_bind; [ solve [run_leaf] | ]);
  cbv beta zeta; try solve [run_leaf].

Lemma display_summary_run (b : list Batting.row) (w : list Bowling.row)
    (f : list Fielding.row) (t : list Teams.row)
    (o : Batting.row) (p : Bowling.row) (c : Fielding.row) :
  (forall self, row_of_max Batting.Runs b self = mkResult [] self (Returned o)) ->
  (forall self, row_of_max Bowling.Wickets w self = mkResult [] self (Returned p)) ->
  (forall self, row_of_max Fielding.Catches f self = mkResult [] self (Returned c)) ->
  let self := mkAnalyzer (Some b) (Some w) (Some f) (Some t) in
  display_summary self
  = mkResult
      (summary_banner ++ summary_awards o p c
       ++ [Print (nl ++ "📊 POINTS TABLE (Top 4):")]
       ++ map (fun team => Print (standing_line team)) (firstn 4 t))
      self (Returned tt).
Proof.
  intros Ho Hp Hc self.
  etransitivity.
  - unfold display_summary, print. run.
  - reflexivity.
Qed.

Lemma generate_report_run (b : list Batting.row) (w : list Bowling.row)
    (f : list Fielding.row) (t : list Teams.row)
    (o : Batting.row) (p : Bowling.row) (c : Fielding.row)
    (filename : string) (now : datetime) :
  (forall self, row_of_max Batting.Runs b self = mkResult [] self (Returned o)) ->
  (forall self, row_of_max Bowling.Wickets w self = mkResult [] self (Returned p)) ->
  (forall self, row_of_max Fielding.Catches f self = mkResult [] self (Returned c)) ->
  let self := mkAnalyzer (Some b) (Some w) (Some f) (Some t) in
  generate_report filename now self
  = mkResult
      (report_title filename ++ [Write filename (timestamp_line now)]
       ++ report_summary filename ++ report_awards filename o p c
       ++ [Write filename ("FINAL POINTS TABLE" ++ nl);
           Write filename (str_mul "-" 20 ++ nl)]
       ++ map (fun team => Write filename (team_line team)) t
       ++ report_top5 filename b w)
      self (Returned tt).
Proof.
  intros Ho Hp Hc self.
  destruct b as [|x b]; [specialize (Ho unloaded); discriminate Ho|].
  destruct w as [|y w]; [specialize (Hp unloaded); discriminate Hp|].
  etransitivity.
  - unfold generate_report, print. run.
  - unfold report_title, report_summary, report_awards, report_top5.
    cbn [app]. reflexivity.
Qed.

Section LookupFacts.
Context {A : Type}.
Variable player_of : A -> string.

Lemma iloc0_select_present (name : string) (df : list A) :
    present player_of name df ->
    exists r, Pandas.iloc0 (Pandas.select_eq player_of name df) = Some r /\
              first_row_of player_of name df r.
  Proof.
    induction df as [|x l IH]; intros [r [Hin Hr]]; [destruct Hin|].
    unfold Pandas.select_eq. simpl.
    destruct (String.eqb_spec (player_of x) name) as [Heq | Hne].
    - exists x. split; [reflexivity|].
      exists 0%nat. repeat split; auto. intros j r' Hj. lia.
    - destruct Hin as [-> | Hin]; [congruence|].
      destruct IH as [r0 [Hsel [i [Hi [Hname Hfirst]]]]]; [now exists r|].
      exists r0. split; [exact Hsel|].
      exists (S i). repeat split; auto.
      intros [|j] r' Hj Hr'; simpl in Hr'.
      + congruence.
      + apply (Hfirst j); [lia | assumption].
  Qed.

Lemma iloc0_select_some (name : string) (df : list A) (r : A) :
    Pandas.iloc0 (Pandas.select_eq player_of name df) = Some r ->
    present player_of name df.
  Proof.
    intros H. exists r.
    assert (Hin : In r (Pandas.select_eq player_of name df)).
    { destruct (Pandas.select_eq player_of name df); simpl in H;
        [discriminate | inversion H; now left]. }
    apply filter_In in Hin. destruct Hin as [Hin Heq].
    split; [assumption | now apply String.eqb_eq].
  Qed.

Lemma present_dec (name : string) (df : list A) :
    present player_of name df \/ ~ present player_of name df.
  Proof.
    destruct (Pandas.iloc0 (Pandas.select_eq player_of name df)) as [r|] eqn:E.
    - left. now apply iloc0_select_some with r.
    - right. intros Hp.
      destruct (iloc0_select_present name df Hp) as [r [E' _]]. congruence.
  Qed.

Lemma iloc0_select_In (name : string) (df : list A) (r : A) :
    Pandas.iloc0 (Pandas.select_eq player_of name df) = Some r -> In r df.
  Proof.
    intros H.
    assert (Hin : In r (Pandas.select_eq player_of name df)).
    { destruct (Pandas.select_eq player_of name df); simpl in H;
        [discriminate | inversion H; now left]. }
    apply filter_In in Hin. now destruct Hin.
  Qed.

Variable team_of : A -> string.
Variable values : A -> M (list Cell).

(** After the two lookups the rest of the body runs on the rows found. *)
Lemma compare_in_rows (metrics : list string) (df : list A)
      (player1 player2 category : string) (r1 r2 : A) (self : IPLAnalyzer) :
    Pandas.iloc0 (Pandas.select_eq player_of player1 df) = Some r1 ->
    Pandas.iloc0 (Pandas.select_eq player_of player2 df) = Some r2 ->
    compare_in player_of team_of values metrics df player1 player2 category self
    = bind (values r1) (fun p1_values =>
        bind (values r2) (fun p2_values =>
          emit (ShowChart
            (comparison_chart category metrics
               player1 (team_of r1) p1_values
               player2 (team_of r2) p2_values)))) self.
  Proof.
    intros H1 H2.
    unfold compare_in, try_except, first_match.
    unfold bind at 1 2 3. rewrite H1. simpl. rewrite H2. simpl.
    match goal with |- context [bind ?m ?k self] => destruct (bind m k self) end.
    reflexivity.
  Qed.

Lemma compare_in_found (metrics : list string) (df : list A)
      (player1 player2 category : string) (r1 r2 : A)
      (v1 v2 : list Cell) (self : IPLAnalyzer) :
    Pandas.iloc0 (Pandas.select_eq player_of player1 df) = Some r1 ->
    Pandas.iloc0 (Pandas.select_eq player_of player2 df) = Some r2 ->
    values r1 self = mkResult [] self (Returned v1) ->
    values r2 self = mkResult [] self (Returned v2) ->
    compare_in player_of team_of values metrics df player1 player2 category self
    = mkResult
        [ShowChart
           (comparison_chart category metrics
              player1 (team_of r1) v1 player2 (team_of r2) v2)]
        self (Returned tt).
  Proof.
    intros H1 H2 Hv1 Hv2.
    rewrite (compare_in_rows metrics df player1 player2 category r1 r2 self H1 H2).
    unfold bind. rewrite Hv1. simpl. rewrite Hv2. reflexivity.
  Qed.

(** A metric without a column: the [KeyError] escapes, nothing is drawn. *)
Lemma compare_in_raises (metrics : list string) (df : list A)
      (player1 player2 category : string) (r1 r2 : A) (e : Exn)
      (self : IPLAnalyzer) :
    Pandas.iloc0 (Pandas.select_eq player_of player1 df) = Some r1 ->
    Pandas.iloc0 (Pandas.select_eq player_of player2 df) = Some r2 ->
    values r1 self = mkResult [] self (Raised e) ->
    compare_in player_of team_of values metrics df player1 player2 category self
    = mkResult [] self (Raised e).
  Proof.
    intros H1 H2 Hv1.
    rewrite (compare_in_rows metrics df player1 player2 category r1 r2 self H1 H2).
    unfold bind. now rewrite Hv1.
  Qed.

Lemma compare_in_not_found (metrics : list string) (df : list A)
      (player1 player2 category : string) (self : IPLAnalyzer) :
    ~ present player_of player1 df \/ ~ present player_of player2 df ->
    compare_in player_of team_of values metrics df player1 player2 category self
    = mkResult [Print "One or both players not found in the dataset"]
        self (Returned tt).
  Proof.
    intros Habsent.
    unfold compare_in, try_except, bind, first_match.
    destruct (Pandas.iloc0 (Pandas.select_eq player_of player1 df)) as [r1|] eqn:H1;
      simpl; [|reflexivity].
    destruct (Pandas.iloc0 (Pandas.select_eq player_of player2 df)) as [r2|] eqn:H2;
      simpl; [|reflexivity].
    exfalso. destruct Habsent as [H | H]; apply H.
    - now apply iloc0_select_some with r1.
    - now apply iloc0_select_some with r2.
  Qed.
End LookupFacts.

Lemma insert_by_Position_head (x : Teams.row) (l : list Teams.row) :
  Forall (fun y => (Teams.Position x <= Teams.Position y)%Z) l ->
  insert_by_Position x l = x :: l.
Proof.
  destruct l as [|y l]; simpl; [reflexivity|].
  intros H. inversion H; subst.
  destruct (Z.leb_spec (Teams.Position x) (Teams.Position y)); [reflexivity | lia].
Qed.

(** A table stored by position is its own ordering by position. *)
Lemma ordered_by_Position_stored (t : list Teams.row) :
  stored_by_Position t -> ordered_by_Position t = t.
Proof.
  induction t as [|x l IH]; simpl; intros H; [reflexivity|].
  inversion H; subst. rewrite IH by assumption.
  now apply insert_by_Position_head.
Qed.

Lemma str_int_two_digits (i : Z) :
  (0 <= i <= 99)%Z -> (String.length (str_int i) <= 2)%nat.
Proof.
  intros H. rewrite <- (Z2Nat.id i) by lia.
  assert (Hk : (Z.to_nat i < 100)%nat) by lia.
  set (k := Z.to_nat i) in *. clearbody k. clear H.
  do 100 (destruct k as [|k]; [vm_compute; lia|]). lia.
Qed.

Lemma format_d_two_digits (i : Z) :
  (0 <= i <= 99)%Z -> String.length (format_d 2 i) = 2%nat.
Proof.
  intros H. unfold format_d. rewrite length_rjust.
  pose proof (str_int_two_digits i H). lia.
Qed.

(** A finite value rendered with [+.3f]: a sign, the integer digits, a
    point and three decimals. *)
Lemma format_f_signed_3 (x : spec_float) :
  is_finite x ->
  exists sign digits decimals,
    format_f true 3 x = sign ++ digits ++ "." ++ decimals /\
    (sign = "+" \/ sign = "-") /\ String.length decimals = 3%nat.
Proof.
  destruct x as [s | s | | s m e]; simpl; intros H; try contradiction.
  - exists (sign_prefix true s), (str_int 0), (digits_fixed 3 0).
    repeat split. destruct s; simpl; auto.
  - exists (sign_prefix true s), (str_int (scaled 3 m e / 10 ^ 3)),
      (digits_fixed 3 (scaled 3 m e mod 10 ^ 3)).
    split; [reflexivity|]. split; [destruct s; simpl; auto|].
    apply length_digits_fixed.
Qed.

Lemma top_performers_unrecognized_run (category : string) (n : Z)
    (self : IPLAnalyzer) :
  lower category <> "batting" ->
  lower category <> "bowling" ->
  lower category <> "fielding" ->
  top_performers category n self = mkResult (top_header category n) self (Returned tt).
Proof.
  intros H1 H2 H3. unfold top_performers.
  apply String.eqb_neq in H1, H2, H3. rewrite H1, H2, H3.
  reflexivity.
Qed.

(* ================================================================== *)
(** * The properties of the analyzer *)
(* ================================================================== *)

(** On a table with at least one row, [top_performers] prints the rows
    ranked first. *)
Lemma top_performers_batting_run
    (self : IPLAnalyzer) (b : list Batting.row) (n : Z) :
  batting_df self = Some b -> b <> [] ->
  top_performers "batting" n self
  = mkResult
      (top_header "batting" n
       ++ [PrintFrame batting_columns
             (map batting_cells (Pandas.top_rows Batting.Runs n b))])
      self (Returned tt).
Proof.
  destruct self as [ob ow ofl ot]. simpl. intros -> Hb.
  destruct b; [contradiction | reflexivity].
Qed.

Lemma top_performers_bowling_run
    (self : IPLAnalyzer) (w : list Bowling.row) (n : Z) :
  bowling_df self = Some w -> w <> [] ->
  top_performers "bowling" n self
  = mkResult
      (top_header "bowling" n
       ++ [PrintFrame bowling_columns
             (map bowling_cells (Pandas.top_rows Bowling.Wickets n w))])
      self (Returned tt).
Proof.
  destruct self as [ob ow ofl ot]. simpl. intros -> Hw.
  destruct w; [contradiction | reflexivity].
Qed.

Lemma top_performers_fielding_run
    (self : IPLAnalyzer) (f : list Fielding.row) (n : Z) :
  fielding_df self = Some f -> f <> [] ->
  top_performers "fielding" n self
  = mkResult
      (top_header "fielding" n
       ++ [PrintFrame fielding_columns
             (map fielding_cells (Pandas.top_rows Fielding.Catches n f))])
      self (Returned tt).
Proof.
  destruct self as [ob ow ofl ot]. simpl. intros -> Hf.
  destruct f; [contradiction | reflexivity].
Qed.

(** On a table that is set but has no row, [nlargest] raises after the
    header. *)
Lemma top_performers_empty_run (n : Z) (self : IPLAnalyzer) :
  (batting_df self = Some [] ->
   top_performers "batting" n self
   = mkResult (top_header "batting" n) self
       (Raised (TypeError ("Column 'Runs' has dtype object, cannot use method "
                           ++ "'nlargest' with this dtype")))) /\
  (bowling_df self = Some [] ->
   top_performers "bowling" n self
   = mkResult (top_header "bowling" n) self
       (Raised (TypeError ("Column 'Wickets' has dtype object, cannot use method "
                           ++ "'nlargest' with this dtype")))) /\
  (fielding_df self = Some [] ->
   top_performers "fielding" n self
   = mkResult (top_header "fielding" n) self
       (Raised (TypeError ("Column 'Catches' has dtype object, cannot use method "
                           ++ "'nlargest' with this dtype")))).
Proof.
  destruct self as [ob ow ofl ot]. simpl.
  repeat split; intros ->; reflexivity.
Qed.

(** C1, as stated, fails: on a batting table that is set but has no row,
    [top_performers('batting', 5)] does not return an empty result of
    size [min 5 0]: after its header it raises the [TypeError] of
    [nlargest]. *)
Lemma top_performers_empty_table_raises :
  (0 <= 5)%Z /\
  batting_df scenario_empty_batting = Some [] /\
  top_performers "batting" 5 scenario_empty_batting
  = mkResult (top_header "batting" 5) scenario_empty_batting
      (Raised
         (TypeError ("Column 'Runs' has dtype object, cannot use method "
                     ++ "'nlargest' with this dtype"))) /\
  outcome (top_performers "batting" 5 scenario_empty_batting) <> Returned tt.
Proof.
  split; [lia|]. split; [reflexivity|]. split; [reflexivity | discriminate].
Qed.

(** C1, amended. For each of the categories 'batting', 'bowling' and
    'fielding', every [n >= 0] and every table of that category with at
    least one row, [top_performers] prints, after its header, rows of the
    table in descending order of Runs, Wickets or Catches, tied rows in
    their original order, every printed row ranking before every row left
    out, and their number is [min n (table size)].  On the batting table
    [(A,TeamX,50); (B,TeamY,80); (C,TeamX,80)], whatever the other columns
    hold, [top_performers('batting', 2)] prints B then C. *)
Theorem top_performers_ranked
    (b : list Batting.row) (w : list Bowling.row) (f : list Fielding.row)
    (t : option (list Teams.row)) (n : Z)
    (avgA srA avgB srB avgC srC : spec_float)
    (foursA sixesA foursB sixesB foursC sixesC : Z) :
  (0 <= n)%Z ->
  let self := mkAnalyzer (Some b) (Some w) (Some f) t in
  let rowA := Batting.mk "A" "TeamX" 50 avgA srA foursA sixesA in
  let rowB := Batting.mk "B" "TeamY" 80 avgB srB foursB sixesB in
  let rowC := Batting.mk "C" "TeamX" 80 avgC srC foursC sixesC in
  let scenario := mkAnalyzer (Some [rowA; rowB; rowC]) (Some w) (Some f) t in
  (b <> [] ->
   exists sel,
      top_performers "batting" n self
      = mkResult
          (top_header "batting" n
           ++ [PrintFrame batting_columns (map batting_cells sel)])
          self (Returned tt) /\
      top_ranked Batting.Runs b sel /\
      Z.of_nat (List.length sel) = Z.min n (Z.of_nat (List.length b))) /\
  (w <> [] ->
   exists sel,
      top_performers "bowling" n self
      = mkResult
          (top_header "bowling" n
           ++ [PrintFrame bowling_columns (map bowling_cells sel)])
          self (Returned tt) /\
      top_ranked Bowling.Wickets w sel /\
      Z.of_nat (List.length sel) = Z.min n (Z.of_nat (List.length w))) /\
  (f <> [] ->
   exists sel,
      top_performers "fielding" n self
      = mkResult
          (top_header "fielding" n
           ++ [PrintFrame fielding_columns (map fielding_cells sel)])
          self (Returned tt) /\
      top_ranked Fielding.Catches f sel /\
      Z.of_nat (List.length sel) = Z.min n (Z.of_nat (List.length f))) /\
  top_performers "batting" 2 scenario
  = mkResult
      (top_header "batting" 2
       ++ [PrintFrame batting_columns (map batting_cells [rowB; rowC])])
      scenario (Returned tt).
Proof.
  intros Hn self rowA rowB rowC scenario.
  split; [|split; [|split]].
  - intros Hb. exists (Pandas.top_rows Batting.Runs n b).
    split; [now apply top_performers_batting_run|]. split.
    + apply nlargest_top_ranked.
    + now apply nlargest_length.
  - intros Hw. exists (Pandas.top_rows Bowling.Wickets n w).
    split; [now apply top_performers_bowling_run|]. split.
    + apply nlargest_top_ranked.
    + now apply nlargest_length.
  - intros Hf. exists (Pandas.top_rows Fielding.Catches n f).
    split; [now apply top_performers_fielding_run|]. split.
    + apply nlargest_top_ranked.
    + now apply nlargest_length.
  - reflexivity.
Qed.

Lemma top_performers_ranked_witness :
  (0 <= 2)%Z /\ scenario_batting <> [] /\
  exists sel,
    top_performers "batting" 2 scenario_analyzer
    = mkResult
        (top_header "batting" 2
         ++ [PrintFrame batting_columns (map batting_cells sel)])
        scenario_analyzer (Returned tt) /\
    top_ranked Batting.Runs scenario_batting sel /\
    Z.of_nat (List.length sel) = Z.min 2 (Z.of_nat (List.length scenario_batting)).
Proof.
  split; [lia|]. split; [discriminate|].
  apply (proj1 (top_performers_ranked scenario_batting scenario_bowling
                  scenario_fielding (Some scenario_teams) 2
                  S754_nan S754_nan S754_nan S754_nan S754_nan S754_nan
                  0 0 0 0 0 0 ltac:(lia))).
  discriminate.
Defined.

(** C2. On non-empty batting, bowling and fielding tables, the three award
    rows that [display_summary] prints and [generate_report] writes hold
    the maximum of Runs, of Wickets and of Catches over their table, and
    each is the first row of its table, in original row order, to hold it. *)
Theorem award_rows_first_maxima
    (b : list Batting.row) (w : list Bowling.row) (f : list Fielding.row)
    (t : option (list Teams.row)) (filename : string) (now : datetime) :
  b <> [] -> w <> [] -> f <> [] ->
  let self := mkAnalyzer (Some b) (Some w) (Some f) t in
  exists o p c,
    first_maximum Batting.Runs b o /\
    first_maximum Bowling.Wickets w p /\
    first_maximum Fielding.Catches f c /\
    (exists rest result,
        display_summary self
        = mkResult (summary_banner ++ summary_awards o p c ++ rest) self result) /\
    (exists rest result,
        generate_report filename now self
        = mkResult
            (report_title filename ++ [Write filename (timestamp_line now)]
             ++ report_summary filename ++ report_awards filename o p c ++ rest)
            self result).
Proof.
  intros Hb Hw Hf self.
  destruct (row_of_max_run Batting.Runs b Hb) as [o [Ho Hrun_o]].
  destruct (row_of_max_run Bowling.Wickets w Hw) as [p [Hp Hrun_p]].
  destruct (row_of_max_run Fielding.Catches f Hf) as [c [Hc Hrun_c]].
  exists o, p, c. repeat (split; [assumption|]).
  destruct t as [t|]; split.
  - eexists _, _. now apply display_summary_run.
  - eexists _, _. now apply generate_report_run.
  - exists [Print (nl ++ "📊 POINTS TABLE (Top 4):")],
      (Raised (AttributeError "team_df")).
    etransitivity.
    + unfold display_summary, print. run.
    + reflexivity.
  - exists [Write filename ("FINAL POINTS TABLE" ++ nl);
            Write filename (str_mul "-" 20 ++ nl)],
      (Raised (AttributeError "team_df")).
    etransitivity.
    + unfold generate_report, print. run.
    + reflexivity.
Qed.

Lemma award_rows_first_maxima_witness :
  scenario_batting <> [] /\ scenario_bowling <> [] /\ scenario_fielding <> [] /\
  exists o p c,
    first_maximum Batting.Runs scenario_batting o /\
    first_maximum Bowling.Wickets scenario_bowling p /\
    first_maximum Fielding.Catches scenario_fielding c /\
    (exists rest result,
        display_summary scenario_analyzer
        = mkResult (summary_banner ++ summary_awards o p c ++ rest)
            scenario_analyzer result) /\
    (exists rest result,
        generate_report "report.txt" scenario_now scenario_analyzer
        = mkResult
            (report_title "report.txt"
             ++ [Write "report.txt" (timestamp_line scenario_now)]
             ++ report_summary "report.txt" ++ report_awards "report.txt" o p c
             ++ rest)
            scenario_analyzer result).
Proof.
  split; [discriminate|]. split; [discriminate|]. split; [discriminate|].
  apply (award_rows_first_maxima scenario_batting scenario_bowling
           scenario_fielding (Some scenario_teams) "report.txt" scenario_now);
    discriminate.
Defined.

(** C3. With the fielding file missing, [load_data] reports the error and
    leaves [fielding_df] (and [team_df], read after it) unset; the
    constructor then raises [AttributeError] on [len(self.fielding_df)],
    and [top_performers('fielding', n)] on the object [load_data] left
    raises [AttributeError] after its header instead of printing an empty
    result. *)
Theorem missing_fielding_file_raises
    (b : list Batting.row) (w : list Bowling.row) (t : Source Teams.row) (n : Z) :
  let dir := mkDirectory (Csv b) (Csv w) NoSuchFile t in
  let left := mkAnalyzer (Some b) (Some w) None None in
  load_data dir unloaded
  = mkResult
      [Print ("❌ Error loading data: [Errno 2] No such file or directory: "
              ++ "'ipl_2025_fielding_stats.csv'");
       Print "Please ensure all CSV files are in the current directory"]
      left (Returned tt) /\
  new dir
  = mkResult
      [Print ("❌ Error loading data: [Errno 2] No such file or directory: "
              ++ "'ipl_2025_fielding_stats.csv'");
       Print "Please ensure all CSV files are in the current directory";
       Print "🏏 IPL 2025 Statistics Analyzer Initialized!";
       Print ("📊 Loaded data for " ++ str_len b ++ " batsmen, " ++ str_len w
              ++ " bowlers")]
      left (Raised (AttributeError "fielding_df")) /\
  top_performers "fielding" n left
  = mkResult (top_header "fielding" n) left (Raised (AttributeError "fielding_df")).
Proof.
  intros dir left. repeat split; reflexivity.
Qed.

(** C4. For the categories batting and bowling (in any letter case), when
    either name has no row of the chosen table whose Player equals it
    exactly, [compare_players] prints the not-found diagnostic and returns:
    nothing is plotted and nothing is written. *)
Theorem compare_players_not_found
    (self : IPLAnalyzer) (player1 player2 category : string) :
  (forall df,
      lower category = "batting" -> batting_df self = Some df ->
      ~ present Batting.Player player1 df \/ ~ present Batting.Player player2 df ->
      compare_players player1 player2 category self
      = mkResult [Print "One or both players not found in the dataset"]
          self (Returned tt)) /\
  (forall df,
      lower category = "bowling" -> bowling_df self = Some df ->
      ~ present Bowling.Player player1 df \/ ~ present Bowling.Player player2 df ->
      compare_players player1 player2 category self
      = mkResult [Print "One or both players not found in the dataset"]
          self (Returned tt)).
Proof.
  split; intros df Hcat Hdf Habsent; unfold compare_players; rewrite Hcat; simpl;
    rewrite (bind_getattr _ _ _ _ _ Hdf); now apply compare_in_not_found.
Qed.

Lemma compare_players_not_found_witness :
  lower "batting" = "batting" /\
  batting_df scenario_analyzer = Some scenario_batting /\
  ~ present Batting.Player "Z" scenario_batting /\
  compare_players "Z" "B" "batting" scenario_analyzer
  = mkResult [Print "One or both players not found in the dataset"]
      scenario_analyzer (Returned tt) /\
  lower "Bowling" = "bowling" /\
  bowling_df scenario_analyzer = Some scenario_bowling /\
  ~ present Bowling.Player "Z" scenario_bowling /\
  compare_players "P" "Z" "Bowling" scenario_analyzer
  = mkResult [Print "One or both players not found in the dataset"]
      scenario_analyzer (Returned tt).
Proof.
  assert (Hbat : ~ present Batting.Player "Z" scenario_batting).
  { intros [r [Hin Hr]]. simpl in Hin.
    destruct Hin as [<- | [<- | [<- | []]]]; discriminate Hr. }
  assert (Hbowl : ~ present Bowling.Player "Z" scenario_bowling).
  { intros [r [Hin Hr]]. simpl in Hin.
    destruct Hin as [<- | [<- | []]]; discriminate Hr. }
  split; [reflexivity|]. split; [reflexivity|]. split; [exact Hbat|].
  split.
  - apply (proj1 (compare_players_not_found scenario_analyzer "Z" "B" "batting")
             scenario_batting); [reflexivity | reflexivity | now left].
  - split; [reflexivity|]. split; [reflexivity|]. split; [exact Hbowl|].
    apply (proj2 (compare_players_not_found scenario_analyzer "P" "Z" "Bowling")
             scenario_bowling); [reflexivity | reflexivity | now right].
Defined.

(** C5, as stated, fails: on a team table stored with Position 2 before
    Position 1, [display_summary] prints the standing of Position 2 first,
    which is not the order by Position. *)
Lemma summary_standings_not_by_Position :
  skipn 10 (trace (display_summary scenario_analyzer))
  = [Print "2. PBKS - 19 pts (NRR: +0.363)"; Print "1. RCB - 19 pts (NRR: -0.250)"] /\
  map (fun team => Print (standing_line team))
    (firstn 4 (ordered_by_Position scenario_teams))
  = [Print "1. RCB - 19 pts (NRR: -0.250)"; Print "2. PBKS - 19 pts (NRR: +0.363)"] /\
  skipn 10 (trace (display_summary scenario_analyzer))
  <> map (fun team => Print (standing_line team))
       (firstn 4 (ordered_by_Position scenario_teams)).
Proof.
  split; [reflexivity|]. split; [reflexivity|]. discriminate.
Qed.

(** C5, amended. After the three award rows [display_summary] prints the
    first 4 rows of the team table in stored row order (all rows when
    there are fewer); when the table is stored in ascending order of
    Position these are the first 4 rows by Position. *)
Theorem summary_standings_stored_order
    (b : list Batting.row) (w : list Bowling.row) (f : list Fielding.row)
    (t : list Teams.row) :
  b <> [] -> w <> [] -> f <> [] ->
  let self := mkAnalyzer (Some b) (Some w) (Some f) (Some t) in
  (exists o p c,
      display_summary self
      = mkResult
          (summary_banner ++ summary_awards o p c
           ++ [Print (nl ++ "📊 POINTS TABLE (Top 4):")]
           ++ map (fun team => Print (standing_line team)) (firstn 4 t))
          self (Returned tt)) /\
  (stored_by_Position t -> firstn 4 t = firstn 4 (ordered_by_Position t)).
Proof.
  intros Hb Hw Hf self. split.
  - destruct (row_of_max_run Batting.Runs b Hb) as [o [_ Hrun_o]].
    destruct (row_of_max_run Bowling.Wickets w Hw) as [p [_ Hrun_p]].
    destruct (row_of_max_run Fielding.Catches f Hf) as [c [_ Hrun_c]].
    exists o, p, c. now apply display_summary_run.
  - intros Hstored. now rewrite ordered_by_Position_stored.
Qed.

Lemma summary_standings_stored_order_witness :
  scenario_batting <> [] /\ scenario_bowling <> [] /\ scenario_fielding <> [] /\
  stored_by_Position stored_teams /\
  (exists o p c,
      display_summary
        (mkAnalyzer (Some scenario_batting) (Some scenario_bowling)
           (Some scenario_fielding) (Some stored_teams))
      = mkResult
          (summary_banner ++ summary_awards o p c
           ++ [Print (nl ++ "📊 POINTS TABLE (Top 4):")]
           ++ map (fun team => Print (standing_line team)) (firstn 4 stored_teams))
          (mkAnalyzer (Some scenario_batting) (Some scenario_bowling)
             (Some scenario_fielding) (Some stored_teams))
          (Returned tt)) /\
  firstn 4 stored_teams = firstn 4 (ordered_by_Position stored_teams).
Proof.
  assert (Hstored : stored_by_Position stored_teams).
  { unfold stored_by_Position, stored_teams.
    repeat constructor; simpl; lia. }
  split; [discriminate|]. split; [discriminate|]. split; [discriminate|].
  split; [exact Hstored|].
  destruct (summary_standings_stored_order scenario_batting scenario_bowling
              scenario_fielding stored_teams) as [Hrun Hord];
    try discriminate.
  split; [exact Hrun | exact (Hord Hstored)].
Defined.

(** C6, as stated, fails: on a team table stored with Position 2 before
    Position 1, [generate_report] writes the line of Position 2 first. *)
Lemma report_table_not_by_Position :
  firstn 2 (skipn 17 (trace (generate_report "report.txt" scenario_now
                               scenario_analyzer)))
  = [Write "report.txt"
       (" 2. PBKS - 19 pts | W:  9 L:  4 | NRR: +0.363" ++ nl);
     Write "report.txt"
       (" 1. RCB  - 19 pts | W:  9 L:  4 | NRR: -0.250" ++ nl)] /\
  firstn 2 (skipn 17 (trace (generate_report "report.txt" scenario_now
                               scenario_analyzer)))
  <> map (fun team => Write "report.txt" (team_line team))
       (ordered_by_Position scenario_teams).
Proof.
  split; [reflexivity | discriminate].
Qed.

(** C6, amended. [generate_report] writes one line for every row of the
    team table, in stored row order (the order by Position when the table
    is stored that way), between the points-table heading and the batsmen
    heading.  In a line Position, Points, Won and Lost are right-aligned in
    2 characters (exactly 2 for values from 0 to 99), Team is left-aligned
    and padded with spaces to 4 characters, and a finite NRR carries a sign
    and 3 decimals. *)
Theorem report_table_stored_order
    (b : list Batting.row) (w : list Bowling.row) (f : list Fielding.row)
    (t : list Teams.row) (filename : string) (now : datetime) :
  b <> [] -> w <> [] -> f <> [] ->
  let self := mkAnalyzer (Some b) (Some w) (Some f) (Some t) in
  (exists pre post,
      generate_report filename now self
      = mkResult
          (pre
           ++ [Write filename ("FINAL POINTS TABLE" ++ nl);
               Write filename (str_mul "-" 20 ++ nl)]
           ++ map (fun team => Write filename (team_line team)) t
           ++ Write filename (nl ++ "TOP 5 BATSMEN" ++ nl) :: post)
          self (Returned tt)) /\
  (stored_by_Position t -> t = ordered_by_Position t) /\
  (forall team,
      team_line team
      = format_d 2 (Teams.Position team) ++ ". "
        ++ format_left 4 (Teams.Team team) ++ " - "
        ++ format_d 2 (Teams.Points team) ++ " pts | W: "
        ++ format_d 2 (Teams.Won team) ++ " L: "
        ++ format_d 2 (Teams.Lost team) ++ " | NRR: "
        ++ format_f true 3 (Teams.NRR team) ++ nl) /\
  (forall i, format_d 2 i = str_mul " " (2 - String.length (str_int i)) ++ str_int i) /\
  (forall i, (0 <= i <= 99)%Z -> String.length (format_d 2 i) = 2%nat) /\
  (forall s, format_left 4 s = s ++ str_mul " " (4 - String.length s)) /\
  (forall s, String.length (format_left 4 s) = Nat.max 4 (String.length s)) /\
  (forall x, is_finite x ->
      exists sign digits decimals,
        format_f true 3 x = sign ++ digits ++ "." ++ decimals /\
        (sign = "+" \/ sign = "-") /\ String.length decimals = 3%nat).
Proof.
  intros Hb Hw Hf self.
  split; [|split; [|split; [|split; [|split; [|split; [|split]]]]]].
  - destruct (row_of_max_run Batting.Runs b Hb) as [o [_ Hrun_o]].
    destruct (row_of_max_run Bowling.Wickets w Hw) as [p [_ Hrun_p]].
    destruct (row_of_max_run Fielding.Catches f Hf) as [c [_ Hrun_c]].
    exists (report_title filename ++ [Write filename (timestamp_line now)]
            ++ report_summary filename ++ report_awards filename o p c)%list,
      (tl (report_top5 filename b w)).
    unfold self.
    rewrite (generate_report_run b w f t o p c filename now Hrun_o Hrun_p Hrun_c).
    f_equal; rewrite <- ?app_assoc; reflexivity.
  - intros Hstored. now rewrite ordered_by_Position_stored.
  - reflexivity.
  - reflexivity.
  - apply format_d_two_digits.
  - reflexivity.
  - intros s. apply length_ljust.
  - apply format_f_signed_3.
Qed.

Lemma report_table_stored_order_witness :
  scenario_batting <> [] /\ scenario_bowling <> [] /\ scenario_fielding <> [] /\
  stored_by_Position stored_teams /\
  (0 <= 7 <= 99)%Z /\ is_finite (S754_finite true 1 (-2)) /\
  (exists pre post,
      generate_report "report.txt" scenario_now
        (mkAnalyzer (Some scenario_batting) (Some scenario_bowling)
           (Some scenario_fielding) (Some stored_teams))
      = mkResult
          (pre
           ++ [Write "report.txt" ("FINAL POINTS TABLE" ++ nl);
               Write "report.txt" (str_mul "-" 20 ++ nl)]
           ++ map (fun team => Write "report.txt" (team_line team)) stored_teams
           ++ Write "report.txt" (nl ++ "TOP 5 BATSMEN" ++ nl) :: post)
          (mkAnalyzer (Some scenario_batting) (Some scenario_bowling)
             (Some scenario_fielding) (Some stored_teams))
          (Returned tt)) /\
  stored_teams = ordered_by_Position stored_teams /\
  String.length (format_d 2 7) = 2%nat /\
  (exists sign digits decimals,
      format_f true 3 (S754_finite true 1 (-2)) = sign ++ digits ++ "." ++ decimals /\
      (sign = "+" \/ sign = "-") /\ String.length decimals = 3%nat).
Proof.
  assert (Hstored : stored_by_Position stored_teams).
  { unfold stored_by_Position, stored_teams.
    repeat constructor; simpl; lia. }
  split; [discriminate|]. split; [discriminate|]. split; [discriminate|].
  split; [exact Hstored|]. split; [lia|]. split; [exact I|].
  destruct (report_table_stored_order scenario_batting scenario_bowling
              scenario_fielding stored_teams "report.txt" scenario_now)
    as [Hrun [Hord [_ [_ [Hd [_ [_ Hf]]]]]]]; try discriminate.
  split; [exact Hrun|]. split; [exact (Hord Hstored)|].
  split; [apply Hd; lia | apply Hf; exact I].
Defined.

(** C7, as stated, fails: 'BATTING' is not one of the strings 'batting',
    'bowling', 'fielding', yet [top_performers('BATTING', 2)] reads the
    batting table and prints its two best rows. *)
Lemma top_performers_BATTING_prints_rows :
  ~ In "BATTING" ["batting"; "bowling"; "fielding"] /\
  top_performers "BATTING" 2 scenario_analyzer
  = mkResult
      (top_header "BATTING" 2
       ++ [PrintFrame batting_columns
             [[CStr "B"; CStr "TeamY"; CInt 80; CFloat (S754_finite false 81 (-1));
               CFloat (S754_finite false 150 0)];
              [CStr "C"; CStr "TeamX"; CInt 80; CFloat (S754_finite false 20 0);
               CFloat (S754_finite false 555 (-2))]]])
      scenario_analyzer (Returned tt).
Proof.
  split; [|reflexivity].
  simpl. intros [H | [H | [H | []]]]; discriminate H.
Qed.

(** C7, amended. For every category whose lower-case form is none of
    'batting', 'bowling', 'fielding', [top_performers] returns normally
    whatever the state of the tables, leaves the object as it was, and
    prints no rows: no frame is printed, nothing is plotted or written. *)
Theorem top_performers_unrecognized
    (category : string) (n : Z) (self : IPLAnalyzer) :
  lower category <> "batting" ->
  lower category <> "bowling" ->
  lower category <> "fielding" ->
  outcome (top_performers category n self) = Returned tt /\
  final (top_performers category n self) = self /\
  forall ev, In ev (trace (top_performers category n self)) ->
             exists line, ev = Print line.
Proof.
  intros H1 H2 H3.
  rewrite (top_performers_unrecognized_run category n self H1 H2 H3).
  repeat split.
  intros ev [<- | [<- | []]]; eexists; reflexivity.
Qed.

Lemma top_performers_unrecognized_witness :
  lower "Keeping" <> "batting" /\ lower "Keeping" <> "bowling" /\
  lower "Keeping" <> "fielding" /\
  outcome (top_performers "Keeping" 5 unloaded) = Returned tt /\
  final (top_performers "Keeping" 5 unloaded) = unloaded /\
  forall ev, In ev (trace (top_performers "Keeping" 5 unloaded)) ->
             exists line, ev = Print line.
Proof.
  split; [discriminate|]. split; [discriminate|]. split; [discriminate|].
  apply (top_performers_unrecognized "Keeping" 5 unloaded); discriminate.
Defined.

(** C8. For fixed tables, what [generate_report] does is the same for
    every clock reading except for the one timestamp line it writes: the
    events before that line, the events after it, the object left and the
    outcome do not depend on the time of the run. *)
Theorem generate_report_deterministic (filename : string) (self : IPLAnalyzer) :
  exists post left result,
    forall now,
      generate_report filename now self
      = mkResult
          (report_title filename
           ++ Write filename (timestamp_line now) :: post)
          left result.
Proof.
  do 3 eexists. intros now.
  unfold generate_report, report_title. cbv zeta.
  do 4 (rewrite bind_emit; cbv beta; cbn [trace final outcome]).
  reflexivity.
Qed.

(** C9, as stated, fails: in a bowling table without the optional
    Strike_Rate column, where P and Q are both present, neither order of
    the call draws a comparison: reading the metrics raises the
    [KeyError] of the column and nothing is shown. *)
Lemma compare_players_missing_strike_rate :
  bowling_df scenario_without_strike_rate = Some bowling_without_strike_rate /\
  present Bowling.Player "P" bowling_without_strike_rate /\
  present Bowling.Player "Q" bowling_without_strike_rate /\
  compare_players "P" "Q" "bowling" scenario_without_strike_rate
  = mkResult [] scenario_without_strike_rate (Raised (MissingColumn "Strike_Rate")) /\
  compare_players "Q" "P" "bowling" scenario_without_strike_rate
  = mkResult [] scenario_without_strike_rate (Raised (MissingColumn "Strike_Rate")).
Proof.
  split; [reflexivity|].
  split; [eexists; split; [left; reflexivity | reflexivity]|].
  split; [eexists; split; [right; left; reflexivity | reflexivity]|].
  split; reflexivity.
Qed.

(** C9, amended. When both names are present in the chosen table, and the
    bowling table has its Strike_Rate column, [compare_players] called
    with the names in either order shows one chart and returns: the title
    names the players in the order of the call, the ticks are the metrics
    of the category, the first player of the call has the left bars and
    the second the right ones, and each player's bars carry, in both
    calls, the same label and the same metric values, read from the first
    row of the table whose Player equals the name exactly. *)
Theorem compare_players_swap
    (self : IPLAnalyzer) (player1 player2 category : string) :
  (forall df,
      lower category = "batting" -> batting_df self = Some df ->
      present Batting.Player player1 df -> present Batting.Player player2 df ->
      exists r1 r2,
        first_row_of Batting.Player player1 df r1 /\
        first_row_of Batting.Player player2 df r2 /\
        compare_players player1 player2 category self
        = mkResult
            [ShowChart
               (mkChart ("Batting Comparison: " ++ player1 ++ " vs " ++ player2)
                  ["Runs"; "Average"; "Strike_Rate"; "Fours"; "Sixes"]
                  (batsman_bars player1 r1) (batsman_bars player2 r2))]
            self (Returned tt) /\
        compare_players player2 player1 category self
        = mkResult
            [ShowChart
               (mkChart ("Batting Comparison: " ++ player2 ++ " vs " ++ player1)
                  ["Runs"; "Average"; "Strike_Rate"; "Fours"; "Sixes"]
                  (batsman_bars player2 r2) (batsman_bars player1 r1))]
            self (Returned tt)) /\
  (forall df,
      lower category = "bowling" -> bowling_df self = Some df ->
      has_strike_rate df ->
      present Bowling.Player player1 df -> present Bowling.Player player2 df ->
      exists r1 r2 sr1 sr2,
        first_row_of Bowling.Player player1 df r1 /\
        first_row_of Bowling.Player player2 df r2 /\
        Bowling.Strike_Rate r1 = Some sr1 /\
        Bowling.Strike_Rate r2 = Some sr2 /\
        compare_players player1 player2 category self
        = mkResult
            [ShowChart
               (mkChart ("Bowling Comparison: " ++ player1 ++ " vs " ++ player2)
                  ["Wickets"; "Economy"; "Average"; "Strike_Rate"]
                  (bowler_bars player1 r1 sr1) (bowler_bars player2 r2 sr2))]
            self (Returned tt) /\
        compare_players player2 player1 category self
        = mkResult
            [ShowChart
               (mkChart ("Bowling Comparison: " ++ player2 ++ " vs " ++ player1)
                  ["Wickets"; "Economy"; "Average"; "Strike_Rate"]
                  (bowler_bars player2 r2 sr2) (bowler_bars player1 r1 sr1))]
            self (Returned tt)).
Proof.
  split.
  - intros df Hcat Hdf Hp1 Hp2.
    destruct (iloc0_select_present Batting.Player player1 df Hp1) as [r1 [H1 F1]].
    destruct (iloc0_select_present Batting.Player player2 df Hp2) as [r2 [H2 F2]].
    exists r1, r2. split; [exact F1|]. split; [exact F2|].
    unfold compare_players. rewrite Hcat. cbn [String.eqb Ascii.eqb Bool.eqb].
    rewrite !(bind_getattr _ _ _ _ _ Hdf).
    split.
    + rewrite (compare_in_found Batting.Player Batting.Team batting_values
                 batting_metrics df player1 player2 category r1 r2 _ _ self H1 H2
                 eq_refl eq_refl).
      unfold comparison_chart.
      now rewrite (capitalize_of_lower category "batting" eq_refl Hcat).
    + rewrite (compare_in_found Batting.Player Batting.Team batting_values
                 batting_metrics df player2 player1 category r2 r1 _ _ self H2 H1
                 eq_refl eq_refl).
      unfold comparison_chart.
      now rewrite (capitalize_of_lower category "batting" eq_refl Hcat).
  - intros df Hcat Hdf Hsr Hp1 Hp2.
    destruct (iloc0_select_present Bowling.Player player1 df Hp1) as [r1 [H1 F1]].
    destruct (iloc0_select_present Bowling.Player player2 df Hp2) as [r2 [H2 F2]].
    assert (Hin1 : In r1 df)
      by (destruct F1 as [i [Hi _]]; now apply nth_error_In with i).
    assert (Hin2 : In r2 df)
      by (destruct F2 as [i [Hi _]]; now apply nth_error_In with i).
    destruct (Bowling.Strike_Rate r1) as [sr1|] eqn:E1;
      [|now destruct (Hsr r1 Hin1)].
    destruct (Bowling.Strike_Rate r2) as [sr2|] eqn:E2;
      [|now destruct (Hsr r2 Hin2)].
    exists r1, r2, sr1, sr2.
    split; [exact F1|]. split; [exact F2|]. split; [exact E1|].
    split; [exact E2|].
    assert (V1 : forall s, bowling_values r1 s
                           = mkResult [] s
                               (Returned [CInt (Bowling.Wickets r1);
                                          CFloat (Bowling.Economy r1);
                                          CFloat (Bowling.Average r1); CFloat sr1]))
      by (intros s; unfold bowling_values; now rewrite E1).
    assert (V2 : forall s, bowling_values r2 s
                           = mkResult [] s
                               (Returned [CInt (Bowling.Wickets r2);
                                          CFloat (Bowling.Economy r2);
                                          CFloat (Bowling.Average r2); CFloat sr2]))
      by (intros s; unfold bowling_values; now rewrite E2).
    unfold compare_players. rewrite Hcat. cbn [String.eqb Ascii.eqb Bool.eqb].
    rewrite !(bind_getattr _ _ _ _ _ Hdf).
    split.
    + rewrite (compare_in_found Bowling.Player Bowling.Team bowling_values
                 bowling_metrics df player1 player2 category r1 r2 _ _ self H1 H2
                 (V1 self) (V2 self)).
      unfold comparison_chart.
      now rewrite (capitalize_of_lower category "bowling" eq_refl Hcat).
    + rewrite (compare_in_found Bowling.Player Bowling.Team bowling_values
                 bowling_metrics df player2 player1 category r2 r1 _ _ self H2 H1
                 (V2 self) (V1 self)).
      unfold comparison_chart.
      now rewrite (capitalize_of_lower category "bowling" eq_refl Hcat).
Qed.

Lemma compare_players_swap_witness :
  lower "BOWLING" = "bowling" /\
  bowling_df scenario_analyzer = Some scenario_bowling /\
  has_strike_rate scenario_bowling /\
  present Bowling.Player "Q" scenario_bowling /\
  present Bowling.Player "P" scenario_bowling /\
  exists r1 r2 sr1 sr2,
    first_row_of Bowling.Player "Q" scenario_bowling r1 /\
    first_row_of Bowling.Player "P" scenario_bowling r2 /\
    Bowling.Strike_Rate r1 = Some sr1 /\
    Bowling.Strike_Rate r2 = Some sr2 /\
    compare_players "Q" "P" "BOWLING" scenario_analyzer
    = mkResult
        [ShowChart
           (mkChart "Bowling Comparison: Q vs P"
              ["Wickets"; "Economy"; "Average"; "Strike_Rate"]
              (bowler_bars "Q" r1 sr1) (bowler_bars "P" r2 sr2))]
        scenario_analyzer (Returned tt) /\
    compare_players "P" "Q" "BOWLING" scenario_analyzer
    = mkResult
        [ShowChart
           (mkChart "Bowling Comparison: P vs Q"
              ["Wickets"; "Economy"; "Average"; "Strike_Rate"]
              (bowler_bars "P" r2 sr2) (bowler_bars "Q" r1 sr1))]
        scenario_analyzer (Returned tt).
Proof.
  assert (HQ : present Bowling.Player "Q" scenario_bowling)
    by (eexists; split; [right; left; reflexivity | reflexivity]).
  assert (HP : present Bowling.Player "P" scenario_bowling)
    by (eexists; split; [left; reflexivity | reflexivity]).
  assert (Hsr : has_strike_rate scenario_bowling)
    by (intros r [<- | [<- | []]]; discriminate).
  split; [reflexivity|]. split; [reflexivity|].
  split; [exact Hsr|]. split; [exact HQ|]. split; [exact HP|].
  exact (proj2 (compare_players_swap scenario_analyzer "Q" "P" "BOWLING")
           scenario_bowling eq_refl eq_refl Hsr HQ HP).
Defined.

(** C10, as stated, fails: the header of [top_performers] prints the
    category in upper case, and the upper-case form of a category is not
    always that of its lower-case form.  The lower-case form of the capital
    sharp s is the small one, whose upper-case form is SS, so the two
    calls print different headers. *)
Lemma category_case_changes_header :
  lower "ẞ" = "ß" /\
  trace (top_performers "ẞ" 5 scenario_analyzer)
  = [Print (nl ++ "🌟 TOP 5 ẞ PERFORMERS"); Print (str_mul "-" 50)] /\
  trace (top_performers (lower "ẞ") 5 scenario_analyzer)
  = [Print (nl ++ "🌟 TOP 5 SS PERFORMERS"); Print (str_mul "-" 50)] /\
  top_performers "ẞ" 5 scenario_analyzer
  <> top_performers (lower "ẞ") 5 scenario_analyzer.
Proof.
  split; [reflexivity|]. split; [reflexivity|]. split; [reflexivity|].
  intros H. apply (f_equal trace) in H. vm_compute in H. discriminate H.
Qed.

(** C10, amended. The category is matched without regard to letter case.
    For every category made of ASCII characters, [top_performers] behaves
    on the category exactly as on its lower-case form; for every other
    category the two calls differ at most in the category their header
    shows: they print the same rows after it, leave the same object and
    end alike.  [compare_players] behaves on every category exactly as on
    its lower-case form; 'BATTING' is taken as 'batting'. *)
Theorem category_case_insensitive
    (category player1 player2 : string) (n : Z) (self : IPLAnalyzer) :
  (ascii_only category = true ->
   top_performers category n self = top_performers (lower category) n self) /\
  (exists rows left result,
      top_performers category n self
      = mkResult (top_header category n ++ rows) left result /\
      top_performers (lower category) n self
      = mkResult (top_header (lower category) n ++ rows) left result) /\
  compare_players player1 player2 category self
  = compare_players player1 player2 (lower category) self /\
  lower "BATTING" = "batting".
Proof.
  split; [|split; [|split; [|reflexivity]]].
  - intros Hc. unfold top_performers. now rewrite lower_lower, upper_lower.
  - unfold top_performers, top_header, print.
    rewrite !lower_eqb_lower by reflexivity.
    do 3 eexists. split.
    + do 2 (rewrite bind_emit; cbv beta; cbn [trace final outcome]).
      cbn [app]. reflexivity.
    + do 2 (rewrite bind_emit; cbv beta; cbn [trace final outcome]).
      reflexivity.
  - unfold compare_players.
    rewrite !lower_eqb_lower by reflexivity.
    destruct (String.eqb_spec (lower category) "batting") as [E | _].
    + unfold compare_in, comparison_chart.
      rewrite (capitalize_of_lower category "batting" eq_refl E).
      now rewrite E.
    + destruct (String.eqb_spec (lower category) "bowling") as [E | _];
        [|reflexivity].
      unfold compare_in, comparison_chart.
      rewrite (capitalize_of_lower category "bowling" eq_refl E).
      now rewrite E.
Qed.

Lemma category_case_insensitive_witness :
  ascii_only "BATTING" = true /\
  top_performers "BATTING" 5 scenario_analyzer
  = top_performers (lower "BATTING") 5 scenario_analyzer.
Proof.
  split; [reflexivity|].
  apply (proj1 (category_case_insensitive "BATTING" "A" "C" 5 scenario_analyzer)).
  reflexivity.
Defined.

(* ================================================================== *)
(** * Further properties: loading *)
(* ================================================================== *)

(** X1. The constructor returns normally exactly when all four files are
    readable, and the object then holds the rows of the four files. *)
Theorem constructor_returns_iff_files_readable :
  (forall b w f t,
      new (mkDirectory (Csv b) (Csv w) (Csv f) (Csv t))
      = mkResult
          [Print "✅ All datasets loaded successfully!";
           Print "🏏 IPL 2025 Statistics Analyzer Initialized!";
           Print ("📊 Loaded data for " ++ str_len b ++ " batsmen, " ++ str_len w
                  ++ " bowlers");
           Print ("🥅 " ++ str_len f ++ " fielders, and " ++ str_len t ++ " teams")]
          (mkAnalyzer (Some b) (Some w) (Some f) (Some t)) (Returned tt)) /\
  (forall dir,
      outcome (new dir) = Returned tt ->
      exists b w f t, dir = mkDirectory (Csv b) (Csv w) (Csv f) (Csv t)).
Proof.
  split; [reflexivity|].
  intros [sb sw sf st] H.
  destruct sb as [|[]|b]; try discriminate H.
  destruct sw as [|[]|w]; try discriminate H.
  destruct sf as [|[]|f]; try discriminate H.
  destruct st as [|[]|t]; try discriminate H.
  now exists b, w, f, t.
Qed.

Lemma constructor_returns_iff_files_readable_witness :
  outcome (new complete_directory) = Returned tt /\
  exists b w f t, complete_directory = mkDirectory (Csv b) (Csv w) (Csv f) (Csv t).
Proof.
  split; [reflexivity|].
  apply (proj2 constructor_returns_iff_files_readable complete_directory).
  reflexivity.
Defined.

(** X2. [load_data] stops at the first missing file: it reports that file,
    returns normally, has replaced the tables read before it and leaves
    the table of the missing file and every later table as they were,
    whatever the later files hold. *)
Theorem load_data_stops_at_first_missing_file
    (self : IPLAnalyzer) (b : list Batting.row) (w : list Bowling.row)
    (f : list Fielding.row) (sw : Source Bowling.row) (sf : Source Fielding.row)
    (st : Source Teams.row) :
  load_data (mkDirectory NoSuchFile sw sf st) self
  = mkResult (missing_report "ipl_2025_batting_stats.csv") self (Returned tt) /\
  load_data (mkDirectory (Csv b) NoSuchFile sf st) self
  = mkResult (missing_report "ipl_2025_bowling_stats.csv")
      (mkAnalyzer (Some b) (bowling_df self) (fielding_df self) (team_df self))
      (Returned tt) /\
  load_data (mkDirectory (Csv b) (Csv w) NoSuchFile st) self
  = mkResult (missing_report "ipl_2025_fielding_stats.csv")
      (mkAnalyzer (Some b) (Some w) (fielding_df self) (team_df self))
      (Returned tt) /\
  load_data (mkDirectory (Csv b) (Csv w) (Csv f) NoSuchFile) self
  = mkResult (missing_report "ipl_2025_team_stats.csv")
      (mkAnalyzer (Some b) (Some w) (Some f) (team_df self))
      (Returned tt).
Proof.
  destruct self as [ob ow ofl ot]. repeat split.
Qed.

(** X3. Only a missing file is caught: when [read_csv] raises any other
    exception on the first file it cannot read (a parser error, an empty
    file, a file it may not open or cannot decode), [load_data] raises
    that exception, prints nothing, and has already replaced the tables
    read before it; and [load_data] never raises [FileNotFoundError]. *)
Theorem load_data_lets_other_errors_escape
    (self : IPLAnalyzer) (e : Exn) (b : list Batting.row) (w : list Bowling.row)
    (f : list Fielding.row) (sw : Source Bowling.row) (sf : Source Fielding.row)
    (st : Source Teams.row) :
  (forall filename, e <> FileNotFoundError filename) ->
  load_data (mkDirectory (Unreadable e) sw sf st) self
  = mkResult [] self (Raised e) /\
  load_data (mkDirectory (Csv b) (Unreadable e) sf st) self
  = mkResult []
      (mkAnalyzer (Some b) (bowling_df self) (fielding_df self) (team_df self))
      (Raised e) /\
  load_data (mkDirectory (Csv b) (Csv w) (Unreadable e) st) self
  = mkResult []
      (mkAnalyzer (Some b) (Some w) (fielding_df self) (team_df self))
      (Raised e) /\
  load_data (mkDirectory (Csv b) (Csv w) (Csv f) (Unreadable e)) self
  = mkResult []
      (mkAnalyzer (Some b) (Some w) (Some f) (team_df self))
      (Raised e) /\
  (forall dir e',
      outcome (load_data dir self) = Raised e' ->
      trace (load_data dir self) = [] /\
      forall filename, e' <> FileNotFoundError filename).
Proof.
  intros He. destruct self as [ob ow ofl ot].
  split; [destruct e; solve [reflexivity | now destruct (He filename)]|].
  split; [destruct e; solve [reflexivity | now destruct (He filename)]|].
  split; [destruct e; solve [reflexivity | now destruct (He filename)]|].
  split; [destruct e; solve [reflexivity | now destruct (He filename)]|].
  intros [sb sw' sf' st'] e' H.
  destruct sb as [|[]|b']; try discriminate H;
    try (inversion H; subst; split; [reflexivity | discriminate]).
  destruct sw' as [|[]|w']; try discriminate H;
    try (inversion H; subst; split; [reflexivity | discriminate]).
  destruct sf' as [|[]|f']; try discriminate H;
    try (inversion H; subst; split; [reflexivity | discriminate]).
  destruct st' as [|[]|t']; try discriminate H;
    try (inversion H; subst; split; [reflexivity | discriminate]).
Qed.

Lemma load_data_lets_other_errors_escape_witness :
  (forall filename,
      EmptyDataError "ipl_2025_bowling_stats.csv" <> FileNotFoundError filename) /\
  load_data (mkDirectory (Csv scenario_batting)
               (Unreadable (EmptyDataError "ipl_2025_bowling_stats.csv"))
               NoSuchFile NoSuchFile) unloaded
  = mkResult [] (mkAnalyzer (Some scenario_batting) None None None)
      (Raised (EmptyDataError "ipl_2025_bowling_stats.csv")).
Proof.
  split; [discriminate|].
  apply (proj1 (proj2
           (load_data_lets_other_errors_escape unloaded
              (EmptyDataError "ipl_2025_bowling_stats.csv") scenario_batting
              scenario_bowling scenario_fielding NoSuchFile NoSuchFile
              NoSuchFile ltac:(discriminate)))).
Defined.

(** X4. Loading twice from the same directory leaves the object the first
    load left, and a table that was set is never unset by a load. *)
Theorem load_data_idempotent_and_monotone (dir : Directory) (self : IPLAnalyzer) :
  final (load_data dir (final (load_data dir self))) = final (load_data dir self) /\
  (batting_df self <> None -> batting_df (final (load_data dir self)) <> None) /\
  (bowling_df self <> None -> bowling_df (final (load_data dir self)) <> None) /\
  (fielding_df self <> None -> fielding_df (final (load_data dir self)) <> None) /\
  (team_df self <> None -> team_df (final (load_data dir self)) <> None).
Proof.
  destruct self as [ob ow ofl ot].
  destruct dir as [sb sw sf st].
  destruct sb as [|[]|b]; try (simpl; repeat split; congruence).
  destruct sw as [|[]|w]; try (simpl; repeat split; congruence).
  destruct sf as [|[]|f]; try (simpl; repeat split; congruence).
  destruct st as [|[]|t]; simpl; repeat split; congruence.
Qed.

Lemma load_data_idempotent_and_monotone_witness :
  batting_df scenario_analyzer <> None /\
  batting_df (final (load_data scenario_directory scenario_analyzer)) <> None /\
  team_df scenario_analyzer <> None /\
  team_df (final (load_data scenario_directory scenario_analyzer)) <> None.
Proof.
  split; [discriminate|].
  split.
  - apply (proj1 (proj2 (load_data_idempotent_and_monotone scenario_directory
                           scenario_analyzer))).
    discriminate.
  - split; [discriminate|].
    apply (proj2 (proj2 (proj2 (proj2 (load_data_idempotent_and_monotone
                                         scenario_directory scenario_analyzer))))).
    discriminate.
Defined.

(* ================================================================== *)
(** * Further properties: what the queries leave alone *)
(* ================================================================== *)

Section KeepsFacts.
Variable P : Event -> Prop.

Lemma keeps_ret {A : Type} (a : A) : keeps P (ret a).
Proof. intros self. split; [reflexivity | constructor]. Qed.

Lemma keeps_raise {A : Type} (e : Exn) : keeps P (@raise A e).
Proof. intros self. split; [reflexivity | constructor]. Qed.

Lemma keeps_emit (ev : Event) : P ev -> keeps P (emit ev).
Proof. intros H self. split; [reflexivity | repeat constructor; exact H]. Qed.

Lemma keeps_getattr {A : Type} (name : string) (field : IPLAnalyzer -> option A) :
  keeps P (getattr name field).
Proof.
  intros self. unfold getattr.
  destruct (field self); split; try reflexivity; constructor.
Qed.

Lemma keeps_or_raise {A : Type} (e : Exn) (o : option A) : keeps P (or_raise e o).
Proof. destruct o; [apply keeps_ret | apply keeps_raise]. Qed.

Lemma keeps_bind {A B : Type} (m : M A) (k : A -> M B) :
  keeps P m -> (forall a, keeps P (k a)) -> keeps P (bind m k).
Proof.
  intros Hm Hk self. unfold bind.
  destruct (Hm self) as [Hf Ht].
  destruct (m self) as [tr s [a | e]]; simpl in *; subst.
  - destruct (Hk a self) as [Hf' Ht'].
    split; [exact Hf' | apply Forall_app; now split].
  - now split.
Qed.

Lemma keeps_try_except {A : Type} (body : M A) (handler : Exn -> M A) :
  keeps P body -> (forall e, keeps P (handler e)) -> keeps P (try_except body handler).
Proof.
  intros Hm Hh self. unfold try_except.
  destruct (Hm self) as [Hf Ht].
  destruct (body self) as [tr s [a | e]]; simpl in *; subst.
  - now split.
  - destruct (Hh e self) as [Hf' Ht'].
    split; [exact Hf' | apply Forall_app; now split].
Qed.

Lemma keeps_for_each {A : Type} (xs : list A) (body : A -> M unit) :
  (forall x, keeps P (body x)) -> keeps P (for_each xs body).
Proof.
  intros Hb. induction xs as [|x xs IH]; simpl.
  - apply keeps_ret.
  - apply keeps_bind; [apply Hb | intros _; exact IH].
Qed.
End KeepsFacts.

Lemma keeps_weaken {A : Type} (P Q : Event -> Prop) (m : M A) :
  (forall ev, P ev -> Q ev) -> keeps P m -> keeps Q m.
Proof.
  intros HPQ Hm self. destruct (Hm self) as [Hf Ht].
  split; [exact Hf|]. eapply Forall_impl; eauto.
Qed.

Ltac keeps_step :=
  first
    [ apply keeps_ret
    | apply keeps_raise
    | apply keeps_getattr
    | apply keeps_or_raise
    | apply keeps_emit; solve [exact I | reflexivity]
    | apply keeps_bind; [ | intros ]
    | apply keeps_try_except; [ | intros ]
    | apply keeps_for_each; intros
    | match goal with
      | |- keeps _ (if ?c then _ else _) => destruct c
      | |- keeps _ (match ?x with _ => _ end) => destruct x
      end ].

Ltac keeps_all := repeat (cbv beta zeta; keeps_step).

Lemma display_summary_keeps : keeps on_console display_summary.
Proof. unfold display_summary, print, row_of_max. keeps_all. Qed.

Lemma top_performers_keeps (category : string) (n : Z) :
  keeps on_console (top_performers category n).
Proof. unfold top_performers, print, print_frame. keeps_all. Qed.

Lemma compare_players_keeps (player1 player2 category : string) :
  keeps on_console_or_plot (compare_players player1 player2 category).
Proof.
  unfold compare_players, compare_in, first_match, print. keeps_all.
Qed.

Lemma generate_report_keeps (filename : string) (now : datetime) :
  keeps (on_console_or_file filename) (generate_report filename now).
Proof. unfold generate_report, print, row_of_max. keeps_all. Qed.

Lemma figures_keep (self : IPLAnalyzer) (n : Z) :
  (final (visualize_top_batsmen n self) = self /\
   trace (visualize_top_batsmen n self) = []) /\
  (final (visualize_bowling_analysis n self) = self /\
   trace (visualize_bowling_analysis n self) = []) /\
  (final (team_analysis self) = self /\ trace (team_analysis self) = []).
Proof.
  destruct self as [[[|x b]|] [[|y w]|] [f|] [t|]]; repeat split.
Qed.

(** X5. No method but [load_data] assigns a table: after
    [display_summary], [top_performers], [compare_players],
    [generate_report], [visualize_top_batsmen],
    [visualize_bowling_analysis] or [team_analysis] the object is the
    object before the call, whether the call returned or raised. *)
Theorem queries_leave_tables_unchanged
    (self : IPLAnalyzer) (category player1 player2 filename : string)
    (n : Z) (now : datetime) :
  final (display_summary self) = self /\
  final (top_performers category n self) = self /\
  final (compare_players player1 player2 category self) = self /\
  final (generate_report filename now self) = self /\
  final (visualize_top_batsmen n self) = self /\
  final (visualize_bowling_analysis n self) = self /\
  final (team_analysis self) = self.
Proof.
  split; [apply display_summary_keeps|].
  split; [apply top_performers_keeps|].
  split; [apply compare_players_keeps|].
  split; [apply generate_report_keeps|].
  destruct (figures_keep self n) as [[H1 _] [[H2 _] [H3 _]]].
  now repeat split.
Qed.

(** X6. Only [generate_report] touches a file, and only its destination:
    [display_summary] and [top_performers] do nothing but print,
    [compare_players] prints or plots, the three figure methods print
    nothing, and every file that [generate_report] opens or writes is
    [filename]. *)
Theorem only_the_report_file_is_written
    (self : IPLAnalyzer) (category player1 player2 filename : string)
    (n : Z) (now : datetime) :
  Forall on_console (trace (display_summary self)) /\
  Forall on_console (trace (top_performers category n self)) /\
  Forall on_console_or_plot (trace (compare_players player1 player2 category self)) /\
  Forall (on_console_or_file filename) (trace (generate_report filename now self)) /\
  trace (visualize_top_batsmen n self) = [] /\
  trace (visualize_bowling_analysis n self) = [] /\
  trace (team_analysis self) = [].
Proof.
  split; [apply display_summary_keeps|].
  split; [apply top_performers_keeps|].
  split; [apply compare_players_keeps|].
  split; [apply generate_report_keeps|].
  destruct (figures_keep self n) as [[_ H1] [[_ H2] [_ H3]]].
  now repeat split.
Qed.

(* ================================================================== *)
(** * Further properties: rankings, awards and the report *)
(* ================================================================== *)

Section RankingFacts.
Context {A : Type}.
Variable key : A -> Z.

Lemma nlargest_prefix (n m : Z) (df : list A) :
  (n <= m)%Z ->
  Pandas.top_rows key n df = firstn (Z.to_nat n) (Pandas.top_rows key m df).
Proof.
  intros H. unfold Pandas.top_rows. rewrite firstn_firstn.
  f_equal. lia.
Qed.

Lemma nlargest_all (n : Z) (df : list A) :
  (Z.of_nat (List.length df) <= n)%Z ->
  Permutation (Pandas.top_rows key n df) df.
Proof.
  intros H. unfold Pandas.top_rows.
  rewrite firstn_all2 by (rewrite sort_desc_length; lia).
  apply sort_desc_perm.
Qed.

Lemma first_maximum_unique (df : list A) (r r' : A) :
  first_maximum key df r -> first_maximum key df r' -> r = r'.
Proof.
  intros [i [Hi [Hmax Hfirst]]] [j [Hj [Hmax' Hfirst']]].
  destruct (Nat.lt_trichotomy i j) as [Hlt | [-> | Hgt]].
  - specialize (Hfirst' i r Hlt Hi).
    specialize (Hmax r' (nth_error_In _ _ Hj)). lia.
  - congruence.
  - specialize (Hfirst j r' Hgt Hj).
    specialize (Hmax' r (nth_error_In _ _ Hi)). lia.
Qed.

Lemma top_ranked_single (df : list A) (r : A) :
  top_ranked key df [r] -> first_maximum key df r.
Proof.
  intros [idxs [Hmap [_ Htop]]].
  destruct idxs as [|i [|i' idxs]]; simpl in Hmap; try discriminate.
  inversion Hmap as [Hi]. exists i. split; [exact Hi|].
  assert (Hrank : forall j r', nth_error df j = Some r' -> j <> i ->
                               (key r' < key r \/ (key r = key r' /\ (i < j)%nat))%Z).
  { intros j r' Hj Hne.
    destruct (Htop i j) as [a [c [Ha [Hc Hac]]]].
    - now left.
    - apply nth_error_Some. congruence.
    - intros [<- | []]. now apply Hne.
    - rewrite Hi in Ha. rewrite Hj in Hc.
      inversion Ha; inversion Hc; subst. exact Hac. }
  split.
  - intros r' Hin. apply In_nth_error in Hin. destruct Hin as [j Hj].
    destruct (Nat.eq_dec j i) as [-> | Hne].
    + rewrite Hi in Hj. inversion Hj. lia.
    + specialize (Hrank j r' Hj Hne). lia.
  - intros j r' Hlt Hj.
    assert (Hne : j <> i) by lia.
    specialize (Hrank j r' Hj Hne). lia.
Qed.

(** The first row [nlargest] returns is the row [idxmax] points at. *)
Lemma nlargest_head_first_maximum (n : Z) (df : list A) :
  df <> [] -> (1 <= n)%Z ->
  exists r rest,
    Pandas.top_rows key n df = r :: rest /\ first_maximum key df r.
Proof.
  intros Hne Hn.
  pose proof (nlargest_top_ranked key 1 df) as Htop.
  pose proof (nlargest_length key 1 df ltac:(lia)) as Hlen.
  rewrite (nlargest_prefix 1 n df Hn) in Htop, Hlen.
  destruct (Pandas.top_rows key n df) as [|r rest] eqn:E.
  - exfalso. simpl in Hlen. destruct df; [congruence | simpl in Hlen; lia].
  - exists r, rest. split; [reflexivity|].
    apply top_ranked_single. exact Htop.
Qed.
End RankingFacts.

(** X7. The five batsmen and the five bowlers of the report are the first
    five rows [top_performers] prints for that category with any
    [n >= 5], in the same order. *)
Theorem report_top5_heads_top_performers
    (b : list Batting.row) (w : list Bowling.row) (f : list Fielding.row)
    (t : list Teams.row) (n : Z) (filename : string) (now : datetime) :
  (5 <= n)%Z -> b <> [] -> w <> [] -> f <> [] ->
  let self := mkAnalyzer (Some b) (Some w) (Some f) (Some t) in
  exists batsmen bowlers before,
    top_performers "batting" n self
    = mkResult
        (top_header "batting" n
         ++ [PrintFrame batting_columns (map batting_cells batsmen)])
        self (Returned tt) /\
    top_performers "bowling" n self
    = mkResult
        (top_header "bowling" n
         ++ [PrintFrame bowling_columns (map bowling_cells bowlers)])
        self (Returned tt) /\
    generate_report filename now self
    = mkResult
        (before
         ++ [Write filename (nl ++ "TOP 5 BATSMEN" ++ nl);
             Write filename (str_mul "-" 20 ++ nl)]
         ++ map (fun player => Write filename (batsman_line player))
              (firstn 5 batsmen)
         ++ [Write filename (nl ++ "TOP 5 BOWLERS" ++ nl);
             Write filename (str_mul "-" 20 ++ nl)]
         ++ map (fun player => Write filename (bowler_line player))
              (firstn 5 bowlers)
         ++ [Print ("📄 Report generated: " ++ filename)])
        self (Returned tt).
Proof.
  intros Hn Hb Hw Hf self.
  destruct (row_of_max_run Batting.Runs b Hb) as [o [_ Hrun_o]].
  destruct (row_of_max_run Bowling.Wickets w Hw) as [p [_ Hrun_p]].
  destruct (row_of_max_run Fielding.Catches f Hf) as [c [_ Hrun_c]].
  exists (Pandas.top_rows Batting.Runs n b), (Pandas.top_rows Bowling.Wickets n w).
  exists (report_title filename ++ [Write filename (timestamp_line now)]
          ++ report_summary filename ++ report_awards filename o p c
          ++ [Write filename ("FINAL POINTS TABLE" ++ nl);
              Write filename (str_mul "-" 20 ++ nl)]
          ++ map (fun team => Write filename (team_line team)) t)%list.
  split; [now apply top_performers_batting_run|].
  split; [now apply top_performers_bowling_run|].
  unfold self.
  rewrite (generate_report_run b w f t o p c filename now Hrun_o Hrun_p Hrun_c).
  change (firstn 5) with (@firstn Batting.row (Z.to_nat 5)) at 1.
  change (firstn 5) with (@firstn Bowling.row (Z.to_nat 5)).
  rewrite <- (nlargest_prefix Batting.Runs 5 n b Hn).
  rewrite <- (nlargest_prefix Bowling.Wickets 5 n w Hn).
  unfold report_top5. f_equal; rewrite <- ?app_assoc; reflexivity.
Qed.

Lemma report_top5_heads_top_performers_witness :
  (5 <= 10)%Z /\ scenario_batting <> [] /\ scenario_bowling <> [] /\
  scenario_fielding <> [] /\
  exists batsmen bowlers before,
    top_performers "batting" 10 scenario_analyzer
    = mkResult
        (top_header "batting" 10
         ++ [PrintFrame batting_columns (map batting_cells batsmen)])
        scenario_analyzer (Returned tt) /\
    top_performers "bowling" 10 scenario_analyzer
    = mkResult
        (top_header "bowling" 10
         ++ [PrintFrame bowling_columns (map bowling_cells bowlers)])
        scenario_analyzer (Returned tt) /\
    generate_report "report.txt" scenario_now scenario_analyzer
    = mkResult
        (before
         ++ [Write "report.txt" (nl ++ "TOP 5 BATSMEN" ++ nl);
             Write "report.txt" (str_mul "-" 20 ++ nl)]
         ++ map (fun player => Write "report.txt" (batsman_line player))
              (firstn 5 batsmen)
         ++ [Write "report.txt" (nl ++ "TOP 5 BOWLERS" ++ nl);
             Write "report.txt" (str_mul "-" 20 ++ nl)]
         ++ map (fun player => Write "report.txt" (bowler_line player))
              (firstn 5 bowlers)
         ++ [Print ("📄 Report generated: " ++ "report.txt")])
        scenario_analyzer (Returned tt).
Proof.
  split; [lia|]. split; [discriminate|]. split; [discriminate|].
  split; [discriminate|].
  apply (report_top5_heads_top_performers scenario_batting scenario_bowling
           scenario_fielding scenario_teams 10 "report.txt" scenario_now);
    [lia | discriminate | discriminate | discriminate].
Defined.

(** X8. When the table has at least one row and [n] is at least its
    size, [top_performers] prints every row of the table exactly once:
    the rows printed are a rearrangement of the table. *)
Theorem top_performers_prints_all_rows
    (b : list Batting.row) (w : list Bowling.row) (f : list Fielding.row)
    (t : option (list Teams.row)) (n : Z) :
  let self := mkAnalyzer (Some b) (Some w) (Some f) t in
  (b <> [] -> (Z.of_nat (List.length b) <= n)%Z ->
   exists sel,
     top_performers "batting" n self
     = mkResult
         (top_header "batting" n
          ++ [PrintFrame batting_columns (map batting_cells sel)])
         self (Returned tt) /\
     Permutation sel b) /\
  (w <> [] -> (Z.of_nat (List.length w) <= n)%Z ->
   exists sel,
     top_performers "bowling" n self
     = mkResult
         (top_header "bowling" n
          ++ [PrintFrame bowling_columns (map bowling_cells sel)])
         self (Returned tt) /\
     Permutation sel w) /\
  (f <> [] -> (Z.of_nat (List.length f) <= n)%Z ->
   exists sel,
     top_performers "fielding" n self
     = mkResult
         (top_header "fielding" n
          ++ [PrintFrame fielding_columns (map fielding_cells sel)])
         self (Returned tt) /\
     Permutation sel f).
Proof.
  intros self. repeat split; intros Hne Hn.
  - exists (Pandas.top_rows Batting.Runs n b).
    split; [now apply top_performers_batting_run | now apply nlargest_all].
  - exists (Pandas.top_rows Bowling.Wickets n w).
    split; [now apply top_performers_bowling_run | now apply nlargest_all].
  - exists (Pandas.top_rows Fielding.Catches n f).
    split; [now apply top_performers_fielding_run | now apply nlargest_all].
Qed.

Lemma top_performers_prints_all_rows_witness :
  scenario_batting <> [] /\ scenario_bowling <> [] /\ scenario_fielding <> [] /\
  (Z.of_nat (List.length scenario_batting) <= 10)%Z /\
  (exists sel,
      top_performers "batting" 10 scenario_analyzer
      = mkResult
          (top_header "batting" 10
           ++ [PrintFrame batting_columns (map batting_cells sel)])
          scenario_analyzer (Returned tt) /\
      Permutation sel scenario_batting) /\
  (Z.of_nat (List.length scenario_bowling) <= 10)%Z /\
  (exists sel,
      top_performers "bowling" 10 scenario_analyzer
      = mkResult
          (top_header "bowling" 10
           ++ [PrintFrame bowling_columns (map bowling_cells sel)])
          scenario_analyzer (Returned tt) /\
      Permutation sel scenario_bowling) /\
  (Z.of_nat (List.length scenario_fielding) <= 10)%Z /\
  (exists sel,
      top_performers "fielding" 10 scenario_analyzer
      = mkResult
          (top_header "fielding" 10
           ++ [PrintFrame fielding_columns (map fielding_cells sel)])
          scenario_analyzer (Returned tt) /\
      Permutation sel scenario_fielding).
Proof.
  destruct (top_performers_prints_all_rows scenario_batting scenario_bowling
              scenario_fielding (Some scenario_teams) 10) as [Hb [Hw Hf]].
  split; [discriminate|]. split; [discriminate|]. split; [discriminate|].
  split; [simpl; lia|]. split; [apply Hb; [discriminate | simpl; lia]|].
  split; [simpl; lia|]. split; [apply Hw; [discriminate | simpl; lia]|].
  split; [simpl; lia|]. apply Hf; [discriminate | simpl; lia].
Defined.

(** X9. On non-empty tables and for [n >= 1], the Orange Cap, Purple Cap
    and Best Fielder rows of [display_summary] are the first rows that
    [top_performers] prints for batting, bowling and fielding. *)
Theorem award_rows_head_top_performers
    (b : list Batting.row) (w : list Bowling.row) (f : list Fielding.row)
    (t : option (list Teams.row)) (n : Z) :
  (1 <= n)%Z -> b <> [] -> w <> [] -> f <> [] ->
  let self := mkAnalyzer (Some b) (Some w) (Some f) t in
  exists o p c rest result others_b others_w others_f,
    display_summary self
    = mkResult (summary_banner ++ summary_awards o p c ++ rest) self result /\
    top_performers "batting" n self
    = mkResult
        (top_header "batting" n
         ++ [PrintFrame batting_columns (map batting_cells (o :: others_b))])
        self (Returned tt) /\
    top_performers "bowling" n self
    = mkResult
        (top_header "bowling" n
         ++ [PrintFrame bowling_columns (map bowling_cells (p :: others_w))])
        self (Returned tt) /\
    top_performers "fielding" n self
    = mkResult
        (top_header "fielding" n
         ++ [PrintFrame fielding_columns (map fielding_cells (c :: others_f))])
        self (Returned tt).
Proof.
  intros Hn Hb Hw Hf self.
  destruct (row_of_max_run Batting.Runs b Hb) as [o [Ho Hrun_o]].
  destruct (row_of_max_run Bowling.Wickets w Hw) as [p [Hp Hrun_p]].
  destruct (row_of_max_run Fielding.Catches f Hf) as [c [Hc Hrun_c]].
  destruct (nlargest_head_first_maximum Batting.Runs n b Hb Hn)
    as [o' [others_b [Eb Ho']]].
  destruct (nlargest_head_first_maximum Bowling.Wickets n w Hw Hn)
    as [p' [others_w [Ew Hp']]].
  destruct (nlargest_head_first_maximum Fielding.Catches n f Hf Hn)
    as [c' [others_f [Ef Hc']]].
  rewrite (first_maximum_unique _ _ _ _ Ho' Ho) in Eb.
  rewrite (first_maximum_unique _ _ _ _ Hp' Hp) in Ew.
  rewrite (first_maximum_unique _ _ _ _ Hc' Hc) in Ef.
  assert (Hsum : exists rest result,
             display_summary self
             = mkResult (summary_banner ++ summary_awards o p c ++ rest)
                 self result).
  { destruct t as [t|].
    - eexists _, _. now apply display_summary_run.
    - exists [Print (nl ++ "📊 POINTS TABLE (Top 4):")],
        (Raised (AttributeError "team_df")).
      etransitivity; [unfold display_summary, print; run | reflexivity]. }
  destruct Hsum as [rest [result Hsum]].
  exists o, p, c, rest, result, others_b, others_w, others_f.
  split; [exact Hsum|].
  rewrite <- Eb, <- Ew, <- Ef.
  split; [now apply top_performers_batting_run|].
  split; [now apply top_performers_bowling_run|].
  now apply top_performers_fielding_run.
Qed.

Lemma award_rows_head_top_performers_witness :
  (1 <= 2)%Z /\ scenario_batting <> [] /\ scenario_bowling <> [] /\
  scenario_fielding <> [] /\
  exists o p c rest result others_b others_w others_f,
    display_summary scenario_analyzer
    = mkResult (summary_banner ++ summary_awards o p c ++ rest)
        scenario_analyzer result /\
    top_performers "batting" 2 scenario_analyzer
    = mkResult
        (top_header "batting" 2
         ++ [PrintFrame batting_columns (map batting_cells (o :: others_b))])
        scenario_analyzer (Returned tt) /\
    top_performers "bowling" 2 scenario_analyzer
    = mkResult
        (top_header "bowling" 2
         ++ [PrintFrame bowling_columns (map bowling_cells (p :: others_w))])
        scenario_analyzer (Returned tt) /\
    top_performers "fielding" 2 scenario_analyzer
    = mkResult
        (top_header "fielding" 2
         ++ [PrintFrame fielding_columns (map fielding_cells (c :: others_f))])
        scenario_analyzer (Returned tt).
Proof.
  split; [lia|]. split; [discriminate|]. split; [discriminate|].
  split; [discriminate|].
  apply (award_rows_head_top_performers scenario_batting scenario_bowling
           scenario_fielding (Some scenario_teams) 2);
    [lia | discriminate | discriminate | discriminate].
Defined.

Lemma ready_cases (self : IPLAnalyzer) :
  ready self \/
  batting_df self = None \/ batting_df self = Some [] \/
  bowling_df self = None \/ bowling_df self = Some [] \/
  fielding_df self = None \/ fielding_df self = Some [] \/
  team_df self = None.
Proof.
  destruct self as [[[|x b]|] [[|y w]|] [[|z f]|] [t|]]; simpl; auto 10.
  left. exists (x :: b), (y :: w), (z :: f), t.
  repeat split; discriminate.
Qed.

Ltac raising_run unfolder :=
  eexists _, _; split; [ unfolder; run | simpl; intuition discriminate ].

Lemma display_summary_raises (self : IPLAnalyzer) :
  ~ ready self ->
  exists tr e, display_summary self = mkResult tr self (Raised e).
Proof.
  intros Hnot.
  destruct self as [ob ow ofl ot].
  destruct ob as [[|x b]|];
    try (eexists _, _; unfold display_summary, print; run; fail).
  destruct (row_of_max_run Batting.Runs (x :: b)) as [o [_ Ho]]; [discriminate|].
  destruct ow as [[|y w]|];
    try (eexists _, _; unfold display_summary, print; run; fail).
  destruct (row_of_max_run Bowling.Wickets (y :: w)) as [p [_ Hp]]; [discriminate|].
  destruct ofl as [[|z f]|];
    try (eexists _, _; unfold display_summary, print; run; fail).
  destruct (row_of_max_run Fielding.Catches (z :: f)) as [c [_ Hc]]; [discriminate|].
  destruct ot as [t|];
    try (eexists _, _; unfold display_summary, print; run; fail).
  exfalso. apply Hnot. exists (x :: b), (y :: w), (z :: f), t.
  repeat split; discriminate.
Qed.

(** X10. [display_summary] returns normally exactly when all four tables
    are set and the batting, bowling and fielding tables have a row;
    otherwise it raises. *)
Theorem display_summary_returns_iff_ready (self : IPLAnalyzer) :
  outcome (display_summary self) = Returned tt <-> ready self.
Proof.
  split.
  - intros H. destruct (ready_cases self) as [Hr | Hn]; [exact Hr|].
    destruct (display_summary_raises self) as [tr [e E]].
    + intros [b [w [f [t [-> [Hb [Hw Hf]]]]]]]. simpl in Hn.
      repeat (destruct Hn as [Hn | Hn]; [congruence|]). congruence.
    + rewrite E in H. discriminate H.
  - intros [b [w [f [t [-> [Hb [Hw Hf]]]]]]].
    destruct (row_of_max_run Batting.Runs b Hb) as [o [_ Ho]].
    destruct (row_of_max_run Bowling.Wickets w Hw) as [p [_ Hp]].
    destruct (row_of_max_run Fielding.Catches f Hf) as [c [_ Hc]].
    now rewrite (display_summary_run b w f t o p c Ho Hp Hc).
Qed.

Lemma display_summary_returns_iff_ready_witness :
  ready scenario_analyzer /\ outcome (display_summary scenario_analyzer) = Returned tt.
Proof.
  assert (H : ready scenario_analyzer).
  { exists scenario_batting, scenario_bowling, scenario_fielding, scenario_teams.
    repeat split; discriminate. }
  split; [exact H|].
  apply (proj2 (display_summary_returns_iff_ready scenario_analyzer) H).
Defined.

Lemma generate_report_raises (filename : string) (now : datetime)
    (self : IPLAnalyzer) :
  ~ ready self ->
  exists tr e,
    generate_report filename now self = mkResult tr self (Raised e) /\
    ~ In (Print ("📄 Report generated: " ++ filename)) tr.
Proof.
  intros Hnot.
  destruct self as [ob ow ofl ot].
  destruct ob as [[|x b]|];
    try (raising_run ltac:(unfold generate_report, print); fail).
  destruct (row_of_max_run Batting.Runs (x :: b)) as [o [_ Ho]]; [discriminate|].
  destruct ow as [[|y w]|];
    try (raising_run ltac:(unfold generate_report, print); fail).
  destruct (row_of_max_run Bowling.Wickets (y :: w)) as [p [_ Hp]]; [discriminate|].
  destruct ofl as [[|z f]|];
    try (raising_run ltac:(unfold generate_report, print); fail).
  destruct (row_of_max_run Fielding.Catches (z :: f)) as [c [_ Hc]]; [discriminate|].
  destruct ot as [t|];
    try (raising_run ltac:(unfold generate_report, print); fail).
  exfalso. apply Hnot. exists (x :: b), (y :: w), (z :: f), t.
  repeat split; discriminate.
Qed.



(* ================================================================== *)
(** * Further properties: comparison, categories and layout *)
(* ================================================================== *)

Lemma compare_in_chart_iff {A : Type} (player_of team_of : A -> string)
    (values : A -> M (list Cell)) (metrics : list string) (df : list A)
    (player1 player2 category : string) (self : IPLAnalyzer) :
  (forall r, In r df -> exists v, values r self = mkResult [] self (Returned v)) ->
  let r := compare_in player_of team_of values metrics df player1 player2
             category self in
  outcome r = Returned tt /\
  ((exists chart, trace r = [ShowChart chart]) <->
   present player_of player1 df /\ present player_of player2 df).
Proof.
  intros Hv r. unfold r.
  destruct (Pandas.iloc0 (Pandas.select_eq player_of player1 df)) as [r1|] eqn:H1.
  - destruct (Pandas.iloc0 (Pandas.select_eq player_of player2 df)) as [r2|] eqn:H2.
    + destruct (Hv r1 (iloc0_select_In player_of player1 df r1 H1)) as [v1 V1].
      destruct (Hv r2 (iloc0_select_In player_of player2 df r2 H2)) as [v2 V2].
      rewrite (compare_in_found player_of team_of values metrics df
                 player1 player2 category r1 r2 v1 v2 self H1 H2 V1 V2).
      split; [reflexivity|]. split.
      * intros _. split; eapply iloc0_select_some; eauto.
      * intros _. eexists. reflexivity.
    + assert (Habs : ~ present player_of player2 df).
      { intros Hp. destruct (iloc0_select_present player_of player2 df Hp)
          as [r2 [E _]]. congruence. }
      rewrite compare_in_not_found by now right.
      split; [reflexivity|]. split.
      * intros [chart E]. discriminate E.
      * intros [_ Hp]. contradiction.
  - assert (Habs : ~ present player_of player1 df).
    { intros Hp. destruct (iloc0_select_present player_of player1 df Hp)
        as [r1 [E _]]. congruence. }
    rewrite compare_in_not_found by now left.
    split; [reflexivity|]. split.
    + intros [chart E]. discriminate E.
    + intros [Hp _]. contradiction.
Qed.

Lemma batting_values_run (df : list Batting.row) (self : IPLAnalyzer) :
  forall r, In r df ->
            exists v, batting_values r self = mkResult [] self (Returned v).
Proof. intros r _. eexists. reflexivity. Qed.

Lemma bowling_values_run (df : list Bowling.row) (self : IPLAnalyzer) :
  has_strike_rate df ->
  forall r, In r df ->
            exists v, bowling_values r self = mkResult [] self (Returned v).
Proof.
  intros Hsr r Hin. unfold bowling_values.
  destruct (Bowling.Strike_Rate r) as [sr|] eqn:E; [|now destruct (Hsr r Hin)].
  eexists. reflexivity.
Qed.

(** Both bowlers found in a table without the Strike_Rate column: reading
    the metrics of the first raises, outside the [try]. *)
Lemma compare_players_missing_column
    (self : IPLAnalyzer) (player1 player2 category : string)
    (df : list Bowling.row) :
  lower category = "bowling" -> bowling_df self = Some df ->
  lacks_strike_rate df ->
  present Bowling.Player player1 df -> present Bowling.Player player2 df ->
  compare_players player1 player2 category self
  = mkResult [] self (Raised (MissingColumn "Strike_Rate")).
Proof.
  intros Hcat Hdf Hno Hp1 Hp2.
  destruct (iloc0_select_present Bowling.Player player1 df Hp1) as [r1 [H1 _]].
  destruct (iloc0_select_present Bowling.Player player2 df Hp2) as [r2 [H2 _]].
  unfold compare_players. rewrite Hcat. cbn [String.eqb Ascii.eqb Bool.eqb].
  rewrite (bind_getattr _ _ _ _ _ Hdf).
  apply (compare_in_raises Bowling.Player Bowling.Team bowling_values
           bowling_metrics df player1 player2 category r1 r2 _ self H1 H2).
  unfold bowling_values.
  now rewrite (Hno r1 (iloc0_select_In Bowling.Player player1 df r1 H1)).
Qed.

(** X12. With the batting table set, or the bowling table set and holding
    its Strike_Rate column, [compare_players] on that category does not
    raise, and it draws a chart exactly when both names occur in the
    Player column of the table; the chart is then the only event.  On a
    bowling table without the Strike_Rate column, when both names occur
    the call raises the [KeyError] of the column and draws nothing. *)
Theorem compare_players_chart_iff_both_present
    (self : IPLAnalyzer) (player1 player2 category : string) :
  (forall df,
      lower category = "batting" -> batting_df self = Some df ->
      outcome (compare_players player1 player2 category self) = Returned tt /\
      ((exists chart,
           trace (compare_players player1 player2 category self)
           = [ShowChart chart]) <->
       present Batting.Player player1 df /\ present Batting.Player player2 df)) /\
  (forall df,
      lower category = "bowling" -> bowling_df self = Some df ->
      has_strike_rate df ->
      outcome (compare_players player1 player2 category self) = Returned tt /\
      ((exists chart,
           trace (compare_players player1 player2 category self)
           = [ShowChart chart]) <->
       present Bowling.Player player1 df /\ present Bowling.Player player2 df)) /\
  (forall df,
      lower category = "bowling" -> bowling_df self = Some df ->
      lacks_strike_rate df ->
      present Bowling.Player player1 df -> present Bowling.Player player2 df ->
      compare_players player1 player2 category self
      = mkResult [] self (Raised (MissingColumn "Strike_Rate"))).
Proof.
  split; [|split].
  - intros df Hcat Hdf. unfold compare_players. rewrite Hcat.
    cbn [String.eqb Ascii.eqb Bool.eqb].
    rewrite (bind_getattr _ _ _ _ _ Hdf).
    apply compare_in_chart_iff, batting_values_run.
  - intros df Hcat Hdf Hsr. unfold compare_players. rewrite Hcat.
    cbn [String.eqb Ascii.eqb Bool.eqb].
    rewrite (bind_getattr _ _ _ _ _ Hdf).
    now apply compare_in_chart_iff, bowling_values_run.
  - intros df. apply compare_players_missing_column.
Qed.

Lemma compare_players_chart_iff_both_present_witness :
  lower "Batting" = "batting" /\
  batting_df scenario_analyzer = Some scenario_batting /\
  present Batting.Player "A" scenario_batting /\
  present Batting.Player "B" scenario_batting /\
  outcome (compare_players "A" "B" "Batting" scenario_analyzer) = Returned tt /\
  exists chart,
    trace (compare_players "A" "B" "Batting" scenario_analyzer) = [ShowChart chart].
Proof.
  assert (HA : present Batting.Player "A" scenario_batting)
    by (eexists; split; [left; reflexivity | reflexivity]).
  assert (HB : present Batting.Player "B" scenario_batting)
    by (eexists; split; [right; left; reflexivity | reflexivity]).
  destruct (proj1 (compare_players_chart_iff_both_present scenario_analyzer
                     "A" "B" "Batting") scenario_batting eq_refl eq_refl)
    as [Hout [_ Hchart]].
  split; [reflexivity|]. split; [reflexivity|].
  split; [exact HA|]. split; [exact HB|].
  split; [exact Hout|]. apply Hchart. now split.
Defined.

(** For a category whose lower-case form is neither 'batting' nor
    'bowling' (so also for 'fielding', which [top_performers] accepts),
    [compare_players] only prints that the category must be one of the
    two; it reads no table, so it does so even with every table unset. *)
Theorem compare_players_rejects_other_categories
    (self : IPLAnalyzer) (player1 player2 category : string) :
  lower category <> "batting" ->
  lower category <> "bowling" ->
  compare_players player1 player2 category self
  = mkResult [Print "Category must be 'batting' or 'bowling'"] self (Returned tt).
Proof.
  intros H1 H2. unfold compare_players.
  apply String.eqb_neq in H1, H2. now rewrite H1, H2.
Qed.

Lemma compare_players_rejects_other_categories_witness :
  lower "Fielding" <> "batting" /\ lower "Fielding" <> "bowling" /\
  compare_players "A" "C" "Fielding" unloaded
  = mkResult [Print "Category must be 'batting' or 'bowling'"] unloaded
      (Returned tt).
Proof.
  split; [discriminate|]. split; [discriminate|].
  apply (compare_players_rejects_other_categories unloaded "A" "C" "Fielding");
    discriminate.
Defined.

(** X13. [top_performers] reads only the table of its category: it
    returns normally exactly when that table is set and has at least one
    row, whatever the state of the other tables.  Otherwise it raises
    after printing its header: [AttributeError] when the table is unset,
    the [TypeError] of [nlargest] when the table has no row. *)
Theorem top_performers_needs_only_its_table
    (self : IPLAnalyzer) (category : string) (n : Z) :
  (lower category = "batting" ->
   (outcome (top_performers category n self) = Returned tt
    <-> exists df, batting_df self = Some df /\ df <> []) /\
   (batting_df self = None ->
    top_performers category n self
    = mkResult (top_header category n) self
        (Raised (AttributeError "batting_df"))) /\
   (batting_df self = Some [] ->
    top_performers category n self
    = mkResult (top_header category n) self
        (Raised (TypeError ("Column 'Runs' has dtype object, cannot use method "
                            ++ "'nlargest' with this dtype"))))) /\
  (lower category = "bowling" ->
   (outcome (top_performers category n self) = Returned tt
    <-> exists df, bowling_df self = Some df /\ df <> []) /\
   (bowling_df self = None ->
    top_performers category n self
    = mkResult (top_header category n) self
        (Raised (AttributeError "bowling_df"))) /\
   (bowling_df self = Some [] ->
    top_performers category n self
    = mkResult (top_header category n) self
        (Raised (TypeError ("Column 'Wickets' has dtype object, cannot use method "
                            ++ "'nlargest' with this dtype"))))) /\
  (lower category = "fielding" ->
   (outcome (top_performers category n self) = Returned tt
    <-> exists df, fielding_df self = Some df /\ df <> []) /\
   (fielding_df self = None ->
    top_performers category n self
    = mkResult (top_header category n) self
        (Raised (AttributeError "fielding_df"))) /\
   (fielding_df self = Some [] ->
    top_performers category n self
    = mkResult (top_header category n) self
        (Raised (TypeError ("Column 'Catches' has dtype object, cannot use method "
                            ++ "'nlargest' with this dtype"))))).
Proof.
  destruct self as [ob ow ofl ot].
  split; [|split]; intros Hcat; unfold top_performers; rewrite Hcat;
    cbn [String.eqb Ascii.eqb Bool.eqb batting_df bowling_df fielding_df].
  - destruct ob as [[|x b]|];
      (split;
       [split;
        [intros H; first [discriminate H
                         | eexists; split; [reflexivity | discriminate]]
        | intros [df [E Hne]]; first [discriminate E
                                     | inversion E; subst; congruence
                                     | reflexivity]]
       | split; intros H; first [discriminate H | reflexivity]]).
  - destruct ow as [[|x w]|];
      (split;
       [split;
        [intros H; first [discriminate H
                         | eexists; split; [reflexivity | discriminate]]
        | intros [df [E Hne]]; first [discriminate E
                                     | inversion E; subst; congruence
                                     | reflexivity]]
       | split; intros H; first [discriminate H | reflexivity]]).
  - destruct ofl as [[|x f]|];
      (split;
       [split;
        [intros H; first [discriminate H
                         | eexists; split; [reflexivity | discriminate]]
        | intros [df [E Hne]]; first [discriminate E
                                     | inversion E; subst; congruence
                                     | reflexivity]]
       | split; intros H; first [discriminate H | reflexivity]]).
Qed.

Lemma top_performers_needs_only_its_table_witness :
  lower "BOWLING" = "bowling" /\
  (exists df, bowling_df (mkAnalyzer None (Some scenario_bowling) None None)
              = Some df /\ df <> []) /\
  outcome (top_performers "BOWLING" 3
             (mkAnalyzer None (Some scenario_bowling) None None))
  = Returned tt /\
  lower "batting" = "batting" /\
  batting_df (mkAnalyzer None (Some scenario_bowling) None None) = None /\
  top_performers "batting" 3 (mkAnalyzer None (Some scenario_bowling) None None)
  = mkResult (top_header "batting" 3)
      (mkAnalyzer None (Some scenario_bowling) None None)
      (Raised (AttributeError "batting_df")).
Proof.
  assert (Hset : exists df,
             bowling_df (mkAnalyzer None (Some scenario_bowling) None None)
             = Some df /\ df <> [])
    by (eexists; split; [reflexivity | discriminate]).
  split; [reflexivity|]. split; [exact Hset|]. split.
  - exact (proj2 (proj1 (proj1 (proj2 (top_performers_needs_only_its_table
                                         (mkAnalyzer None (Some scenario_bowling)
                                            None None)
                                         "BOWLING" 3)) eq_refl)) Hset).
  - split; [reflexivity|]. split; [reflexivity|].
    exact (proj1 (proj2 (proj1 (top_performers_needs_only_its_table
                                  (mkAnalyzer None (Some scenario_bowling)
                                     None None)
                                  "batting" 3) eq_refl)) eq_refl).
Defined.

Lemma append_assoc (s1 s2 s3 : string) : (s1 ++ s2) ++ s3 = s1 ++ (s2 ++ s3).
Proof. induction s1 as [|c s1 IH]; simpl; [reflexivity | now rewrite IH]. Qed.

(** X14. The columns of the points table line up: for Position, Points,
    Won and Lost from 0 to 99 and a team name of at most 4 characters,
    the NRR field of a line starts after exactly 39 characters and is
    followed only by the line feed. *)
Theorem team_line_columns_aligned (team : Teams.row) :
  (0 <= Teams.Position team <= 99)%Z ->
  (0 <= Teams.Points team <= 99)%Z ->
  (0 <= Teams.Won team <= 99)%Z ->
  (0 <= Teams.Lost team <= 99)%Z ->
  (String.length (Teams.Team team) <= 4)%nat ->
  exists prefix,
    team_line team = prefix ++ format_f true 3 (Teams.NRR team) ++ nl /\
    String.length prefix = 39%nat.
Proof.
  intros Hpos Hpts Hwon Hlost Hname.
  exists (format_d 2 (Teams.Position team) ++ ". "
          ++ format_left 4 (Teams.Team team) ++ " - "
          ++ format_d 2 (Teams.Points team) ++ " pts | W: "
          ++ format_d 2 (Teams.Won team) ++ " L: "
          ++ format_d 2 (Teams.Lost team) ++ " | NRR: ").
  split.
  - unfold team_line. rewrite !append_assoc. reflexivity.
  - rewrite !length_append, !format_d_two_digits by assumption.
    unfold format_left. rewrite length_ljust, Nat.max_l by lia. reflexivity.
Qed.

Lemma team_line_columns_aligned_witness :
  exists prefix,
    team_line (Teams.mk 1 "RCB" 19 (S754_finite true 1 (-2)) 2900 9 4 240)
    = prefix ++ format_f true 3 (S754_finite true 1 (-2)) ++ nl /\
    String.length prefix = 39%nat.
Proof.
  apply (team_line_columns_aligned
           (Teams.mk 1 "RCB" 19 (S754_finite true 1 (-2)) 2900 9 4 240));
    simpl; lia.
Defined.

(* ================================================================== *)
(** * Further properties: the figures *)
(* ================================================================== *)

Lemma sort_desc_sorted {A : Type} (key : A -> Z) (l : list A) :
  StronglySorted (fun a b => (key b <= key a)%Z) (Pandas.sort_desc key l).
Proof.
  induction l as [|x l IH]; simpl; [constructor|].
  revert IH. generalize (Pandas.sort_desc key l). intros s Hs.
  induction s as [|y s IHs]; simpl.
  - constructor; constructor.
  - inversion Hs as [|? ? Hs' Hy]; subst.
    destruct (Z.leb_spec (key y) (key x)) as [Hle | Hgt].
    + constructor; [assumption|]. constructor; [exact Hle|].
      rewrite Forall_forall in *. intros z Hz. specialize (Hy z Hz). lia.
    + constructor; [now apply IHs|].
      apply Forall_forall. intros z Hz.
      apply (Permutation_in _ (insert_desc_perm key x s)) in Hz.
      destruct Hz as [<- | Hz]; [lia|].
      rewrite Forall_forall in Hy. now apply Hy.
Qed.

Lemma unique_In (l : list string) (x : string) : In x (Series.unique l) <-> In x l.
Proof.
  induction l as [|y l IH]; simpl; [tauto|].
  rewrite filter_In, IH. split.
  - intros [H | [H _]]; auto.
  - intros [H | H]; [now left|].
    destruct (String.eqb_spec x y) as [-> | Hne]; [now left|].
    right. split; [assumption | reflexivity].
Qed.

Lemma unique_NoDup (l : list string) : NoDup (Series.unique l).
Proof.
  induction l as [|y l IH]; simpl; constructor.
  - rewrite filter_In. intros [_ H]. now rewrite String.eqb_refl in H.
  - now apply NoDup_filter.
Qed.

Lemma filter_length_split {A : Type} (p q : A -> bool) (l : list A) :
  (forall z, p z = true -> q z = false) ->
  List.length (filter (fun z => p z || q z) l)
  = (List.length (filter p l) + List.length (filter q l))%nat.
Proof.
  intros Hpq. induction l as [|z l IH]; simpl; [reflexivity|].
  destruct (p z) eqn:Hp; simpl.
  - rewrite (Hpq z Hp). simpl. now rewrite IH.
  - destruct (q z); simpl; rewrite IH; lia.
Qed.

Lemma counts_sum (u l : list string) :
  NoDup u ->
  list_sum (map (fun x => Series.count x l) u)
  = List.length (filter (fun z => existsb (String.eqb z) u) l).
Proof.
  intros Hu. induction Hu as [|x u Hx Hu IH]; simpl.
  - induction l; simpl; auto.
  - rewrite IH. unfold Series.count.
    rewrite <- filter_length_split.
    + f_equal. apply filter_ext. intros z.
      now rewrite (String.eqb_sym z x).
    + intros z Hz. apply String.eqb_eq in Hz. subst z.
      destruct (existsb (String.eqb x) u) eqn:E; [|reflexivity].
      apply existsb_exists in E. destruct E as [y [Hy Hxy]].
      apply String.eqb_eq in Hxy. subst y. contradiction.
Qed.

Lemma counts_sum_all (l : list string) :
  list_sum (map (fun x => Series.count x l) (Series.unique l)) = List.length l.
Proof.
  rewrite counts_sum by apply unique_NoDup.
  f_equal. rewrite <- (filter_ext_in (fun _ => true)).
  - induction l as [|z l IH]; simpl; [reflexivity | now rewrite IH].
  - intros z Hz. symmetry. apply existsb_exists.
    exists z. split; [now apply unique_In | apply String.eqb_refl].
Qed.

Lemma count_positive (x : string) (l : list string) :
  In x l -> (1 <= Series.count x l)%nat.
Proof.
  intros H. unfold Series.count.
  assert (Hin : In x (filter (String.eqb x) l))
    by (apply filter_In; split; [assumption | apply String.eqb_refl]).
  destruct (filter (String.eqb x) l); [destruct Hin | simpl; lia].
Qed.

(** What [value_counts] returns: each distinct value once, with a positive
    count, the counts adding up to the length of the column, largest
    first. *)
Lemma value_counts_spec (l : list string) :
  let vc := Series.value_counts l in
  NoDup (map fst vc) /\
  (forall x, In x (map fst vc) <-> In x l) /\
  (forall x k, In (x, k) vc -> k = Series.count x l /\ (1 <= k)%nat) /\
  list_sum (map snd vc) = List.length l /\
  StronglySorted (fun p q : string * nat => (snd q <= snd p)%nat) vc.
Proof.
  intros vc. unfold vc, Series.value_counts.
  set (pairs := map (fun x => (x, Series.count x l)) (Series.unique l)).
  set (key := fun p : string * nat => Z.of_nat (snd p)).
  pose proof (sort_desc_perm key pairs) as Hperm.
  assert (Hfst : map fst pairs = Series.unique l).
  { unfold pairs. rewrite map_map. simpl. apply map_id. }
  assert (Hsnd : map snd pairs = map (fun x => Series.count x l) (Series.unique l)).
  { unfold pairs. rewrite map_map. reflexivity. }
  split; [|split; [|split; [|split]]].
  - eapply Permutation_NoDup.
    + apply Permutation_map, Permutation_sym, Hperm.
    + rewrite Hfst. apply unique_NoDup.
  - intros x. rewrite <- (unique_In l x), <- Hfst. split; intros H.
    + eapply Permutation_in; [apply Permutation_map, Hperm | exact H].
    + eapply Permutation_in; [apply Permutation_map, Permutation_sym, Hperm | exact H].
  - intros x k Hin.
    apply (Permutation_in _ Hperm) in Hin. unfold pairs in Hin.
    apply in_map_iff in Hin. destruct Hin as [y [E Hy]].
    inversion E; subst. split; [reflexivity|].
    apply count_positive. now apply unique_In.
  - rewrite <- counts_sum_all, <- Hsnd.
    apply Permutation_list_sum. apply Permutation_map, Hperm.
  - rewrite <- (map_id (Pandas.sort_desc key pairs)).
    apply StronglySorted_map_in with (R := fun a b => (key b <= key a)%Z).
    + apply sort_desc_sorted.
    + intros p q _ _. unfold key. lia.
Qed.

(** X15. On a table with at least one row, [visualize_top_batsmen] and
    [visualize_bowling_analysis] draw the rows [top_performers] prints for
    the same [n], in the same order: the first chart has one bar per
    printed row, labelled with its player, and there are
    [min n (table size)] of them.  The pie chart tallies the
    teams of these rows: each team once, with a positive count, the counts
    adding up to the number of rows, the largest first.  Nothing is
    printed and the object is unchanged. *)
Theorem top_figures_show_the_printed_rows
    (b : list Batting.row) (w : list Bowling.row)
    (f : option (list Fielding.row)) (t : option (list Teams.row)) (n : Z) :
  (0 <= n)%Z ->
  let self := mkAnalyzer (Some b) (Some w) f t in
  (b <> [] ->
   exists sel fig counts,
      top_performers "batting" n self
      = mkResult
          (top_header "batting" n
           ++ [PrintFrame batting_columns (map batting_cells sel)])
          self (Returned tt) /\
      visualize_top_batsmen n self = mkResult [] self (Returned fig) /\
      In (0%nat, 0%nat,
          mkAxes "Total Runs" "Players" "Runs"
            [bar (map CInt (range (List.length sel)))
               (map (fun r => CInt (Batting.Runs r)) sel)]
            (Some (map CInt (range (List.length sel))))
            (Some (map Batting.Player sel)) None None)
        (subplots fig) /\
      In (1%nat, 1%nat,
          mkAxes "Team Distribution (Top Batsmen)" EmptyString EmptyString
            [tally_pie counts] None None None None)
        (subplots fig) /\
      Z.of_nat (List.length sel) = Z.min n (Z.of_nat (List.length b)) /\
      team_tally (map Batting.Team sel) counts) /\
  (w <> [] ->
   exists sel fig counts,
      top_performers "bowling" n self
      = mkResult
          (top_header "bowling" n
           ++ [PrintFrame bowling_columns (map bowling_cells sel)])
          self (Returned tt) /\
      visualize_bowling_analysis n self = mkResult [] self (Returned fig) /\
      In (0%nat, 0%nat,
          mkAxes "Total Wickets" "Bowlers" "Wickets"
            [bar (map CInt (range (List.length sel)))
               (map (fun r => CInt (Bowling.Wickets r)) sel)]
            (Some (map CInt (range (List.length sel))))
            (Some (map Bowling.Player sel)) None None)
        (subplots fig) /\
      In (1%nat, 1%nat,
          mkAxes "Team Distribution (Top Bowlers)" EmptyString EmptyString
            [tally_pie counts] None None None None)
        (subplots fig) /\
      Z.of_nat (List.length sel) = Z.min n (Z.of_nat (List.length w)) /\
      team_tally (map Bowling.Team sel) counts).
Proof.
  intros Hn self. split.
  - intros Hb. exists (Pandas.top_rows Batting.Runs n b). eexists.
    exists (Series.value_counts
              (map Batting.Team (Pandas.top_rows Batting.Runs n b))).
    split; [now apply top_performers_batting_run|].
    split; [destruct b; [contradiction | reflexivity]|].
    split; [simpl; auto|]. split; [simpl; auto 6|].
    split; [now apply nlargest_length | apply value_counts_spec].
  - intros Hw. exists (Pandas.top_rows Bowling.Wickets n w). eexists.
    exists (Series.value_counts
              (map Bowling.Team (Pandas.top_rows Bowling.Wickets n w))).
    split; [now apply top_performers_bowling_run|].
    split; [destruct w; [contradiction | reflexivity]|].
    split; [simpl; auto|]. split; [simpl; auto 6|].
    split; [now apply nlargest_length | apply value_counts_spec].
Qed.

Lemma top_figures_show_the_printed_rows_witness :
  (0 <= 2)%Z /\ scenario_batting <> [] /\
  exists sel fig counts,
    top_performers "batting" 2 scenario_analyzer
    = mkResult
        (top_header "batting" 2
         ++ [PrintFrame batting_columns (map batting_cells sel)])
        scenario_analyzer (Returned tt) /\
    visualize_top_batsmen 2 scenario_analyzer
    = mkResult [] scenario_analyzer (Returned fig) /\
    In (0%nat, 0%nat,
        mkAxes "Total Runs" "Players" "Runs"
          [bar (map CInt (range (List.length sel)))
             (map (fun r => CInt (Batting.Runs r)) sel)]
          (Some (map CInt (range (List.length sel))))
          (Some (map Batting.Player sel)) None None)
      (subplots fig) /\
    In (1%nat, 1%nat,
        mkAxes "Team Distribution (Top Batsmen)" EmptyString EmptyString
          [tally_pie counts] None None None None)
      (subplots fig) /\
    Z.of_nat (List.length sel) = Z.min 2 (Z.of_nat (List.length scenario_batting)) /\
    team_tally (map Batting.Team sel) counts.
Proof.
  split; [lia|]. split; [discriminate|].
  apply (proj1 (top_figures_show_the_printed_rows scenario_batting
                  scenario_bowling (Some scenario_fielding)
                  (Some scenario_teams) 2 ltac:(lia))).
  discriminate.
Defined.

Lemma playoff_split (t : list Teams.row) :
  (List.length (filter (fun r => (Teams.Position r <=? 4)%Z) t)
   + List.length (filter (fun r => (Teams.Position r >? 4)%Z) t))%nat
  = List.length t.
Proof.
  induction t as [|r t IH]; simpl; [reflexivity|].
  rewrite Z.gtb_ltb.
  destruct (Z.leb_spec (Teams.Position r) 4), (Z.ltb_spec 4 (Teams.Position r));
    simpl; lia.
Qed.

Lemma filter_length_perm {A : Type} (p : A -> bool) (l l' : list A) :
  Permutation l l' -> List.length (filter p l) = List.length (filter p l').
Proof.
  induction 1 as [| x l l' _ IH | x y l | l l' l'' _ IH1 _ IH2]; simpl.
  - reflexivity.
  - destruct (p x); simpl; now rewrite IH.
  - destruct (p x), (p y); reflexivity.
  - now rewrite IH1.
Qed.

Lemma filter_length_map {A B : Type} (g : A -> B) (p : B -> bool) (l : list A) :
  List.length (filter (fun a => p (g a)) l) = List.length (filter p (map g l)).
Proof.
  induction l as [|a l IH]; simpl; [reflexivity|].
  destruct (p (g a)); simpl; now rewrite IH.
Qed.

Lemma first_four_of (N : nat) :
  List.length (filter (fun z => (z <=? 4)%Z) (map Z.of_nat (seq 1 N)))
  = Nat.min 4 N.
Proof.
  induction N as [|N IH]; [reflexivity|].
  rewrite seq_S, map_app, filter_app, length_app, IH. cbn [map filter].
  destruct (Z.leb_spec (Z.of_nat (1 + N)) 4); cbn [List.length]; lia.
Qed.

(** X16. The playoff pie of [team_analysis] splits the teams in two with
    none lost: the teams with Position at most 4 and those with Position
    above 4 add up to the number of teams.  When the positions are
    1 to N, each once, the first slice counts [min 4 N] teams and the
    second the [N - 4] others.  Nothing is printed and the object is
    unchanged. *)
Theorem team_analysis_playoff_split
    (b : option (list Batting.row)) (w : option (list Bowling.row))
    (f : option (list Fielding.row)) (t : list Teams.row) :
  let self := mkAnalyzer b w f (Some t) in
  exists fig playoff others,
    team_analysis self = mkResult [] self (Returned fig) /\
    In (1%nat, 2%nat,
        mkAxes "Playoff Qualification" EmptyString EmptyString
          [pie [CInt (Z.of_nat playoff); CInt (Z.of_nat others)]
             ["Playoff Teams"; "Non-Playoff Teams"]]
          None None None None)
      (subplots fig) /\
    (playoff + others)%nat = List.length t /\
    forall N,
      Permutation (map Teams.Position t) (map Z.of_nat (seq 1 N)) ->
      playoff = Nat.min 4 N /\ others = (N - 4)%nat.
Proof.
  intros self.
  eexists.
  exists (List.length (filter (fun r => (Teams.Position r <=? 4)%Z) t)),
    (List.length (filter (fun r => (Teams.Position r >? 4)%Z) t)).
  split; [unfold team_analysis, self, bind; simpl; rewrite !length_map;
          reflexivity|].
  split; [simpl; auto 10|].
  split; [apply playoff_split|].
  intros N Hperm.
  assert (Hp : List.length (filter (fun r => (Teams.Position r <=? 4)%Z) t)
               = Nat.min 4 N).
  { rewrite (filter_length_map Teams.Position (fun z => (z <=? 4)%Z)).
    rewrite (filter_length_perm _ _ _ Hperm). apply first_four_of. }
  split; [exact Hp|].
  pose proof (playoff_split t) as Hsum.
  apply Permutation_length in Hperm. rewrite !length_map, length_seq in Hperm.
  lia.
Qed.

Lemma team_analysis_playoff_split_witness :
  Permutation (map Teams.Position scenario_teams) (map Z.of_nat (seq 1 2)) /\
  exists fig playoff others,
    team_analysis scenario_analyzer
    = mkResult [] scenario_analyzer (Returned fig) /\
    In (1%nat, 2%nat,
        mkAxes "Playoff Qualification" EmptyString EmptyString
          [pie [CInt (Z.of_nat playoff); CInt (Z.of_nat others)]
             ["Playoff Teams"; "Non-Playoff Teams"]]
          None None None None)
      (subplots fig) /\
    (playoff + others)%nat = List.length scenario_teams /\
    playoff = Nat.min 4 2 /\ others = (2 - 4)%nat.
Proof.
  assert (Hperm : Permutation (map Teams.Position scenario_teams)
                    (map Z.of_nat (seq 1 2))) by apply perm_swap.
  split; [exact Hperm|].
  destruct (team_analysis_playoff_split (Some scenario_batting)
              (Some scenario_bowling) (Some scenario_fielding) scenario_teams)
    as [fig [playoff [others [Hrun [Hin [Hsum Hpos]]]]]].
  exists fig, playoff, others.
  split; [exact Hrun|]. split; [exact Hin|]. split; [exact Hsum|].
  exact (Hpos 2%nat Hperm).
Defined.

(* ================================================================== *)
(** * Further properties: the menu and the example script *)
(* ================================================================== *)

Lemma rstrip_idem (s : string) : rstrip (rstrip s) = rstrip s.
Proof.
  induction s as [|c s IH]; simpl; [reflexivity|].
  destruct (rstrip s) as [|c' r] eqn:E.
  - destruct (is_space c) eqn:Hc; simpl; [reflexivity|]. now rewrite Hc.
  - change (rstrip (String c (String c' r)))
      with (match rstrip (String c' r) with
            | EmptyString => if is_space c then EmptyString else String c EmptyString
            | String a r' => String c (String a r')
            end).
    now rewrite IH.
Qed.

Lemma lstrip_head (s : string) :
  lstrip s = EmptyString \/
  exists c s', lstrip s = String c s' /\ is_space c = false.
Proof.
  induction s as [|c s IH]; simpl; [now left|].
  destruct (is_space c) eqn:Hc; [exact IH|].
  right. now exists c, s.
Qed.

Lemma lstrip_rstrip (c : ascii) (s : string) :
  is_space c = false -> lstrip (rstrip (String c s)) = rstrip (String c s).
Proof.
  intros Hc. simpl. destruct (rstrip s); rewrite ?Hc; simpl; now rewrite Hc.
Qed.

Lemma strip_idem (s : string) : strip (strip s) = strip s.
Proof.
  unfold strip.
  destruct (lstrip_head s) as [E | [c [s' [E Hc]]]]; rewrite E.
  - reflexivity.
  - rewrite (lstrip_rstrip c s' Hc). apply rstrip_idem.
Qed.

Lemma ending_call (r : Result unit) (next : IPLAnalyzer -> Session) :
  ending (call r next)
  = match outcome r with
    | Returned _ => ending (next (final r))
    | Raised e => Uncaught e
    end.
Proof. unfold call. now destruct (outcome r). Qed.

Lemma ending_call_plot (r : Result Figure) (next : IPLAnalyzer -> Session) :
  ending (call_plot r next)
  = match outcome r with
    | Returned _ => ending (next (final r))
    | Raised e => Uncaught e
    end.
Proof. unfold call_plot. now destruct (outcome r). Qed.

Lemma call_ext (r : Result unit) (next next' : IPLAnalyzer -> Session) :
  (forall a, next a = next' a) -> call r next = call r next'.
Proof. intros H. unfold call. destruct (outcome r); [now rewrite H | reflexivity]. Qed.

Lemma call_plot_ext (r : Result Figure) (next next' : IPLAnalyzer -> Session) :
  (forall a, next a = next' a) -> call_plot r next = call_plot r next'.
Proof.
  intros H. unfold call_plot. destruct (outcome r); [now rewrite H | reflexivity].
Qed.

(** The branches of the menu, one goal for each choice. *)
Ltac by_choice line :=
  destruct (strip line =? "1") eqn:?H1;
  [| destruct (strip line =? "2") eqn:?H2;
  [| destruct (strip line =? "3") eqn:?H3;
  [| destruct (strip line =? "4") eqn:?H4;
  [| destruct (strip line =? "5") eqn:?H5;
  [| destruct (strip line =? "6") eqn:?H6;
  [| destruct (strip line =? "7") eqn:?H7;
  [| destruct (strip line =? "8") eqn:?H8;
  [| destruct (strip line =? "9") eqn:?H9;
  [| destruct (strip line =? "0") eqn:?H0 ]]]]]]]]].

Lemma menu_loop_strip (n : nat) :
  forall clock stdin tick analyzer,
    (List.length stdin <= n)%nat ->
    menu_loop clock (map strip stdin) tick analyzer
    = menu_loop clock stdin tick analyzer.
Proof.
  induction n as [|n IH]; intros clock stdin tick analyzer Hlen.
  - destruct stdin; [reflexivity | simpl in Hlen; lia].
  - destruct stdin as [|line rest]; [reflexivity|].
    simpl in Hlen. cbn [map menu_loop]. rewrite strip_idem.
    f_equal. f_equal.
    by_choice line;
      try (apply call_ext; intros a; apply IH; lia);
      try (apply call_plot_ext; intros a; apply IH; lia).
    + f_equal.
      destruct rest as [|category rest1]; [reflexivity|].
      destruct rest1 as [|player1 rest2]; [reflexivity|].
      destruct rest2 as [|player2 rest3]; [reflexivity|].
      cbn [map]. rewrite !strip_idem. simpl in Hlen.
      do 3 f_equal. apply call_ext. intros a. apply IH. lia.
    + reflexivity.
    + f_equal. apply IH. lia.
Qed.

(** X17. White space around a typed line is ignored: a session of the menu
    runs the same on the input lines as on the same lines stripped of
    surrounding white space, for the choices as for the category and the
    player names. *)
Theorem menu_ignores_surrounding_space
    (dir : Directory) (clock : nat -> datetime) (stdin : list string) :
  main dir clock (map strip stdin) = main dir clock stdin.
Proof.
  unfold main. f_equal. apply call_ext. intros a.
  apply (menu_loop_strip (List.length stdin)). lia.
Qed.

Lemma menu_loop_finished (n : nat) :
  forall clock stdin tick analyzer,
    (List.length stdin <= n)%nat ->
    ending (menu_loop clock stdin tick analyzer) = Finished ->
    exists line, In line stdin /\ strip line = "0".
Proof.
  induction n as [|n IH]; intros clock stdin tick analyzer Hlen Hend.
  - destruct stdin; [discriminate Hend | simpl in Hlen; lia].
  - destruct stdin as [|line rest]; [discriminate Hend|].
    simpl in Hlen. cbn [menu_loop after ending] in Hend.
    assert (Hrest : forall tick' a,
               ending (menu_loop clock rest tick' a) = Finished ->
               exists l, In l (line :: rest) /\ strip l = "0").
    { intros tick' a H. destruct (IH clock rest tick' a) as [l [Hl Hs]];
        [lia | exact H |]. exists l. split; [now right | exact Hs]. }
    by_choice line;
      try (rewrite ending_call in Hend;
           destruct (outcome _); [eapply Hrest; exact Hend | discriminate Hend]);
      try (rewrite ending_call_plot in Hend;
           destruct (outcome _); [eapply Hrest; exact Hend | discriminate Hend]).
    + destruct rest as [|category rest1]; [discriminate Hend|].
      destruct rest1 as [|player1 rest2]; [discriminate Hend|].
      destruct rest2 as [|player2 rest3]; [discriminate Hend|].
      cbn [after ending] in Hend. rewrite ending_call in Hend.
      destruct (outcome _); [|discriminate Hend].
      apply IH in Hend; [|simpl in Hlen; lia].
      destruct Hend as [l [Hl Hs]].
      exists l. split; [simpl; auto | exact Hs].
    + exists line. split; [now left | now apply String.eqb_eq].
    + eapply Hrest. exact Hend.
Qed.

(** X18. The menu ends normally only through the choice 0: when [main]
    returns, one of the typed lines is 0 up to surrounding white space.
    Without such a line a session ends with an uncaught exception or with
    [input] reaching the end of the standard input. *)
Theorem main_finishes_only_on_zero
    (dir : Directory) (clock : nat -> datetime) (stdin : list string) :
  ending (main dir clock stdin) = Finished ->
  exists line, In line stdin /\ strip line = "0".
Proof.
  unfold main. cbn [after ending]. rewrite ending_call.
  destruct (outcome (new dir)); [|discriminate].
  apply (menu_loop_finished (List.length stdin)). lia.
Qed.

Lemma main_finishes_only_on_zero_witness :
  ending (main complete_directory scenario_clock ["2"; " 0 "; "1"]) = Finished /\
  exists line, In line ["2"; " 0 "; "1"] /\ strip line = "0".
Proof.
  split; [reflexivity|].
  apply (main_finishes_only_on_zero complete_directory scenario_clock).
  reflexivity.
Defined.

Lemma ready_display_summary (a : IPLAnalyzer) :
  ready a -> exists tr, display_summary a = mkResult tr a (Returned tt).
Proof.
  intros [b [w [f [t [-> [Hb [Hw Hf]]]]]]].
  destruct (row_of_max_run Batting.Runs b Hb) as [o [_ Ho]].
  destruct (row_of_max_run Bowling.Wickets w Hw) as [p [_ Hp]].
  destruct (row_of_max_run Fielding.Catches f Hf) as [c [_ Hc]].
  eexists. now apply display_summary_run.
Qed.

Lemma ready_generate_report (filename : string) (now : datetime) (a : IPLAnalyzer) :
  ready a -> exists tr, generate_report filename now a = mkResult tr a (Returned tt).
Proof.
  intros [b [w [f [t [-> [Hb [Hw Hf]]]]]]].
  destruct (row_of_max_run Batting.Runs b Hb) as [o [_ Ho]].
  destruct (row_of_max_run Bowling.Wickets w Hw) as [p [_ Hp]].
  destruct (row_of_max_run Fielding.Catches f Hf) as [c [_ Hc]].
  eexists. now apply generate_report_run.
Qed.

Lemma ready_top_performers (category : string) (n : Z) (a : IPLAnalyzer) :
  ready a -> exists tr, top_performers category n a = mkResult tr a (Returned tt).
Proof.
  intros [b [w [f [t [-> [Hb [Hw Hf]]]]]]]. unfold top_performers.
  destruct b as [|x b]; [contradiction|].
  destruct w as [|y w]; [contradiction|].
  destruct f as [|z f]; [contradiction|].
  destruct (lower category =? "batting"); [eexists; reflexivity|].
  destruct (lower category =? "bowling"); [eexists; reflexivity|].
  destruct (lower category =? "fielding"); eexists; reflexivity.
Qed.

Lemma ready_compare_players (player1 player2 category : string) (a : IPLAnalyzer) :
  ready a ->
  (lower category = "bowling" ->
   forall w, bowling_df a = Some w ->
             has_strike_rate w \/
             (~ present Bowling.Player player1 w \/
              ~ present Bowling.Player player2 w)) ->
  exists tr, compare_players player1 player2 category a = mkResult tr a (Returned tt).
Proof.
  intros [b [w [f [t [-> _]]]]] Hsr.
  pose proof (compare_players_keeps player1 player2 category
                (mkAnalyzer (Some b) (Some w) (Some f) (Some t))) as [Hfinal _].
  assert (Hout : outcome (compare_players player1 player2 category
                            (mkAnalyzer (Some b) (Some w) (Some f) (Some t)))
                 = Returned tt).
  { unfold compare_players.
    destruct (lower category =? "batting").
    - rewrite (bind_getattr _ _ _ _ b) by reflexivity.
      apply compare_in_chart_iff, batting_values_run.
    - destruct (String.eqb_spec (lower category) "bowling") as [E | _];
        [|reflexivity].
      rewrite (bind_getattr _ _ _ _ w) by reflexivity.
      destruct (Hsr E w eq_refl) as [H | H].
      + now apply compare_in_chart_iff, bowling_values_run.
      + now rewrite compare_in_not_found. }
  destruct (compare_players player1 player2 category _) as [tr s o].
  simpl in *. subst. now exists tr.
Qed.

Lemma ready_figures (n : Z) (a : IPLAnalyzer) :
  ready a ->
  (exists fig, visualize_top_batsmen n a = mkResult [] a (Returned fig)) /\
  (exists fig, visualize_bowling_analysis n a = mkResult [] a (Returned fig)) /\
  (exists fig, team_analysis a = mkResult [] a (Returned fig)).
Proof.
  intros [b [w [f [t [-> [Hb [Hw Hf]]]]]]].
  destruct b as [|x b]; [contradiction|].
  destruct w as [|y w]; [contradiction|].
  repeat split; eexists; reflexivity.
Qed.

Lemma menu_loop_never_raises (n : nat) :
  forall clock stdin tick analyzer,
    (List.length stdin <= n)%nat -> ready analyzer ->
    (forall w, bowling_df analyzer = Some w -> has_strike_rate w) ->
    ending (menu_loop clock stdin tick analyzer) = Finished \/
    ending (menu_loop clock stdin tick analyzer) = EndOfInput.
Proof.
  induction n as [|n IH]; intros clock stdin tick analyzer Hlen Hready Hsr.
  - destruct stdin; [now right | simpl in Hlen; lia].
  - destruct stdin as [|line rest]; [now right|].
    simpl in Hlen. cbn [menu_loop after ending].
    destruct (ready_figures 10 analyzer Hready)
      as [[fig1 E1] [[fig2 E2] [fig3 E3]]].
    by_choice line.
    + destruct (ready_display_summary analyzer Hready) as [tr E].
      rewrite ending_call, E. apply IH; [lia | assumption | assumption].
    + destruct (ready_top_performers "batting" 10 analyzer Hready) as [tr E].
      rewrite ending_call, E. apply IH; [lia | assumption | assumption].
    + destruct (ready_top_performers "bowling" 10 analyzer Hready) as [tr E].
      rewrite ending_call, E. apply IH; [lia | assumption | assumption].
    + destruct (ready_top_performers "fielding" 10 analyzer Hready) as [tr E].
      rewrite ending_call, E. apply IH; [lia | assumption | assumption].
    + rewrite ending_call_plot, E1. apply IH; [lia | assumption | assumption].
    + rewrite ending_call_plot, E2. apply IH; [lia | assumption | assumption].
    + rewrite ending_call_plot, E3. apply IH; [lia | assumption | assumption].
    + destruct rest as [|category rest1]; [now right|].
      destruct rest1 as [|player1 rest2]; [now right|].
      destruct rest2 as [|player2 rest3]; [now right|].
      cbn [after ending].
      destruct (ready_compare_players (strip player1) (strip player2)
                  (strip category) analyzer Hready) as [tr E];
        [intros _ w Hw; left; now apply Hsr|].
      rewrite ending_call, E.
      apply IH; [simpl in Hlen; lia | assumption | assumption].
    + destruct (ready_generate_report default_report (clock tick) analyzer Hready)
        as [tr E].
      rewrite ending_call, E. apply IH; [lia | assumption | assumption].
    + now left.
    + apply IH; [lia | assumption | assumption].
Qed.

(** X19. When all four files are readable, the batting, bowling and
    fielding files have a row and the bowling file has its Strike_Rate
    column, no menu choice makes the analyzer raise: whatever is typed,
    [main] ends by the choice 0 or by [input] reaching the end of the
    standard input, never with an uncaught exception of the analyzer.
    Without the column, the choice 8 with the category bowling and two
    bowlers of the table ends the session with the [KeyError] of the
    column.  (A figure handed to the plotting library is taken as
    shown.) *)
Theorem menu_never_raises_on_loaded_tables
    (b : list Batting.row) (w : list Bowling.row) (f : list Fielding.row)
    (t : list Teams.row) (clock : nat -> datetime) :
  b <> [] -> w <> [] -> f <> [] ->
  let dir := mkDirectory (Csv b) (Csv w) (Csv f) (Csv t) in
  (has_strike_rate w ->
   forall stdin,
     ending (main dir clock stdin) = Finished \/
     ending (main dir clock stdin) = EndOfInput) /\
  (lacks_strike_rate w ->
   forall player1 player2 rest,
     present Bowling.Player (strip player1) w ->
     present Bowling.Player (strip player2) w ->
     ending (main dir clock ("8" :: "bowling" :: player1 :: player2 :: rest))
     = Uncaught (MissingColumn "Strike_Rate")).
Proof.
  intros Hb Hw Hf dir. unfold dir, main. split.
  - intros Hsr stdin.
    cbn [after ending]. rewrite ending_call.
    change (outcome (new (mkDirectory (Csv b) (Csv w) (Csv f) (Csv t))))
      with (@Returned unit tt).
    change (final (new (mkDirectory (Csv b) (Csv w) (Csv f) (Csv t))))
      with (mkAnalyzer (Some b) (Some w) (Some f) (Some t)).
    apply (menu_loop_never_raises (List.length stdin)); [lia | |].
    + now exists b, w, f, t.
    + intros w' E. inversion E. now subst.
  - intros Hno player1 player2 rest Hp1 Hp2.
    cbn [after ending]. rewrite ending_call.
    change (outcome (new (mkDirectory (Csv b) (Csv w) (Csv f) (Csv t))))
      with (@Returned unit tt).
    change (final (new (mkDirectory (Csv b) (Csv w) (Csv f) (Csv t))))
      with (mkAnalyzer (Some b) (Some w) (Some f) (Some t)).
    cbn [menu_loop after ending].
    change (strip "8") with "8". cbn [String.eqb Ascii.eqb Bool.eqb].
    cbn [after ending]. change (strip "bowling") with "bowling".
    rewrite ending_call.
    now rewrite (compare_players_missing_column
                   (mkAnalyzer (Some b) (Some w) (Some f) (Some t))
                   (strip player1) (strip player2) "bowling" w
                   eq_refl eq_refl Hno Hp1 Hp2).
Qed.

Lemma menu_never_raises_on_loaded_tables_witness :
  scenario_batting <> [] /\ scenario_bowling <> [] /\ scenario_fielding <> [] /\
  has_strike_rate scenario_bowling /\
  (ending (main complete_directory scenario_clock ["1"; "9"; "8"; "x"; "A"; "B"])
   = Finished \/
   ending (main complete_directory scenario_clock ["1"; "9"; "8"; "x"; "A"; "B"])
   = EndOfInput).
Proof.
  assert (Hsr : has_strike_rate scenario_bowling)
    by (intros r [<- | [<- | []]]; discriminate).
  split; [discriminate|]. split; [discriminate|]. split; [discriminate|].
  split; [exact Hsr|].
  exact (proj1 (menu_never_raises_on_loaded_tables scenario_batting
                  scenario_bowling scenario_fielding stored_teams scenario_clock
                  ltac:(discriminate) ltac:(discriminate) ltac:(discriminate))
           Hsr ["1"; "9"; "8"; "x"; "A"; "B"]).
Defined.

(** X20. With a table unset or with an empty batting, bowling or fielding
    table, the choices 1 (summary) and 9 (report) end the session with an
    uncaught exception, whatever was to be typed next. *)
Theorem summary_and_report_choices_raise_when_not_ready
    (analyzer : IPLAnalyzer) (clock : nat -> datetime) (line : string)
    (rest : list string) (tick : nat) :
  ~ ready analyzer ->
  strip line = "1" \/ strip line = "9" ->
  exists e, ending (menu_loop clock (line :: rest) tick analyzer) = Uncaught e.
Proof.
  intros Hnot Hline. cbn [menu_loop after ending].
  destruct Hline as [-> | ->]; cbn [String.eqb Ascii.eqb Bool.eqb].
  - destruct (display_summary_raises analyzer Hnot) as [tr [e E]].
    exists e. now rewrite ending_call, E.
  - destruct (generate_report_raises default_report (clock tick) analyzer Hnot)
      as [tr [e [E _]]].
    exists e. now rewrite ending_call, E.
Qed.

Lemma summary_and_report_choices_raise_when_not_ready_witness :
  ~ ready (mkAnalyzer (Some []) (Some scenario_bowling) (Some scenario_fielding)
             (Some scenario_teams)) /\
  strip " 1" = "1" /\
  exists e,
    ending (menu_loop scenario_clock [" 1"; "0"] 0
              (mkAnalyzer (Some []) (Some scenario_bowling)
                 (Some scenario_fielding) (Some scenario_teams)))
    = Uncaught e.
Proof.
  assert (H : ~ ready (mkAnalyzer (Some []) (Some scenario_bowling)
                         (Some scenario_fielding) (Some scenario_teams))).
  { intros [b [w [f [t [E [Hb _]]]]]]. inversion E. subst. now apply Hb. }
  split; [exact H|]. split; [reflexivity|].
  apply (summary_and_report_choices_raise_when_not_ready _ scenario_clock " 1"
           ["0"] 0%nat H).
  now left.
Defined.

Lemma menu_loop_asks (clock : nat -> datetime) (stdin : list string) (tick : nat)
    (analyzer : IPLAnalyzer) :
  In (Asked choice_prompt) (steps (menu_loop clock stdin tick analyzer)).
Proof.
  destruct stdin; cbn [menu_loop after steps];
    apply in_or_app; right; now left.
Qed.

Lemma console_never_asks (prompt : string) (tr : list Event) :
  ~ In (Asked prompt) (map Console tr).
Proof.
  intros H. apply in_map_iff in H. destruct H as [ev [E _]]. discriminate E.
Qed.

Lemma new_returns_complete (dir : Directory) :
  outcome (new dir) = Returned tt ->
  exists b w f t,
    dir = mkDirectory (Csv b) (Csv w) (Csv f) (Csv t) /\
    final (new dir) = mkAnalyzer (Some b) (Some w) (Some f) (Some t).
Proof.
  destruct dir as [sb sw sf st]. intros H.
  destruct sb as [|[]|b]; try discriminate H.
  destruct sw as [|[]|w]; try discriminate H.
  destruct sf as [|[]|f]; try discriminate H.
  destruct st as [|[]|t]; try discriminate H.
  now exists b, w, f, t.
Qed.

(** X21. The menu is reached exactly when all four files are readable:
    [main] asks for a choice if and only if they are, and otherwise ends
    with the exception of the constructor before anything is asked. *)
Theorem main_reaches_menu_iff_files_readable
    (dir : Directory) (clock : nat -> datetime) (stdin : list string) :
  ((exists prompt, In (Asked prompt) (steps (main dir clock stdin))) <->
   exists b w f t, dir = mkDirectory (Csv b) (Csv w) (Csv f) (Csv t)) /\
  ((forall b w f t, dir <> mkDirectory (Csv b) (Csv w) (Csv f) (Csv t)) ->
   exists e, ending (main dir clock stdin) = Uncaught e).
Proof.
  unfold main. cbn [after steps ending]. unfold call.
  destruct (outcome (new dir)) as [[]|e] eqn:Hout.
  - destruct (new_returns_complete dir Hout) as [b [w [f [t [Hdir _]]]]].
    split.
    + split; [intros _; now exists b, w, f, t|].
      intros _. exists choice_prompt. cbn [after steps].
      apply in_or_app; right. apply in_or_app; right.
      apply menu_loop_asks.
    + intros Hnot. exfalso. now apply (Hnot b w f t).
  - split.
    + split.
      * intros [prompt H]. cbn [steps] in H.
        apply in_app_or in H. destruct H as [[H | [H | []]] | H];
          try discriminate H.
        now apply console_never_asks in H.
      * intros [b [w [f [t ->]]]]. discriminate Hout.
    + intros _. now exists e.
Qed.

Lemma main_reaches_menu_iff_files_readable_witness :
  (forall b w f t,
      scenario_directory <> mkDirectory (Csv b) (Csv w) (Csv f) (Csv t)) /\
  exists e, ending (main scenario_directory scenario_clock ["0"]) = Uncaught e.
Proof.
  assert (H : forall b w f t,
             scenario_directory <> mkDirectory (Csv b) (Csv w) (Csv f) (Csv t))
    by (intros b w f t E; discriminate E).
  split; [exact H|].
  apply (proj2 (main_reaches_menu_iff_files_readable scenario_directory
                  scenario_clock ["0"]) H).
Defined.

Lemma example_usage_missing_column
    (b : list Batting.row) (w : list Bowling.row) (f : list Fielding.row)
    (t : list Teams.row) (now : datetime) :
  b <> [] -> w <> [] -> f <> [] -> lacks_strike_rate w ->
  present Bowling.Player "Prasidh Krishna" w ->
  present Bowling.Player "Josh Hazlewood" w ->
  ending (example_usage (mkDirectory (Csv b) (Csv w) (Csv f) (Csv t)) now)
  = Uncaught (MissingColumn "Strike_Rate").
Proof.
  intros Hb Hw Hf Hno Hp1 Hp2.
  unfold example_usage. rewrite ending_call.
  change (outcome (new (mkDirectory (Csv b) (Csv w) (Csv f) (Csv t))))
    with (@Returned unit tt).
  change (final (new (mkDirectory (Csv b) (Csv w) (Csv f) (Csv t))))
    with (mkAnalyzer (Some b) (Some w) (Some f) (Some t)).
  set (a := mkAnalyzer (Some b) (Some w) (Some f) (Some t)).
  assert (Hready : ready a) by now exists b, w, f, t.
  destruct (ready_display_summary a Hready) as [tr1 E1].
  destruct (ready_top_performers "batting" 5 a Hready) as [tr2 E2].
  destruct (ready_top_performers "bowling" 5 a Hready) as [tr3 E3].
  destruct (ready_figures 10 a Hready) as [[fig1 F1] [[fig2 F2] [fig3 F3]]].
  destruct (ready_compare_players "Sai Sudharsan" "Virat Kohli" "batting"
              a Hready) as [tr4 E4]; [discriminate|].
  rewrite ending_call, E1. cbn [outcome final].
  rewrite ending_call, E2. cbn [outcome final].
  rewrite ending_call, E3. cbn [outcome final].
  rewrite ending_call_plot, F1. cbn [outcome final].
  rewrite ending_call_plot, F2. cbn [outcome final].
  rewrite ending_call_plot, F3. cbn [outcome final].
  rewrite ending_call, E4. cbn [outcome final].
  rewrite ending_call.
  now rewrite (compare_players_missing_column a "Prasidh Krishna"
                 "Josh Hazlewood" "bowling" w eq_refl eq_refl Hno Hp1 Hp2).
Qed.

(** X22. The example script reaches its last line, "Analysis complete!",
    only when all four files are readable.  For a bowling file with or
    without its Strike_Rate column, it does so exactly when the batting,
    bowling and fielding files have a row and the bowling comparison can
    be drawn or reports a missing player: the column is there, or one of
    the two bowlers is not in the table.  Without the column and with both
    bowlers in the table, the script ends at that comparison with the
    [KeyError] of the column.  (A figure handed to the plotting library
    is taken as shown.) *)
Theorem example_usage_completes_iff
    (dir : Directory) (now : datetime) :
  (ending (example_usage dir now) = Finished ->
   exists b w f t, dir = mkDirectory (Csv b) (Csv w) (Csv f) (Csv t)) /\
  (forall b w f t,
      dir = mkDirectory (Csv b) (Csv w) (Csv f) (Csv t) ->
      has_strike_rate w \/ lacks_strike_rate w ->
      (ending (example_usage dir now) = Finished <->
       b <> [] /\ w <> [] /\ f <> [] /\
       (has_strike_rate w \/
        (~ present Bowling.Player "Prasidh Krishna" w \/
         ~ present Bowling.Player "Josh Hazlewood" w)))) /\
  (forall b w f t,
      dir = mkDirectory (Csv b) (Csv w) (Csv f) (Csv t) ->
      b <> [] -> w <> [] -> f <> [] -> lacks_strike_rate w ->
      present Bowling.Player "Prasidh Krishna" w ->
      present Bowling.Player "Josh Hazlewood" w ->
      ending (example_usage dir now) = Uncaught (MissingColumn "Strike_Rate")).
Proof.
  split; [|split].
  - unfold example_usage. rewrite ending_call. intros H.
    destruct (outcome (new dir)) as [[]|e] eqn:Hout; [|discriminate H].
    destruct (new_returns_complete dir Hout) as [b [w [f [t [Hdir _]]]]].
    now exists b, w, f, t.
  - intros b w f t -> Huniform. split.
    + intros H.
      assert (Hne : b <> [] /\ w <> [] /\ f <> []).
      { unfold example_usage in H. rewrite ending_call in H.
        change (outcome (new (mkDirectory (Csv b) (Csv w) (Csv f) (Csv t))))
          with (@Returned unit tt) in H.
        change (final (new (mkDirectory (Csv b) (Csv w) (Csv f) (Csv t))))
          with (mkAnalyzer (Some b) (Some w) (Some f) (Some t)) in H.
        rewrite ending_call in H.
        destruct (ready_cases (mkAnalyzer (Some b) (Some w) (Some f) (Some t)))
          as [[b' [w' [f' [t' [E Hne]]]]] | Hn].
        - inversion E; subst. exact Hne.
        - exfalso.
          destruct (display_summary_raises
                      (mkAnalyzer (Some b) (Some w) (Some f) (Some t)))
            as [tr [e E]].
          + intros [b' [w' [f' [t' [E [Hb [Hw Hf]]]]]]].
            inversion E; subst. simpl in Hn.
            repeat (destruct Hn as [Hn | Hn]; [congruence|]). congruence.
          + rewrite E in H. discriminate H. }
      destruct Hne as [Hb [Hw Hf]].
      split; [exact Hb|]. split; [exact Hw|]. split; [exact Hf|].
      destruct Huniform as [Hhas | Hno]; [now left|]. right.
      destruct (present_dec Bowling.Player "Prasidh Krishna" w) as [Hp1 | Hp1];
        [|now left].
      destruct (present_dec Bowling.Player "Josh Hazlewood" w) as [Hp2 | Hp2];
        [|now right].
      rewrite (example_usage_missing_column b w f t now Hb Hw Hf Hno Hp1 Hp2) in H.
      discriminate H.
    + intros [Hb [Hw [Hf Hcmp]]].
      unfold example_usage. rewrite ending_call.
      change (outcome (new (mkDirectory (Csv b) (Csv w) (Csv f) (Csv t))))
        with (@Returned unit tt).
      change (final (new (mkDirectory (Csv b) (Csv w) (Csv f) (Csv t))))
        with (mkAnalyzer (Some b) (Some w) (Some f) (Some t)).
      set (a := mkAnalyzer (Some b) (Some w) (Some f) (Some t)).
      assert (Hready : ready a) by now exists b, w, f, t.
      destruct (ready_display_summary a Hready) as [tr1 E1].
      destruct (ready_top_performers "batting" 5 a Hready) as [tr2 E2].
      destruct (ready_top_performers "bowling" 5 a Hready) as [tr3 E3].
      destruct (ready_figures 10 a Hready) as [[fig1 F1] [[fig2 F2] [fig3 F3]]].
      destruct (ready_compare_players "Sai Sudharsan" "Virat Kohli" "batting"
                  a Hready) as [tr4 E4]; [discriminate|].
      destruct (ready_compare_players "Prasidh Krishna" "Josh Hazlewood" "bowling"
                  a Hready) as [tr5 E5];
        [intros _ w' E; inversion E; subst; exact Hcmp|].
      destruct (ready_generate_report default_report now a Hready) as [tr6 E6].
      rewrite ending_call, E1. cbn [outcome final].
      rewrite ending_call, E2. cbn [outcome final].
      rewrite ending_call, E3. cbn [outcome final].
      rewrite ending_call_plot, F1. cbn [outcome final].
      rewrite ending_call_plot, F2. cbn [outcome final].
      rewrite ending_call_plot, F3. cbn [outcome final].
      rewrite ending_call, E4. cbn [outcome final].
      rewrite ending_call, E5. cbn [outcome final].
      rewrite ending_call, E6. reflexivity.
  - intros b w f t ->. apply example_usage_missing_column.
Qed.

Lemma example_usage_completes_iff_witness :
  complete_directory
  = mkDirectory (Csv scenario_batting) (Csv scenario_bowling)
      (Csv scenario_fielding) (Csv stored_teams) /\
  (has_strike_rate scenario_bowling \/ lacks_strike_rate scenario_bowling) /\
  (scenario_batting <> [] /\ scenario_bowling <> [] /\ scenario_fielding <> [] /\
   (has_strike_rate scenario_bowling \/
    (~ present Bowling.Player "Prasidh Krishna" scenario_bowling \/
     ~ present Bowling.Player "Josh Hazlewood" scenario_bowling))) /\
  ending (example_usage complete_directory scenario_now) = Finished.
Proof.
  assert (Hsr : has_strike_rate scenario_bowling)
    by (intros r [<- | [<- | []]]; discriminate).
  assert (H : scenario_batting <> [] /\ scenario_bowling <> [] /\
              scenario_fielding <> [] /\
              (has_strike_rate scenario_bowling \/
               (~ present Bowling.Player "Prasidh Krishna" scenario_bowling \/
                ~ present Bowling.Player "Josh Hazlewood" scenario_bowling))).
  { split; [discriminate|]. split; [discriminate|]. split; [discriminate|].
    now left. }
  split; [reflexivity|]. split; [now left|]. split; [exact H|].
  exact (proj2 (proj1 (proj2 (example_usage_completes_iff complete_directory
                                scenario_now))
                  scenario_batting scenario_bowling scenario_fielding
                  stored_teams eq_refl (or_introl Hsr)) H).
Defined.
